(** * The scoring core of the AI-tools directory, embedded in Rocq

    The development follows the TypeScript sources: the recommendation
    engine ([AIRecommendationEngine]), the ROI calculator ([ROICalculator]),
    the stack builder ([ToolStackBuilder]) and the intent dispatcher of the
    chat assistant ([AIAssistant], [processUserMessage]).

    Conventions of the embedding.
    - A JavaScript [number] that the code receives or computes by [+ - * ],
      by division by a non-zero value, by [Math.min], [Math.abs] and
      [Math.round] is an exact rational ([Q]): binary rounding of IEEE
      doubles is not modelled.  Where the code can produce a non-finite
      value (the literal [Infinity], a quotient whose divisor may be zero)
      the result has type [JS.number], which adds the two infinities and NaN.
    - A string is a [string] of 8-bit characters; case conversion, [trim]
      and the character class [\d] act on the ASCII range, as they do in
      JavaScript on ASCII text.
    - An object literal used as a lookup table ([Record<string, T>]) is the
      finite map of the keys written in the literal.
    - [Math.random] and [new Date()] are read from a [World]. *)

From Stdlib Require Import Bool Arith ZArith QArith Qround.
From Stdlib Require Import Lqa Lia String Ascii List Sorted Permutation.
From Stdlib Require Import Decimal DecimalNat DecimalString.
Import ListNotations.

Open Scope string_scope.
Open Scope list_scope.
Open Scope Q_scope.

(** ** JavaScript primitives used by the sources *)

Module JS.

(** *** Characters and strings *)

Definition isDigit (c : ascii) : bool :=
  let n := nat_of_ascii c in ((48 <=? n) && (n <=? 57))%nat.

Definition isUpper (c : ascii) : bool :=
  let n := nat_of_ascii c in ((65 <=? n) && (n <=? 90))%nat.

(** White space of [String.prototype.trim] in the ASCII range:
    TAB, LF, VT, FF, CR and SPACE. *)
Definition isSpace (c : ascii) : bool :=
  let n := nat_of_ascii c in (((9 <=? n) && (n <=? 13)) || (n =? 32))%nat.

Definition lowerChar (c : ascii) : ascii :=
  if isUpper c then ascii_of_nat (nat_of_ascii c + 32) else c.

Fixpoint toLowerCase (s : string) : string :=
  match s with
  | EmptyString => EmptyString
  | String c s' => String (lowerChar c) (toLowerCase s')
  end.

Fixpoint startsWith (s p : string) {struct p} : bool :=
  match p, s with
  | EmptyString, _ => true
  | String a p', String b s' => Ascii.eqb a b && startsWith s' p'
  | String _ _, EmptyString => false
  end.

(** [s.includes(sub)]: [sub] occurs in [s] at some position. *)
Fixpoint includes (s sub : string) : bool :=
  startsWith s sub ||
  match s with
  | EmptyString => false
  | String _ s' => includes s' sub
  end.

Fixpoint trimStart (s : string) : string :=
  match s with
  | EmptyString => EmptyString
  | String c s' => if isSpace c then trimStart s' else s
  end.

Fixpoint trimEnd (s : string) : string :=
  match s with
  | EmptyString => EmptyString
  | String c s' =>
      match trimEnd s' with
      | EmptyString => if isSpace c then EmptyString else String c EmptyString
      | r => String c r
      end
  end.

Definition trim (s : string) : string := trimEnd (trimStart s).

(** [l.join(sep)] *)
Fixpoint join (sep : string) (l : list string) : string :=
  match l with
  | [] => EmptyString
  | [x] => x
  | x :: l' => append x (append sep (join sep l'))
  end.

(** [l.includes(x)] on an array of strings. *)
Definition arrayIncludes (l : list string) (x : string) : bool :=
  existsb (String.eqb x) l.

(** *** Numbers *)

Definition ltb (x y : Q) : bool := negb (Qle_bool y x).
Definition leb (x y : Q) : bool := Qle_bool x y.
Definition gtb (x y : Q) : bool := ltb y x.
Definition geb (x y : Q) : bool := leb y x.
Definition eqb (x y : Q) : bool := Qeq_bool x y.

(** Truthiness of an optional number: [undefined] and [0] are falsy. *)
Definition truthy (o : option Q) : bool :=
  match o with
  | Some r => negb (eqb r 0)
  | None => false
  end.

(** [o || d] for an optional number [o]. *)
Definition orElse (o : option Q) (d : Q) : Q :=
  match o with
  | Some r => if eqb r 0 then d else r
  | None => d
  end.

(** [Math.round]: the nearest integer, halves rounded up. *)
Definition round (x : Q) : Q := inject_Z (Qfloor (x + (1 # 2))).

Definition min (x y : Q) : Q := if leb x y then x else y.
Definition max (x y : Q) : Q := if leb x y then y else x.
Definition abs (x : Q) : Q := if ltb x 0 then - x else x.

(** Numbers that may be non-finite. *)
Inductive number : Type :=
| Finite (q : Q)
| PosInfinity
| NegInfinity
| NaN.

(** [a / b] where [b] may be zero. *)
Definition div (a b : Q) : number :=
  if eqb b 0 then
    if ltb 0 a then PosInfinity
    else if ltb a 0 then NegInfinity
    else NaN
  else Finite (a / b).

(** [x < c], [x > c] for a possibly non-finite [x] and a finite [c]. *)
Definition number_ltb (x : number) (c : Q) : bool :=
  match x with
  | Finite q => ltb q c
  | NegInfinity => true
  | PosInfinity | NaN => false
  end.

Definition number_gtb (x : number) (c : Q) : bool :=
  match x with
  | Finite q => gtb q c
  | PosInfinity => true
  | NegInfinity | NaN => false
  end.

(** [Math.round(x * 100) / 100] on a possibly non-finite [x]:
    the infinities and NaN are fixed points of [*], [Math.round] and [/]
    by a positive constant. *)
Definition round2 (x : number) : number :=
  match x with
  | Finite q => Finite (round (q * 100) / 100)
  | other => other
  end.

(** *** Arrays *)

(** [ToIntegerOrInfinity] on a finite number: truncation towards zero. *)
Definition toInteger (q : Q) : Z := Z.quot (Qnum q) (Z.pos (Qden q)).

(** [l.slice(0, e)]: a negative end counts from the end of the array. *)
Definition slice0 {A : Type} (l : list A) (e : Q) : list A :=
  let len := Z.of_nat (List.length l) in
  let rel := toInteger e in
  let final := if (rel <? 0)%Z then Z.max (len + rel) 0 else Z.min rel len in
  firstn (Z.to_nat final) l.

(** [l.sort(cmp)].  The standard requires the sort to be stable, and for a
    consistent comparator the result is then determined: it is computed
    here by stable insertion.  [cmp x y > 0] means that [y] goes first. *)
Fixpoint insertBy {A : Type} (cmp : A -> A -> Q) (x : A) (l : list A)
  : list A :=
  match l with
  | [] => [x]
  | y :: l' => if ltb 0 (cmp x y) then y :: insertBy cmp x l' else x :: l
  end.

Definition sort {A : Type} (cmp : A -> A -> Q) (l : list A) : list A :=
  fold_right (insertBy cmp) [] l.

(** [l.find(p)] *)
Definition find {A : Type} (p : A -> bool) (l : list A) : option A :=
  List.find p l.

(** [l.map(f).filter(Boolean)] when [f] yields an object or [undefined]. *)
Fixpoint filterDefined {A : Type} (l : list (option A)) : list A :=
  match l with
  | [] => []
  | Some x :: l' => x :: filterDefined l'
  | None :: l' => filterDefined l'
  end.

(** Own-key lookup in an object literal used as a table. *)
Fixpoint lookup {A : Type} (table : list (string * A)) (k : string)
  : option A :=
  match table with
  | [] => None
  | (k', v) :: table' => if String.eqb k' k then Some v else lookup table' k
  end.

(** *** The price pattern [/\$?(\d+(?:\.\d{2})?)/] *)

(** [\d*], greedy: the longest run of digits at the head, and the rest. *)
Fixpoint spanDigits (s : string) : string * string :=
  match s with
  | EmptyString => (EmptyString, EmptyString)
  | String c s' =>
      if isDigit c
      then let (ds, rest) := spanDigits s' in (String c ds, rest)
      else (EmptyString, s)
  end.

(** [(?:\.\d{2})?] at the head of [rest]: the text it consumes. *)
Definition optFraction (rest : string) : string :=
  match rest with
  | String "." (String d1 (String d2 _)) =>
      if isDigit d1 && isDigit d2
      then String "." (String d1 (String d2 EmptyString))
      else EmptyString
  | _ => EmptyString
  end.

(** [(\d+(?:\.\d{2})?)] anchored at the head of [s]: capture group 1. *)
Definition matchNumber (s : string) : option string :=
  let (ds, rest) := spanDigits s in
  match ds with
  | EmptyString => None
  | _ => Some (append ds (optFraction rest))
  end.

(** The whole pattern anchored at the head of [s]: [\$?] first tries to
    consume a dollar sign and falls back to consuming nothing. *)
Definition matchAt (s : string) : option string :=
  match s with
  | String "$" s' =>
      match matchNumber s' with
      | Some g => Some g
      | None => matchNumber s
      end
  | _ => matchNumber s
  end.

(** [s.match(/\$?(\d+(?:\.\d{2})?)/)]: the leftmost position where the
    pattern matches; [None] is JavaScript's [null], [Some g] a match whose
    group 1 is [g]. *)
Fixpoint priceMatch (s : string) : option string :=
  match matchAt s with
  | Some g => Some g
  | None =>
      match s with
      | EmptyString => None
      | String _ s' => priceMatch s'
      end
  end.

Definition digitValue (c : ascii) : Z := Z.of_nat (nat_of_ascii c - 48).

Fixpoint digitsValue (acc : Z) (s : string) : Z :=
  match s with
  | EmptyString => acc
  | String c s' => digitsValue (10 * acc + digitValue c) s'
  end.

(** [parseFloat] on the texts group 1 can hold, a run of digits with an
    optional fraction: the decimal value of the text. *)
Definition parseFloat (s : string) : Q :=
  let (ip, rest) := spanDigits s in
  match rest with
  | String "." r =>
      let (fp, _) := spanDigits r in
      let scale := Pos.pow 10 (Pos.of_nat (String.length fp)) in
      match fp with
      | EmptyString => inject_Z (digitsValue 0 ip)
      | _ => Qmake (digitsValue 0 ip * Z.pos scale + digitsValue 0 fp) scale
      end
  | _ => inject_Z (digitsValue 0 ip)
  end.

End JS.

(** ** The data model *)

(** Modelled from the spec: the [Tool] interface ([@/types/tool]) is not
    among the sources.  The fields are those of the data model,
    [{id, name, category, subcategory?, description, pricing, tags[],
    rating?, url}]; [tags] is optional because every use in the code guards
    it ([tool.tags?.some], [tool.tags || []]). *)
Module Tool.
Record t : Type := mk {
  id : string;
  name : string;
  category : string;
  subcategory : option string;
  description : string;
  pricing : string;
  tags : option (list string);
  rating : option Q;
  url : string
}.
End Tool.

Inductive Experience : Type := beginner | intermediate | expert.
Inductive TeamSize : Type := solo | small | medium | large | enterprise.

Definition Experience_eqb (a b : Experience) : bool :=
  match a, b with
  | beginner, beginner | intermediate, intermediate | expert, expert => true
  | _, _ => false
  end.

Module Budget.
Record t : Type := mk {
  monthly : Q;
  annual : Q;
  currency : string
}.
End Budget.

Module ToolPreferences.
Record t : Type := mk {
  easeOfUse : Q;
  priceSensitivity : Q;
  featureRichness : Q;
  integrationNeeds : Q
}.
End ToolPreferences.

(** [UserProfile]: the fields that the scoring code reads. *)
Module UserProfile.
Record t : Type := mk {
  userId : string;
  industry : string;
  role : string;
  experience : Experience;
  teamSize : TeamSize;
  budget : Budget.t;
  primaryGoals : list string;
  toolPreferences : ToolPreferences.t
}.

Definition withMonthly (p : t) (m : Q) : t :=
  mk (userId p) (industry p) (role p) (experience p) (teamSize p)
     (Budget.mk m (Budget.annual (budget p)) (Budget.currency (budget p)))
     (primaryGoals p) (toolPreferences p).
End UserProfile.

Module ToolInteraction.
Record t : Type := mk {
  id : string;
  toolId : string
}.
End ToolInteraction.

Module SearchQuery.
Record t : Type := mk {
  id : string;
  query : string
}.
End SearchQuery.

Module SessionData.
Record t : Type := mk {
  timeOnSite : Q;
  pagesVisited : list string;
  currentGoal : option string
}.
End SessionData.

Module RecommendationContext.
Record t : Type := mk {
  userProfile : UserProfile.t;
  currentSearch : option string;
  recentInteractions : list ToolInteraction.t;
  searchHistory : list SearchQuery.t;
  sessionData : SessionData.t
}.

Definition withMonthly (c : t) (m : Q) : t :=
  mk (UserProfile.withMonthly (userProfile c) m) (currentSearch c)
     (recentInteractions c) (searchHistory c) (sessionData c).
End RecommendationContext.

(** A template literal: its pieces in order, numbers left unformatted. *)
Inductive piece : Type :=
| Str (s : string)
| Num (q : Q)
| NumOrInfinity (x : JS.number).

Definition text : Type := list piece.

(** [l.join(sep)] on texts. *)
Fixpoint joinTexts (sep : string) (l : list text) : text :=
  match l with
  | [] => []
  | [x] => x
  | x :: l' => x ++ Str sep :: joinTexts sep l'
  end.

(** ['easy' | 'medium' | 'hard']; [medium] is already a team size. *)
Inductive LearningCurve : Type := easy | mediumCurve | hard.

(** The sources of non-determinism: the [k]-th identifier drawn from
    [Math.random] during a call, and the clock. *)
Record World : Type := mkWorld {
  randomId : nat -> string;
  now : Z
}.

Definition experienceName (e : Experience) : string :=
  match e with
  | beginner => "beginner"
  | intermediate => "intermediate"
  | expert => "expert"
  end.

Definition teamSizeName (s : TeamSize) : string :=
  match s with
  | solo => "solo"
  | small => "small"
  | medium => "medium"
  | large => "large"
  | enterprise => "enterprise"
  end.

(** [ToolRecommendation] of [types/user]. *)
Module ToolRecommendation.
Record t : Type := mk {
  id : string;
  toolId : string;
  confidence : Q;
  reasoning : text;
  alternatives : list string;
  estimatedROI : Q;
  timeToValue : Q;
  learningCurve : LearningCurve;
  recommendedFor : list text;
  timestamp : Z
}.
End ToolRecommendation.

(** [tool.tags?.some(p)]: [undefined], which is falsy, without tags. *)
Definition tagsSome (tool : Tool.t) (p : string -> bool) : bool :=
  match Tool.tags tool with
  | Some l => existsb p l
  | None => false
  end.

(** The template [`${tool.name} ${tool.description} ${tool.tags?.join(' ')}`]:
    an absent [tags] is printed as [undefined]. *)
Definition toolText (tool : Tool.t) : string :=
  append (Tool.name tool)
    (append " "
       (append (Tool.description tool)
          (append " "
             match Tool.tags tool with
             | Some l => JS.join " " l
             | None => "undefined"
             end))).

(** [xs.filter(Boolean).length] on an array of booleans. *)
Definition countTrue (l : list bool) : Q :=
  inject_Z (Z.of_nat (List.length (filter (fun b => b) l))).

Definition lengthQ {A : Type} (l : list A) : Q :=
  inject_Z (Z.of_nat (List.length l)).

(** [l.map((x, index) => f x index)] *)
Fixpoint mapi_from {A B : Type} (f : A -> nat -> B) (i : nat) (l : list A)
  : list B :=
  match l with
  | [] => []
  | x :: l' => f x i :: mapi_from f (S i) l'
  end.

Definition mapi {A B : Type} (f : A -> nat -> B) (l : list A) : list B :=
  mapi_from f 0 l.

(** ** The recommendation engine *)

Module AIRecommendationEngine.

Module Factors.
Record t : Type := mk {
  budgetMatch : Q;
  experienceMatch : Q;
  goalAlignment : Q;
  industryRelevance : Q;
  popularityScore : Q;
  roiPotential : Q;
  learningCurve : Q;
  integrationScore : Q
}.

(** [Object.values(factors)], in the order the literal lists the keys. *)
Definition values (f : t) : list Q :=
  [budgetMatch f; experienceMatch f; goalAlignment f; industryRelevance f;
   popularityScore f; roiPotential f; learningCurve f; integrationScore f].
End Factors.

Module RecommendationScore.
Record t : Type := mk {
  tool : Tool.t;
  score : Q;
  factors : Factors.t;
  reasoning : list text;
  alternatives : list Tool.t;
  estimatedROI : Q;
  timeToValue : Q;
  confidence : Q
}.
End RecommendationScore.

Definition extractPrice (pricing : string) : Q :=
  match JS.priceMatch pricing with
  | Some g => JS.parseFloat g
  | None => 0
  end.

Definition estimateToolComplexity (tool : Tool.t) : Q :=
  let complexityIndicators :=
    [ JS.includes (Tool.description tool) "enterprise";
      JS.includes (Tool.description tool) "advanced";
      JS.includes (Tool.description tool) "complex";
      tagsSome tool (fun tag => JS.includes tag "enterprise");
      tagsSome tool (fun tag => JS.includes tag "advanced") ] in
  countTrue complexityIndicators / 5.

Definition industryMap : list (string * list string) :=
  [ ("Technology", ["software"; "tech"; "development"; "coding"; "programming"]);
    ("Marketing", ["marketing"; "advertising"; "social media"; "campaign"; "brand"]);
    ("Finance", ["finance"; "accounting"; "budgeting"; "investment"; "banking"]);
    ("Healthcare", ["health"; "medical"; "patient"; "clinical"; "diagnosis"]);
    ("Education", ["education"; "learning"; "teaching"; "student"; "course"]);
    ("E-commerce", ["ecommerce"; "retail"; "sales"; "inventory"; "shipping"]) ].

Definition getIndustryKeywords (industry : string) : list string :=
  match JS.lookup industryMap industry with
  | Some keywords => keywords
  | None => [JS.toLowerCase industry]
  end.

Definition industryMultipliers : list (string * Q) :=
  [ ("Technology", 1.5); ("Finance", 1.3); ("Marketing", 1.2);
    ("Healthcare", 1.1); ("Education", 0.9); ("E-commerce", 1.4) ].

Definition getIndustryROIMultiplier (industry : string) : Q :=
  match JS.lookup industryMultipliers industry with
  | Some m => m
  | None => 1.0
  end.

Definition getTeamSizeMultiplier (teamSize : TeamSize) : Q :=
  match teamSize with
  | solo => 0.8
  | small => 1.0
  | medium => 1.2
  | large => 1.4
  | enterprise => 1.6
  end.

Definition calculateBudgetMatch (tool : Tool.t) (profile : UserProfile.t) : Q :=
  let toolPrice := extractPrice (Tool.pricing tool) in
  let userBudget := Budget.monthly (UserProfile.budget profile) in
  if JS.eqb toolPrice 0 then 1.0
  else if JS.leb toolPrice (userBudget * 0.3) then 1.0
  else if JS.leb toolPrice (userBudget * 0.6) then 0.8
  else if JS.leb toolPrice userBudget then 0.6
  else 0.2.

Definition complexityMap (e : Experience) : Q :=
  match e with
  | beginner => 0.3
  | intermediate => 0.6
  | expert => 0.9
  end.

Definition calculateExperienceMatch (tool : Tool.t) (profile : UserProfile.t)
  : Q :=
  let userLevel := complexityMap (UserProfile.experience profile) in
  let toolComplexity := estimateToolComplexity tool in
  1 - JS.abs (userLevel - toolComplexity).

(** One turn of the [forEach] over the user's goals. *)
Definition goalStep (tool : Tool.t) (alignmentScore : Q) (goal : string) : Q :=
  let toolTags := match Tool.tags tool with Some l => l | None => [] end in
  let toolDescription := JS.toLowerCase (Tool.description tool) in
  let goalLower := JS.toLowerCase goal in
  let s1 :=
    if existsb (fun tag => JS.includes (JS.toLowerCase tag) goalLower) toolTags
    then alignmentScore + 0.4 else alignmentScore in
  let s2 :=
    if JS.includes toolDescription goalLower then s1 + 0.3 else s1 in
  if JS.includes (JS.toLowerCase (Tool.category tool)) goalLower
  then s2 + 0.3 else s2.

Definition calculateGoalAlignment (tool : Tool.t)
  (context : RecommendationContext.t) : Q :=
  let userGoals :=
    UserProfile.primaryGoals (RecommendationContext.userProfile context) in
  let alignmentScore := fold_left (goalStep tool) userGoals 0 in
  JS.min alignmentScore 1.0.

(** The keyword list is never empty, so the quotient is finite. *)
Definition calculateIndustryRelevance (tool : Tool.t) (profile : UserProfile.t)
  : Q :=
  let industryKeywords := getIndustryKeywords (UserProfile.industry profile) in
  let text := JS.toLowerCase (toolText tool) in
  let relevanceScore :=
    lengthQ (filter (fun keyword => JS.includes text (JS.toLowerCase keyword))
               industryKeywords)
    / lengthQ industryKeywords in
  JS.min relevanceScore 1.0.

Definition calculatePopularityScore (tool : Tool.t) : Q :=
  JS.orElse (Tool.rating tool) 0 / 5.0.

Definition calculateROIPotential (tool : Tool.t) (profile : UserProfile.t) : Q :=
  let baseROI := 0.5 in
  let industryMultiplier := getIndustryROIMultiplier (UserProfile.industry profile) in
  let teamSizeMultiplier := getTeamSizeMultiplier (UserProfile.teamSize profile) in
  baseROI * industryMultiplier * teamSizeMultiplier.

Definition calculateLearningCurveScore (tool : Tool.t) (profile : UserProfile.t)
  : Q :=
  let experienceLevel := UserProfile.experience profile in
  let toolComplexity := estimateToolComplexity tool in
  if Experience_eqb experienceLevel beginner && JS.ltb toolComplexity 0.4
  then 1.0
  else if Experience_eqb experienceLevel intermediate
          && JS.geb toolComplexity 0.3 && JS.leb toolComplexity 0.7
  then 1.0
  else if Experience_eqb experienceLevel expert && JS.gtb toolComplexity 0.6
  then 1.0
  else 0.5.

Definition calculateIntegrationScore (tool : Tool.t) (profile : UserProfile.t)
  : Q :=
  let integrationNeeds :=
    ToolPreferences.integrationNeeds (UserProfile.toolPreferences profile) in
  let hasIntegrations :=
    tagsSome tool (fun tag =>
      JS.includes (JS.toLowerCase tag) "api"
      || JS.includes (JS.toLowerCase tag) "integration"
      || JS.includes (JS.toLowerCase tag) "zapier") in
  if JS.gtb integrationNeeds 7 && hasIntegrations then 1.0
  else if JS.ltb integrationNeeds 4 && negb hasIntegrations then 1.0
  else 0.5.

Definition generateReasoning (factors : Factors.t) (tool : Tool.t)
  (context : RecommendationContext.t) : list text :=
  let profile := RecommendationContext.userProfile context in
  (if JS.gtb (Factors.budgetMatch factors) 0.8
   then [[Str "Fits your budget of ";
          Str (Budget.currency (UserProfile.budget profile));
          Num (Budget.monthly (UserProfile.budget profile));
          Str "/month"]]
   else [])
  ++ (if JS.gtb (Factors.experienceMatch factors) 0.8
      then [[Str "Perfect for ";
             Str (experienceName (UserProfile.experience profile));
             Str " level users"]]
      else [])
  ++ (if JS.gtb (Factors.goalAlignment factors) 0.7
      then [[Str "Aligns with your goals: ";
             Str (JS.join ", "
                    (JS.slice0 (UserProfile.primaryGoals profile) 2))]]
      else [])
  ++ (if JS.gtb (Factors.industryRelevance factors) 0.7
      then [[Str "Popular in "; Str (UserProfile.industry profile);
             Str " industry"]]
      else [])
  ++ (if JS.gtb (Factors.roiPotential factors) 0.7
      then [[Str "High ROI potential for your team size"]]
      else []).

(** [t.rating !== undefined && t.rating >= 4.0] *)
Definition ratedAtLeast (t : Tool.t) (r : Q) : bool :=
  match Tool.rating t with
  | Some x => JS.geb x r
  | None => false
  end.

Definition findAlternatives (catalog : list Tool.t) (tool : Tool.t)
  (context : RecommendationContext.t) : list Tool.t :=
  JS.slice0
    (filter (fun t =>
       negb (String.eqb (Tool.id t) (Tool.id tool))
       && String.eqb (Tool.category t) (Tool.category tool)
       && ratedAtLeast t 4.0) catalog)
    3.

Definition estimateROI (tool : Tool.t) (profile : UserProfile.t) : Q :=
  let baseROI := 150 in
  let industryMultiplier := getIndustryROIMultiplier (UserProfile.industry profile) in
  let teamSizeMultiplier := getTeamSizeMultiplier (UserProfile.teamSize profile) in
  JS.round (baseROI * industryMultiplier * teamSizeMultiplier).

Definition estimateTimeToValue (tool : Tool.t) (profile : UserProfile.t) : Q :=
  let complexity := estimateToolComplexity tool in
  let experience := UserProfile.experience profile in
  let baseDays0 :=
    if JS.ltb complexity 0.3 then 7
    else if JS.ltb complexity 0.6 then 14
    else 45 in
  let baseDays1 :=
    if Experience_eqb experience expert then baseDays0 * 0.7 else baseDays0 in
  let baseDays2 :=
    if Experience_eqb experience beginner then baseDays1 * 1.5 else baseDays1 in
  JS.round baseDays2.

Definition calculateConfidence (factors : Factors.t)
  (context : RecommendationContext.t) : Q :=
  let factorScores := Factors.values factors in
  let averageScore :=
    fold_left Qplus factorScores 0 / lengthQ factorScores in
  let dataQuality :=
    JS.min (lengthQ (RecommendationContext.recentInteractions context) / 10) 1 in
  JS.min (averageScore * (0.7 + 0.3 * dataQuality)) 1.0.

Module Weights.
Definition budgetMatch : Q := 0.15.
Definition experienceMatch : Q := 0.12.
Definition goalAlignment : Q := 0.20.
Definition industryRelevance : Q := 0.10.
Definition popularityScore : Q := 0.08.
Definition roiPotential : Q := 0.15.
Definition learningCurve : Q := 0.10.
Definition integrationScore : Q := 0.10.

Definition values : list Q :=
  [budgetMatch; experienceMatch; goalAlignment; industryRelevance;
   popularityScore; roiPotential; learningCurve; integrationScore].
End Weights.

Definition calculateFactors (tool : Tool.t) (context : RecommendationContext.t)
  : Factors.t :=
  let profile := RecommendationContext.userProfile context in
  Factors.mk
    (calculateBudgetMatch tool profile)
    (calculateExperienceMatch tool profile)
    (calculateGoalAlignment tool context)
    (calculateIndustryRelevance tool profile)
    (calculatePopularityScore tool)
    (calculateROIPotential tool profile)
    (calculateLearningCurveScore tool profile)
    (calculateIntegrationScore tool profile).

(** [Object.entries(factors).reduce((total, [key, value]) =>
    total + value * weights[key], 0)] *)
Definition weightedSum (factors : Factors.t) : Q :=
  fold_left (fun total kv => total + fst kv * snd kv)
    (combine (Factors.values factors) Weights.values) 0.

Definition calculateToolScore (catalog : list Tool.t) (tool : Tool.t)
  (context : RecommendationContext.t) : RecommendationScore.t :=
  let factors := calculateFactors tool context in
  let score := weightedSum factors in
  let reasoning := generateReasoning factors tool context in
  let alternatives := findAlternatives catalog tool context in
  let estimatedROI :=
    estimateROI tool (RecommendationContext.userProfile context) in
  let timeToValue :=
    estimateTimeToValue tool (RecommendationContext.userProfile context) in
  RecommendationScore.mk tool score factors reasoning alternatives
    estimatedROI timeToValue (calculateConfidence factors context).

Definition calculateLearningCurve (score : Q) : LearningCurve :=
  if JS.gtb score 0.7 then easy
  else if JS.gtb score 0.4 then mediumCurve
  else hard.

Definition generateRecommendationContext (scoredTool : RecommendationScore.t)
  (context : RecommendationContext.t) : list text :=
  let factors := RecommendationScore.factors scoredTool in
  (if JS.gtb (Factors.budgetMatch factors) 0.8
   then [[Str "Budget-friendly option"]] else [])
  ++ (if JS.gtb (Factors.experienceMatch factors) 0.8
      then [[Str "Perfect for ";
             Str (experienceName
                    (UserProfile.experience
                       (RecommendationContext.userProfile context)));
             Str " users"]]
      else [])
  ++ (if JS.gtb (Factors.goalAlignment factors) 0.7
      then [[Str "Goal-aligned solution"]] else []).

Definition generateId (w : World) (k : nat) : string := randomId w k.

(** The comparator of the ranking, [(a, b) => b.score - a.score]. *)
Definition byScoreDesc (a b : RecommendationScore.t) : Q :=
  RecommendationScore.score b - RecommendationScore.score a.

Definition toRecommendation (w : World) (context : RecommendationContext.t)
  (scoredTool : RecommendationScore.t) (k : nat) : ToolRecommendation.t :=
  ToolRecommendation.mk
    (generateId w k)
    (Tool.id (RecommendationScore.tool scoredTool))
    (RecommendationScore.confidence scoredTool)
    (joinTexts "; " (RecommendationScore.reasoning scoredTool))
    (map Tool.id (RecommendationScore.alternatives scoredTool))
    (RecommendationScore.estimatedROI scoredTool)
    (RecommendationScore.timeToValue scoredTool)
    (calculateLearningCurve
       (Factors.learningCurve (RecommendationScore.factors scoredTool)))
    (generateRecommendationContext scoredTool context)
    (now w).

(** [tools] is the catalog that the dynamic import of [@/data/tools]
    delivers; the caller's default for [limit] is 5. *)
Definition topRecommendations (tools : list Tool.t)
  (context : RecommendationContext.t) (limit : Q)
  : list RecommendationScore.t :=
  let scoredTools := map (fun tool => calculateToolScore tools tool context) tools in
  JS.slice0 (JS.sort byScoreDesc scoredTools) limit.

Definition generateRecommendations (w : World) (tools : list Tool.t)
  (context : RecommendationContext.t) (limit : Q)
  : list ToolRecommendation.t :=
  mapi (toRecommendation w context) (topRecommendations tools context limit).

End AIRecommendationEngine.

(** ** The ROI calculator *)

(** ['low' | 'medium' | 'high'] *)
Inductive Risk : Type := lowRisk | mediumRisk | highRisk.

Module ROICalculator.

Module Investment.
Record t : Type := mk {
  monthly : Q;
  annual : Q;
  setup : Q;
  training : Q;
  total : Q
}.
End Investment.

Module Returns.
Record t : Type := mk {
  timeSavings : Q;
  productivityGains : Q;
  costReduction : Q;
  revenueIncrease : Q;
  total : Q
}.
End Returns.

Module ROIMetrics.
Record t : Type := mk {
  percentage : Q;
  paybackPeriod : JS.number;
  netPresentValue : Q;
  internalRateOfReturn : Q
}.
End ROIMetrics.

Module TimeSavingsBreakdown.
Record t : Type := mk {
  hoursPerMonth : Q;
  hourlyRate : Q;
  monthlyValue : Q
}.
End TimeSavingsBreakdown.

Module ProductivityBreakdown.
Record t : Type := mk {
  efficiencyImprovement : Q;
  teamSize : Q;
  averageSalary : Q;
  monthlyValue : Q
}.
End ProductivityBreakdown.

Module CostReductionBreakdown.
Record t : Type := mk {
  currentCosts : Q;
  newCosts : Q;
  monthlySavings : Q
}.
End CostReductionBreakdown.

Module RevenueBreakdown.
Record t : Type := mk {
  currentRevenue : Q;
  expectedGrowth : Q;
  monthlyIncrease : Q
}.
End RevenueBreakdown.

Module Breakdown.
Record t : Type := mk {
  timeSavings : TimeSavingsBreakdown.t;
  productivityGains : ProductivityBreakdown.t;
  costReduction : CostReductionBreakdown.t;
  revenueIncrease : RevenueBreakdown.t
}.
End Breakdown.

Module ROICalculation.
Record t : Type := mk {
  toolId : string;
  toolName : string;
  investment : Investment.t;
  returns : Returns.t;
  roi : ROIMetrics.t;
  breakdown : Breakdown.t;
  confidence : Q;
  assumptions : list text
}.
End ROICalculation.

Module StackROICalculation.
Record t : Type := mk {
  stackId : string;
  stackName : text;
  tools : list ROICalculation.t;
  totalInvestment : Q;
  totalReturns : Q;
  overallROI : Q;
  paybackPeriod : JS.number;
  riskAssessment : Risk;
  recommendations : list text
}.
End StackROICalculation.

(** [table[key] || d] for a table of non-zero numbers. *)
Definition tableOr (table : list (string * Q)) (key : string) (d : Q) : Q :=
  match JS.lookup table key with
  | Some v => v
  | None => d
  end.

Definition extractPrice (pricing : string) : Q :=
  match JS.priceMatch pricing with
  | Some g => JS.parseFloat g
  | None => 0
  end.

Definition getComplexityMultiplier (tool : Tool.t) : Q :=
  let complexityIndicators :=
    [ JS.includes (Tool.description tool) "enterprise";
      JS.includes (Tool.description tool) "advanced";
      JS.includes (Tool.description tool) "complex";
      tagsSome tool (fun tag => JS.includes tag "enterprise");
      tagsSome tool (fun tag => JS.includes tag "advanced") ] in
  let complexityScore := countTrue complexityIndicators / 5 in
  0.5 + complexityScore * 1.5.

Definition getTeamSizeMultiplier (teamSize : TeamSize) : Q :=
  match teamSize with
  | solo => 0.5
  | small => 1.0
  | medium => 1.5
  | large => 2.0
  | enterprise => 3.0
  end.

Definition estimateSetupCost (tool : Tool.t) (userProfile : UserProfile.t) : Q :=
  let baseSetupCost := 500 in
  let complexityMultiplier := getComplexityMultiplier tool in
  let teamSizeMultiplier := getTeamSizeMultiplier (UserProfile.teamSize userProfile) in
  JS.round (baseSetupCost * complexityMultiplier * teamSizeMultiplier).

Definition estimateTrainingCost (tool : Tool.t) (userProfile : UserProfile.t)
  : Q :=
  let baseTrainingCost := 200 in
  let complexityMultiplier := getComplexityMultiplier tool in
  let teamSizeMultiplier := getTeamSizeMultiplier (UserProfile.teamSize userProfile) in
  JS.round (baseTrainingCost * complexityMultiplier * teamSizeMultiplier).

Definition categorySavings : list (string * Q) :=
  [ ("Marketing", 20); ("Design", 15); ("Development", 25); ("Analytics", 18);
    ("Automation", 30); ("Communication", 12); ("Project Management", 22);
    ("Finance", 16) ].

Definition estimateTimeSavings (tool : Tool.t) : Q :=
  tableOr categorySavings (Tool.category tool) 15.

Definition estimateEfficiencyImprovement (tool : Tool.t) : Q :=
  let baseImprovement := 0.15 in
  let ratingMultiplier := JS.orElse (Tool.rating tool) 4.0 / 5.0 in
  baseImprovement * ratingMultiplier.

Definition categoryCosts : list (string * Q) :=
  [ ("Marketing", 2000); ("Design", 1500); ("Development", 3000);
    ("Analytics", 1800); ("Automation", 2500); ("Communication", 800);
    ("Project Management", 1200); ("Finance", 1000) ].

Definition estimateCurrentCosts (tool : Tool.t) (userProfile : UserProfile.t)
  : Q :=
  tableOr categoryCosts (Tool.category tool) 1500.

Definition industryRevenue : list (string * Q) :=
  [ ("Technology", 500000); ("Finance", 800000); ("Marketing", 300000);
    ("Healthcare", 600000); ("Education", 200000); ("E-commerce", 400000) ].

Definition estimateCurrentRevenue (userProfile : UserProfile.t) : Q :=
  tableOr industryRevenue (UserProfile.industry userProfile) 300000.

Definition categoryGrowth : list (string * Q) :=
  [ ("Marketing", 0.25); ("Design", 0.15); ("Development", 0.30);
    ("Analytics", 0.20); ("Automation", 0.35); ("Communication", 0.10);
    ("Project Management", 0.18); ("Finance", 0.12) ].

Definition estimateRevenueGrowth (tool : Tool.t) : Q :=
  tableOr categoryGrowth (Tool.category tool) 0.15.

Definition industryRates : list (string * Q) :=
  [ ("Technology", 75); ("Finance", 85); ("Marketing", 60);
    ("Healthcare", 70); ("Education", 45); ("E-commerce", 65) ].

Definition getHourlyRate (userProfile : UserProfile.t) : Q :=
  tableOr industryRates (UserProfile.industry userProfile) 60.

Definition industrySalaries : list (string * Q) :=
  [ ("Technology", 120000); ("Finance", 140000); ("Marketing", 90000);
    ("Healthcare", 110000); ("Education", 70000); ("E-commerce", 100000) ].

Definition getAverageSalary (userProfile : UserProfile.t) : Q :=
  tableOr industrySalaries (UserProfile.industry userProfile) 90000.

Definition industryMap : list (string * list string) :=
  [ ("Technology", ["software"; "tech"; "development"; "coding"; "programming"]);
    ("Marketing", ["marketing"; "advertising"; "social media"; "campaign"; "brand"]);
    ("Finance", ["finance"; "accounting"; "budgeting"; "investment"; "banking"]);
    ("Healthcare", ["health"; "medical"; "patient"; "clinical"; "diagnosis"]);
    ("Education", ["education"; "learning"; "teaching"; "student"; "course"]);
    ("E-commerce", ["ecommerce"; "retail"; "sales"; "inventory"; "shipping"]) ].

Definition getIndustryKeywords (industry : string) : list string :=
  match JS.lookup industryMap industry with
  | Some keywords => keywords
  | None => [JS.toLowerCase industry]
  end.

Definition isIndustryRelevant (tool : Tool.t) (industry : string) : bool :=
  let text := JS.toLowerCase (toolText tool) in
  let industryKeywords := getIndustryKeywords industry in
  existsb (fun keyword => JS.includes text (JS.toLowerCase keyword))
    industryKeywords.

Definition matchesExperienceLevel (tool : Tool.t) (experience : Experience)
  : bool :=
  let complexity := getComplexityMultiplier tool in
  if Experience_eqb experience beginner && JS.ltb complexity 1.2 then true
  else if Experience_eqb experience intermediate
          && JS.geb complexity 1.0 && JS.leb complexity 1.8 then true
  else if Experience_eqb experience expert && JS.gtb complexity 1.5 then true
  else false.

Definition calculateInvestment (tool : Tool.t) (userProfile : UserProfile.t)
  : Investment.t :=
  let monthlyCost := extractPrice (Tool.pricing tool) in
  let setupCost := estimateSetupCost tool userProfile in
  let trainingCost := estimateTrainingCost tool userProfile in
  Investment.mk monthlyCost (monthlyCost * 12) setupCost trainingCost
    (monthlyCost * 12 + setupCost + trainingCost).

Definition calculateTimeSavings (tool : Tool.t) (userProfile : UserProfile.t)
  : Q :=
  let hoursPerMonth := estimateTimeSavings tool in
  let hourlyRate := getHourlyRate userProfile in
  hoursPerMonth * hourlyRate * 12.

Definition calculateProductivityGains (tool : Tool.t)
  (userProfile : UserProfile.t) : Q :=
  let efficiencyImprovement := estimateEfficiencyImprovement tool in
  let teamSize := getTeamSizeMultiplier (UserProfile.teamSize userProfile) in
  let averageSalary := getAverageSalary userProfile in
  (efficiencyImprovement * teamSize * averageSalary * 0.1) * 12.

Definition calculateCostReduction (tool : Tool.t) (userProfile : UserProfile.t)
  : Q :=
  let currentCosts := estimateCurrentCosts tool userProfile in
  let newCosts := extractPrice (Tool.pricing tool) * 12 in
  JS.max 0 (currentCosts - newCosts).

Definition calculateRevenueIncrease (tool : Tool.t)
  (userProfile : UserProfile.t) : Q :=
  let currentRevenue := estimateCurrentRevenue userProfile in
  let expectedGrowth := estimateRevenueGrowth tool in
  currentRevenue * expectedGrowth.

Definition calculateReturns (tool : Tool.t) (userProfile : UserProfile.t)
  : Returns.t :=
  let timeSavings := calculateTimeSavings tool userProfile in
  let productivityGains := calculateProductivityGains tool userProfile in
  let costReduction := calculateCostReduction tool userProfile in
  let revenueIncrease := calculateRevenueIncrease tool userProfile in
  Returns.mk timeSavings productivityGains costReduction revenueIncrease
    (timeSavings + productivityGains + costReduction + revenueIncrease).

Definition calculateNPV (investment returns : Q) : Q :=
  let discountRate := 0.1 in
  - investment + returns / (1 + discountRate).

Definition calculateIRR (investment returns : Q) : Q :=
  if JS.leb investment 0 || JS.leb returns 0 then 0
  else (returns - investment) / investment.

(** Both quotients are guarded: [investment > 0] in the first, and
    [returns > 0], hence [returns / 12 <> 0], in the second. *)
Definition calculateROIMetrics (investment returns : Q) : ROIMetrics.t :=
  let roiPercentage :=
    if JS.gtb investment 0
    then ((returns - investment) / investment) * 100 else 0 in
  let paybackPeriod :=
    if JS.gtb returns 0
    then JS.Finite (investment / (returns / 12)) else JS.PosInfinity in
  let npv := calculateNPV investment returns in
  let irr := calculateIRR investment returns in
  ROIMetrics.mk
    (JS.round (roiPercentage * 100) / 100)
    (JS.round2 paybackPeriod)
    (JS.round npv)
    (JS.round (irr * 100) / 100).

Definition calculatePaybackPeriod (investment annualReturns : Q) : JS.number :=
  if JS.leb annualReturns 0 then JS.PosInfinity
  else JS.Finite (investment / (annualReturns / 12)).

Definition calculateTimeSavingsBreakdown (tool : Tool.t)
  (userProfile : UserProfile.t) : TimeSavingsBreakdown.t :=
  let hoursPerMonth := estimateTimeSavings tool in
  let hourlyRate := getHourlyRate userProfile in
  TimeSavingsBreakdown.mk hoursPerMonth hourlyRate (hoursPerMonth * hourlyRate).

Definition calculateProductivityBreakdown (tool : Tool.t)
  (userProfile : UserProfile.t) : ProductivityBreakdown.t :=
  let efficiencyImprovement := estimateEfficiencyImprovement tool in
  let teamSize := getTeamSizeMultiplier (UserProfile.teamSize userProfile) in
  let averageSalary := getAverageSalary userProfile in
  ProductivityBreakdown.mk efficiencyImprovement teamSize averageSalary
    (efficiencyImprovement * teamSize * averageSalary * 0.1).

Definition calculateCostReductionBreakdown (tool : Tool.t)
  (userProfile : UserProfile.t) : CostReductionBreakdown.t :=
  let currentCosts := estimateCurrentCosts tool userProfile in
  let newCosts := extractPrice (Tool.pricing tool) * 12 in
  CostReductionBreakdown.mk currentCosts newCosts
    (JS.max 0 ((currentCosts - newCosts) / 12)).

Definition calculateRevenueBreakdown (tool : Tool.t)
  (userProfile : UserProfile.t) : RevenueBreakdown.t :=
  let currentRevenue := estimateCurrentRevenue userProfile in
  let expectedGrowth := estimateRevenueGrowth tool in
  RevenueBreakdown.mk currentRevenue expectedGrowth
    ((currentRevenue * expectedGrowth) / 12).

Definition calculateBreakdown (tool : Tool.t) (userProfile : UserProfile.t)
  : Breakdown.t :=
  Breakdown.mk
    (calculateTimeSavingsBreakdown tool userProfile)
    (calculateProductivityBreakdown tool userProfile)
    (calculateCostReductionBreakdown tool userProfile)
    (calculateRevenueBreakdown tool userProfile).

(** [tool.rating && tool.rating >= r] *)
Definition ratingAtLeast (tool : Tool.t) (r : Q) : bool :=
  JS.truthy (Tool.rating tool) && JS.geb (JS.orElse (Tool.rating tool) 0) r.

Definition calculateConfidence (tool : Tool.t) (userProfile : UserProfile.t)
  : Q :=
  let c0 := 0.7 in
  let c1 := if ratingAtLeast tool 4.5 then c0 + 0.1 else c0 in
  let c2 := if ratingAtLeast tool 4.0 then c1 + 0.05 else c1 in
  let c3 :=
    if isIndustryRelevant tool (UserProfile.industry userProfile)
    then c2 + 0.1 else c2 in
  let c4 :=
    if matchesExperienceLevel tool (UserProfile.experience userProfile)
    then c3 + 0.05 else c3 in
  JS.min c4 1.0.

Definition generateAssumptions (tool : Tool.t) (userProfile : UserProfile.t)
  : list text :=
  [ [Str "Based on "; Str (UserProfile.industry userProfile);
     Str " industry averages"];
    [Str "Assumes "; Str (teamSizeName (UserProfile.teamSize userProfile));
     Str " team size"];
    [Str "Uses "; Str (experienceName (UserProfile.experience userProfile));
     Str " level implementation timeline"];
    [Str "ROI calculated over 12-month period"];
    [Str "Includes setup and training costs"] ]
  ++ (if JS.truthy (Tool.rating tool)
         && JS.ltb (JS.orElse (Tool.rating tool) 0) 4.0
      then [[Str "Lower confidence due to tool rating"]] else []).

Definition calculateToolROI (tool : Tool.t) (userProfile : UserProfile.t)
  : ROICalculation.t :=
  let investment := calculateInvestment tool userProfile in
  let returns := calculateReturns tool userProfile in
  let roi := calculateROIMetrics (Investment.total investment)
               (Returns.total returns) in
  let breakdown := calculateBreakdown tool userProfile in
  let confidence := calculateConfidence tool userProfile in
  let assumptions := generateAssumptions tool userProfile in
  ROICalculation.mk (Tool.id tool) (Tool.name tool) investment returns roi
    breakdown confidence assumptions.

(** [toolROIs.reduce((sum, roi) => sum + f(roi), 0)] *)
Definition sumOf {A : Type} (f : A -> Q) (l : list A) : Q :=
  fold_left (fun sum x => sum + f x) l 0.

Definition investmentTotal (roi : ROICalculation.t) : Q :=
  Investment.total (ROICalculation.investment roi).

Definition returnsTotal (roi : ROICalculation.t) : Q :=
  Returns.total (ROICalculation.returns roi).

(** [avgConfidence] divides by the number of tools and [budgetRatio] by
    twelve times the annual budget: either divisor may be zero. *)
Definition assessRisk (toolROIs : list ROICalculation.t)
  (userProfile : UserProfile.t) : Risk :=
  let avgConfidence :=
    JS.div (sumOf ROICalculation.confidence toolROIs) (lengthQ toolROIs) in
  let totalInvestment := sumOf investmentTotal toolROIs in
  let budgetRatio :=
    JS.div totalInvestment
      (Budget.annual (UserProfile.budget userProfile) * 12) in
  if JS.number_gtb avgConfidence 0.8 && JS.number_ltb budgetRatio 0.3
  then lowRisk
  else if JS.number_gtb avgConfidence 0.6 && JS.number_ltb budgetRatio 0.6
  then mediumRisk
  else highRisk.

Definition generateRecommendations (toolROIs : list ROICalculation.t)
  (userProfile : UserProfile.t) : list text :=
  let highROITools :=
    filter (fun roi =>
      JS.gtb (ROIMetrics.percentage (ROICalculation.roi roi)) 200) toolROIs in
  let quickPaybackTools :=
    filter (fun roi =>
      JS.number_ltb (ROIMetrics.paybackPeriod (ROICalculation.roi roi)) 6)
      toolROIs in
  let totalInvestment := sumOf investmentTotal toolROIs in
  match highROITools with
  | first :: _ =>
      [[Str "Prioritize "; Str (ROICalculation.toolName first);
        Str " - highest ROI at ";
        Num (ROIMetrics.percentage (ROICalculation.roi first)); Str "%"]]
  | [] => []
  end
  ++ match quickPaybackTools with
     | first :: _ =>
         [[Str "Start with "; Str (ROICalculation.toolName first);
           Str " - pays back in ";
           NumOrInfinity (ROIMetrics.paybackPeriod (ROICalculation.roi first));
           Str " months"]]
     | [] => []
     end
  ++ (if JS.gtb totalInvestment
           (Budget.annual (UserProfile.budget userProfile) * 0.8)
      then [[Str "Consider implementing tools in phases to manage budget"]]
      else []).

Definition generateId (w : World) (k : nat) : string := randomId w k.

Definition calculateStackROI (w : World) (tools : list Tool.t)
  (userProfile : UserProfile.t) : StackROICalculation.t :=
  let toolROIs := map (fun tool => calculateToolROI tool userProfile) tools in
  let totalInvestment := sumOf investmentTotal toolROIs in
  let totalReturns := sumOf returnsTotal toolROIs in
  let overallROI := calculateROIMetrics totalInvestment totalReturns in
  let paybackPeriod := calculatePaybackPeriod totalInvestment totalReturns in
  let riskAssessment := assessRisk toolROIs userProfile in
  let recommendations := generateRecommendations toolROIs userProfile in
  StackROICalculation.mk
    (generateId w 0)
    [Num (lengthQ tools); Str " Tool Stack"]
    toolROIs totalInvestment totalReturns
    (ROIMetrics.percentage overallROI)
    paybackPeriod riskAssessment recommendations.

End ROICalculator.

(** ** The stack builder *)

(** ['essential' | 'important' | 'nice-to-have'] and
    ['simple' | 'moderate' | 'complex'] *)
Inductive Priority : Type := essential | important | niceToHave.
Inductive Complexity : Type := simple | moderate | complex.

Definition Complexity_eqb (a b : Complexity) : bool :=
  match a, b with
  | simple, simple | moderate, moderate | complex, complex => true
  | _, _ => false
  end.

(** [ToolStackItem] and [ToolStack] of [types/user]. *)
Module ToolStackItem.
Record t : Type := mk {
  toolId : string;
  role : string;
  priority : Priority;
  integrationNotes : string
}.
End ToolStackItem.

Module ToolStack.
Record t : Type := mk {
  id : string;
  userId : string;
  name : string;
  description : string;
  tools : list ToolStackItem.t;
  estimatedCost : Q;
  estimatedROI : Q;
  complexity : Complexity;
  useCase : string;
  isPublic : bool;
  likes : Q;
  shares : Q;
  createdAt : Z;
  updatedAt : Z
}.
End ToolStack.

Module ToolStackBuilder.

Module StackRecommendation.
Record t : Type := mk {
  stack : ToolStack.t;
  confidence : Q;
  reasoning : list text;
  alternatives : list ToolStack.t;
  estimatedROI : Q;
  timeToImplement : Q;
  learningCurve : LearningCurve
}.
End StackRecommendation.

Definition extractPrice (pricing : string) : Q :=
  match JS.priceMatch pricing with
  | Some g => JS.parseFloat g
  | None => 0
  end.

Definition industryMultipliers : list (string * Q) :=
  [ ("Technology", 1.5); ("Finance", 1.3); ("Marketing", 1.2);
    ("Healthcare", 1.1); ("Education", 0.9); ("E-commerce", 1.4) ].

Definition getIndustryROIMultiplier (industry : string) : Q :=
  match JS.lookup industryMultipliers industry with
  | Some m => m
  | None => 1.0
  end.

Definition getTeamSizeMultiplier (teamSize : TeamSize) : Q :=
  match teamSize with
  | solo => 0.8
  | small => 1.0
  | medium => 1.2
  | large => 1.4
  | enterprise => 1.6
  end.

Definition isEssentialForUseCase (tool : Tool.t) (useCase : string) : bool :=
  let useCaseLower := JS.toLowerCase useCase in
  let text := JS.toLowerCase (toolText tool) in
  JS.includes text useCaseLower
  || JS.includes (JS.toLowerCase (Tool.category tool)) useCaseLower
  || tagsSome tool (fun tag => JS.includes (JS.toLowerCase tag) useCaseLower).

(** [tool.rating ? tool.rating >= r : false] *)
Definition ratingAtLeast (tool : Tool.t) (r : Q) : bool :=
  if JS.truthy (Tool.rating tool)
  then JS.geb (JS.orElse (Tool.rating tool) 0) r else false.

Definition isBalancedForUseCase (tool : Tool.t) (useCase : string) : bool :=
  isEssentialForUseCase tool useCase || ratingAtLeast tool 4.0.

Definition isFeatureRichForUseCase (tool : Tool.t) (useCase : string) : bool :=
  isBalancedForUseCase tool useCase || ratingAtLeast tool 3.5.

Definition roles : list (string * string) :=
  [ ("marketing", "Marketing Automation");
    ("design", "Design & Creative");
    ("development", "Development & Coding");
    ("analytics", "Data & Analytics");
    ("automation", "Workflow Automation");
    ("communication", "Team Communication");
    ("project management", "Project Management");
    ("finance", "Financial Management") ].

Definition getToolRole (tool : Tool.t) (useCase : string) : string :=
  match JS.lookup roles (JS.toLowerCase useCase) with
  | Some r => r
  | None => Tool.category tool
  end.

Definition generateIntegrationNotes (tool : Tool.t) (allTools : list Tool.t)
  : string :=
  let integrations :=
    filter (fun t => negb (String.eqb (Tool.id t) (Tool.id tool))) allTools in
  match integrations with
  | [] => "Standalone tool"
  | _ =>
      let integrationNames :=
        JS.join ", " (map Tool.name (JS.slice0 integrations 2)) in
      append "Integrates with: "
        (append integrationNames
           (if (2 <? List.length integrations)%nat then " and more" else ""))
  end.

Definition calculateStackCost (tools : list Tool.t) : Q :=
  fold_left (fun total tool =>
               let price := extractPrice (Tool.pricing tool) in total + price)
    tools 0.

Definition calculateStackROI (tools : list Tool.t) (userProfile : UserProfile.t)
  : Q :=
  let baseROI := 150 in
  let industryMultiplier := getIndustryROIMultiplier (UserProfile.industry userProfile) in
  let teamSizeMultiplier := getTeamSizeMultiplier (UserProfile.teamSize userProfile) in
  let toolCountMultiplier := JS.min (lengthQ tools / 3) 1.5 in
  JS.round (baseROI * industryMultiplier * teamSizeMultiplier
            * toolCountMultiplier).

Definition generateId (w : World) (k : nat) : string := randomId w k.

Definition buildEssentialStack (w : World) (tools : list Tool.t)
  (userProfile : UserProfile.t) (useCase : string) (budget : Q)
  : option ToolStack.t :=
  let essentialTools :=
    JS.slice0 (filter (fun tool => isEssentialForUseCase tool useCase) tools) 3 in
  match essentialTools with
  | [] => None
  | _ =>
      let stackItems :=
        map (fun tool =>
               ToolStackItem.mk (Tool.id tool) (getToolRole tool useCase)
                 essential (generateIntegrationNotes tool essentialTools))
          essentialTools in
      let estimatedCost := calculateStackCost essentialTools in
      if JS.gtb estimatedCost budget then None
      else Some (ToolStack.mk
                   (generateId w 0)
                   (UserProfile.userId userProfile)
                   (append useCase " Essential Stack")
                   (append "Core tools to get started with " useCase)
                   stackItems
                   estimatedCost
                   (calculateStackROI essentialTools userProfile)
                   simple useCase false 0 0 (now w) (now w))
  end.

Definition buildBalancedStack (w : World) (tools : list Tool.t)
  (userProfile : UserProfile.t) (useCase : string) (budget : Q)
  : option ToolStack.t :=
  let balancedTools :=
    JS.slice0 (filter (fun tool => isBalancedForUseCase tool useCase) tools) 5 in
  match balancedTools with
  | [] => None
  | _ =>
      let stackItems :=
        mapi (fun tool index =>
                ToolStackItem.mk (Tool.id tool) (getToolRole tool useCase)
                  (if (index <? 3)%nat then essential else important)
                  (generateIntegrationNotes tool balancedTools))
          balancedTools in
      let estimatedCost := calculateStackCost balancedTools in
      if JS.gtb estimatedCost budget then None
      else Some (ToolStack.mk
                   (generateId w 1)
                   (UserProfile.userId userProfile)
                   (append useCase " Balanced Stack")
                   (append "Complete solution for "
                      (append useCase " with essential and important tools"))
                   stackItems
                   estimatedCost
                   (calculateStackROI balancedTools userProfile)
                   moderate useCase false 0 0 (now w) (now w))
  end.

Definition buildFeatureRichStack (w : World) (tools : list Tool.t)
  (userProfile : UserProfile.t) (useCase : string) (budget : Q)
  : option ToolStack.t :=
  let featureRichTools :=
    JS.slice0 (filter (fun tool => isFeatureRichForUseCase tool useCase) tools) 7 in
  match featureRichTools with
  | [] => None
  | _ =>
      let stackItems :=
        mapi (fun tool index =>
                ToolStackItem.mk (Tool.id tool) (getToolRole tool useCase)
                  (if (index <? 3)%nat then essential
                   else if (index <? 5)%nat then important else niceToHave)
                  (generateIntegrationNotes tool featureRichTools))
          featureRichTools in
      let estimatedCost := calculateStackCost featureRichTools in
      if JS.gtb estimatedCost budget then None
      else Some (ToolStack.mk
                   (generateId w 2)
                   (UserProfile.userId userProfile)
                   (append useCase " Premium Stack")
                   (append "Comprehensive solution for "
                      (append useCase " with advanced features"))
                   stackItems
                   estimatedCost
                   (calculateStackROI featureRichTools userProfile)
                   complex useCase false 0 0 (now w) (now w))
  end.

(** [if (stack) stacks.push(stack)] *)
Definition pushIf {A : Type} (stacks : list A) (stack : option A) : list A :=
  match stack with
  | Some s => stacks ++ [s]
  | None => stacks
  end.

Definition buildStackConfigurations (w : World) (tools : list Tool.t)
  (userProfile : UserProfile.t) (useCase : string) (budget : Q)
  : list ToolStack.t :=
  let stacks0 := [] in
  let stacks1 :=
    pushIf stacks0 (buildEssentialStack w tools userProfile useCase budget) in
  let stacks2 :=
    pushIf stacks1 (buildBalancedStack w tools userProfile useCase budget) in
  pushIf stacks2 (buildFeatureRichStack w tools userProfile useCase budget).

Definition calculateGoalAlignment (stack : ToolStack.t)
  (userProfile : UserProfile.t) : Q :=
  let userGoals := UserProfile.primaryGoals userProfile in
  let alignmentScore :=
    fold_left (fun alignmentScore goal =>
      if JS.includes (JS.toLowerCase (ToolStack.description stack))
           (JS.toLowerCase goal)
         || JS.includes (JS.toLowerCase (ToolStack.useCase stack))
              (JS.toLowerCase goal)
      then alignmentScore + 0.3 else alignmentScore) userGoals 0 in
  JS.min alignmentScore 1.0.

Definition estimateImplementationTime (stack : ToolStack.t) : Q :=
  let complexityMultipliers c :=
    match c with simple => 1 | moderate => 1.5 | complex => 2.5 end in
  let baseTime := 14 in
  JS.round (baseTime * complexityMultipliers (ToolStack.complexity stack)).

Definition calculateLearningCurve (stack : ToolStack.t) : LearningCurve :=
  match ToolStack.complexity stack with
  | simple => easy
  | moderate => mediumCurve
  | complex => hard
  end.

Definition scoreStack (stack : ToolStack.t) (userProfile : UserProfile.t)
  : StackRecommendation.t :=
  let experience := UserProfile.experience userProfile in
  let budgetFits :=
    JS.leb (ToolStack.estimatedCost stack)
      (Budget.monthly (UserProfile.budget userProfile) * 0.8) in
  let levelMatches :=
    (Experience_eqb experience expert
     && Complexity_eqb (ToolStack.complexity stack) complex)
    || (Experience_eqb experience intermediate
        && Complexity_eqb (ToolStack.complexity stack) moderate)
    || (Experience_eqb experience beginner
        && Complexity_eqb (ToolStack.complexity stack) simple) in
  let goalAlignment := calculateGoalAlignment stack userProfile in
  let goalsAlign := JS.gtb goalAlignment 0.7 in
  let highROI := JS.gtb (ToolStack.estimatedROI stack) 200 in
  let c0 := 0.7 in
  let c1 := if budgetFits then c0 + 0.1 else c0 in
  let c2 := if levelMatches then c1 + 0.1 else c1 in
  let c3 := if goalsAlign then c2 + 0.1 else c2 in
  let c4 := if highROI then c3 + 0.1 else c3 in
  let reasoning :=
    (if budgetFits then [[Str "Fits within your budget"]] else [])
    ++ (if levelMatches
        then [[Str "Matches your "; Str (experienceName experience);
               Str " experience level"]] else [])
    ++ (if goalsAlign then [[Str "Aligns with your primary goals"]] else [])
    ++ (if highROI then [[Str "High ROI potential"]] else []) in
  StackRecommendation.mk stack (JS.min c4 1.0) reasoning []
    (ToolStack.estimatedROI stack)
    (estimateImplementationTime stack)
    (calculateLearningCurve stack).

(** The comparator of the ranking, [(a, b) => b.confidence - a.confidence]. *)
Definition byConfidenceDesc (a b : StackRecommendation.t) : Q :=
  StackRecommendation.confidence b - StackRecommendation.confidence a.

(** [tools] is the catalog delivered by the dynamic import, which the
    builder and the engine both read. *)
Definition generateToolStack (w : World) (tools : list Tool.t)
  (userProfile : UserProfile.t) (useCase : string) (budget : Q)
  : list StackRecommendation.t :=
  let context :=
    RecommendationContext.mk userProfile (Some useCase) [] []
      (SessionData.mk 0 [] None) in
  let recommendations :=
    AIRecommendationEngine.generateRecommendations w tools context 10 in
  let recommendedTools :=
    JS.filterDefined
      (map (fun rec =>
              JS.find (fun t => String.eqb (Tool.id t)
                                  (ToolRecommendation.toolId rec)) tools)
         recommendations) in
  let stacks :=
    buildStackConfigurations w recommendedTools userProfile useCase budget in
  let scoredStacks := map (fun stack => scoreStack stack userProfile) stacks in
  JS.slice0 (JS.sort byConfidenceDesc scoredStacks) 3.

End ToolStackBuilder.

(** ** The intent dispatcher of the chat assistant *)

Module AIAssistant.

(** The texts of the replies.  The fixed replies are long literals of the
    source and are named here; the templates keep their holes. *)
Inductive reply : Type :=
| GreetingText
| HelpText
| ThanksText
| GoodbyeText
| Literal (s : string)
| FoundText (count : Q) (message : string)
| NoResultsText (message : string)
| ApologyText.

Inductive MessageContent : Type :=
| TextContent (body : reply)
| ToolCardContent (title : string) (description : text) (tools : list Tool.t).

Module Context.
Record t : Type := mk {
  category : option string;
  tools : option (list string);
  type : option string
}.
End Context.

Module AIResponse.
Record t : Type := mk {
  content : list MessageContent;
  context : Context.t
}.
End AIResponse.

(** A pattern of the dispatcher is an alternation of lower-case literals
    with the flag [i]: it is kept as the list of its alternatives. *)
Module SearchPattern.
Record t : Type := mk {
  pattern : list string;
  category : string;
  response : string;
  tools : list Tool.t
}.
End SearchPattern.

(** [pattern.test(message)]: some alternative occurs in the message,
    letter case ignored. *)
Definition test (pattern : list string) (message : string) : bool :=
  existsb (fun alternative => JS.includes (JS.toLowerCase message) alternative)
    pattern.

Definition categoryHas (tool : Tool.t) (s : string) : bool :=
  JS.includes (JS.toLowerCase (Tool.category tool)) s.

Definition subcategoryHas (tool : Tool.t) (s : string) : bool :=
  match Tool.subcategory tool with
  | Some c => JS.includes (JS.toLowerCase c) s
  | None => false
  end.

Definition tagHas (tool : Tool.t) (s : string) : bool :=
  tagsSome tool (fun tag => JS.includes (JS.toLowerCase tag) s).

Definition top5 (p : Tool.t -> bool) (tools : list Tool.t) : list Tool.t :=
  JS.slice0 (filter p tools) 5.

Definition searchPatterns (tools : list Tool.t) : list SearchPattern.t :=
  [ SearchPattern.mk
      ["video"; "editing"; "film"; "movie"; "youtube"; "vlog"]
      "video"
      "Here are some excellent AI tools for video editing and creation:"
      (top5 (fun tool => categoryHas tool "video" || subcategoryHas tool "video"
                         || tagHas tool "video") tools);
    SearchPattern.mk
      ["writing"; "content"; "blog"; "article"; "copy"; "text"]
      "writing"
      "Here are some great AI tools for writing and content creation:"
      (top5 (fun tool => categoryHas tool "writing"
                         || subcategoryHas tool "writing"
                         || tagHas tool "writing") tools);
    SearchPattern.mk
      ["coding"; "programming"; "developer"; "code"; "software"]
      "coding"
      "Here are some powerful AI tools for coding and development:"
      (top5 (fun tool => categoryHas tool "coding"
                         || subcategoryHas tool "coding"
                         || tagHas tool "coding") tools);
    SearchPattern.mk
      ["data"; "analysis"; "analytics"; "insights"; "reporting"]
      "data"
      "Here are some excellent AI tools for data analysis and insights:"
      (top5 (fun tool => categoryHas tool "data" || subcategoryHas tool "data"
                         || tagHas tool "data") tools);
    SearchPattern.mk
      ["design"; "graphic"; "art"; "creative"; "visual"]
      "design"
      "Here are some amazing AI tools for design and creativity:"
      (top5 (fun tool => categoryHas tool "design"
                         || subcategoryHas tool "design"
                         || tagHas tool "design") tools);
    SearchPattern.mk
      ["marketing"; "social"; "ads"; "campaign"; "promotion"]
      "marketing"
      "Here are some effective AI tools for marketing and promotion:"
      (top5 (fun tool => categoryHas tool "marketing"
                         || subcategoryHas tool "marketing"
                         || tagHas tool "marketing") tools);
    SearchPattern.mk
      ["ai agent"; "automation"; "workflow"; "bot"; "process automation"]
      "automation"
      "Here are some powerful AI tools for automation and workflow management:"
      (top5 (fun tool => categoryHas tool "automation"
                         || subcategoryHas tool "automation"
                         || categoryHas tool "agent"
                         || tagsSome tool (fun tag =>
                              JS.includes (JS.toLowerCase tag) "automation"
                              || JS.includes (JS.toLowerCase tag) "workflow"))
         tools);
    SearchPattern.mk
      ["personal finance"; "budgeting"; "finance"; "money"; "budget";
       "financial"]
      "finance"
      "Here are some excellent AI tools for personal finance and budgeting:"
      (top5 (fun tool => categoryHas tool "finance"
                         || subcategoryHas tool "finance"
                         || subcategoryHas tool "financial planning"
                         || categoryHas tool "budgeting"
                         || tagsSome tool (fun tag =>
                              JS.includes (JS.toLowerCase tag) "finance"
                              || JS.includes (JS.toLowerCase tag) "budget"))
         tools);
    SearchPattern.mk
      ["health"; "medical"; "wellness"; "fitness"; "symptom"; "diagnosis"]
      "health"
      "Here are some excellent AI tools for health and wellness:"
      (top5 (fun tool => categoryHas tool "health"
                         || subcategoryHas tool "health"
                         || tagsSome tool (fun tag =>
                              JS.includes (JS.toLowerCase tag) "health"
                              || JS.includes (JS.toLowerCase tag) "medical"))
         tools);
    SearchPattern.mk
      ["education"; "learning"; "teaching"; "student"; "course"; "training"]
      "education"
      "Here are some great AI tools for education and learning:"
      (top5 (fun tool => categoryHas tool "education"
                         || subcategoryHas tool "education"
                         || tagsSome tool (fun tag =>
                              JS.includes (JS.toLowerCase tag) "education"
                              || JS.includes (JS.toLowerCase tag) "learning"))
         tools);
    SearchPattern.mk
      ["gaming"; "game"; "entertainment"; "fun"; "play"]
      "gaming"
      "Here are some exciting AI tools for gaming and entertainment:"
      (top5 (fun tool => categoryHas tool "gaming"
                         || categoryHas tool "entertainment"
                         || subcategoryHas tool "gaming"
                         || tagsSome tool (fun tag =>
                              JS.includes (JS.toLowerCase tag) "game"
                              || JS.includes (JS.toLowerCase tag) "entertainment"))
         tools);
    SearchPattern.mk
      ["legal"; "law"; "compliance"; "contract"; "document"]
      "legal"
      "Here are some powerful AI tools for legal and compliance:"
      (top5 (fun tool => categoryHas tool "legal"
                         || subcategoryHas tool "legal"
                         || tagsSome tool (fun tag =>
                              JS.includes (JS.toLowerCase tag) "legal"
                              || JS.includes (JS.toLowerCase tag) "law"))
         tools) ].

Definition greetings : list string :=
  [ "hi"; "hello"; "hey"; "good morning"; "good afternoon"; "good evening";
    "howdy"; "sup"; "what's up" ].

Definition commonWords : list string :=
  [ "the"; "and"; "or"; "but"; "in"; "on"; "at"; "to"; "for"; "of"; "with";
    "by"; "is"; "are"; "was"; "were"; "be"; "been"; "have"; "has"; "had";
    "do"; "does"; "did"; "will"; "would"; "could"; "should"; "may"; "might";
    "can"; "this"; "that"; "these"; "those"; "a"; "an" ].

Definition canned (body : reply) (type : string) : AIResponse.t :=
  AIResponse.mk [TextContent body] (Context.mk None None (Some type)).

Definition greetingResponse : AIResponse.t := canned GreetingText "greeting".

(** The reply of the [catch] block. *)
Definition errorResponse : AIResponse.t :=
  AIResponse.mk [TextContent ApologyText] (Context.mk None None None).

Definition noResults (message : string) : AIResponse.t :=
  AIResponse.mk [TextContent (NoResultsText message)]
    (Context.mk None None None).

(** The part of the dispatcher that runs after the catalog is imported. *)
Definition searchCatalog (tools : list Tool.t) (message messageLower : string)
  : AIResponse.t :=
  let matchedPattern :=
    JS.find (fun pattern => test (SearchPattern.pattern pattern) message)
      (searchPatterns tools) in
  let general :=
    if (3 <=? String.length messageLower)%nat
       && negb (JS.arrayIncludes commonWords messageLower)
    then
      let searchResults :=
        JS.slice0
          (filter (fun tool =>
             JS.includes (JS.toLowerCase (Tool.name tool)) messageLower
             || JS.includes (JS.toLowerCase (Tool.description tool)) messageLower
             || tagsSome tool (fun tag =>
                  JS.includes (JS.toLowerCase tag) messageLower)
             || JS.includes (JS.toLowerCase (Tool.category tool)) messageLower)
             tools) 3 in
      match searchResults with
      | [] => noResults message
      | _ =>
          AIResponse.mk
            [ TextContent (FoundText (lengthQ searchResults) message);
              ToolCardContent "Search Results"
                [Str "AI tools matching "; Str message] searchResults ]
            (Context.mk (Some "search") (Some (map Tool.name searchResults))
               None)
      end
    else noResults message in
  match matchedPattern with
  | Some p =>
      match SearchPattern.tools p with
      | [] => general
      | found =>
          AIResponse.mk
            [ TextContent (Literal (SearchPattern.response p));
              ToolCardContent "Recommended Tools"
                [Str "Top "; Num (lengthQ found); Str " AI tools for ";
                 Str (SearchPattern.category p)] found ]
            (Context.mk (Some (SearchPattern.category p))
               (Some (map Tool.name found)) None)
      end
  | None => general
  end.

(** [catalog] is the outcome of the dynamic import of [@/data/tools]:
    [None] when the import is rejected, which the [catch] block turns into
    the apology. *)
Definition processUserMessage (catalog : option (list Tool.t))
  (message : string) : AIResponse.t :=
  let messageLower := JS.trim (JS.toLowerCase message) in
  if existsb (fun greeting => JS.includes messageLower greeting) greetings
  then greetingResponse
  else if JS.includes messageLower "help"
          || JS.includes messageLower "what can you do"
          || JS.includes messageLower "how do you work"
  then canned HelpText "help"
  else if JS.includes messageLower "thank" || JS.includes messageLower "thanks"
  then canned ThanksText "thanks"
  else if JS.includes messageLower "bye" || JS.includes messageLower "goodbye"
          || JS.includes messageLower "see you"
  then canned GoodbyeText "goodbye"
  else
    match catalog with
    | None => errorResponse
    | Some tools => searchCatalog tools message messageLower
    end.

End AIAssistant.

(** ** The send handler of the chat window *)

Module ChatWindow.

Inductive Sender : Type := user | assistant.

(** [metadata?: { voiceProcessed?: boolean }] *)
Module Metadata.
Record t : Type := mk {
  voiceProcessed : option bool
}.
End Metadata.

(** [id] is [Date.now().toString()], the decimal text of the clock: the
    number is kept. *)
Module Message.
Record t : Type := mk {
  id : Z;
  content : list AIAssistant.MessageContent;
  sender : Sender;
  timestamp : Z;
  metadata : option Metadata.t;
  context : option AIAssistant.Context.t
}.
End Message.

(** The state hooks that the handler reads and writes. *)
Module State.
Record t : Type := mk {
  messages : list Message.t;
  inputValue : string;
  isLoading : bool
}.
End State.

(** [handleSendMessage], as the state after the handler has run to its end.
    [sentAt] and [answeredAt] are the two readings of the clock; the updates
    of [messages] are functional ([prev => [...prev, m]]) and compose in
    order.  [processUserMessage] catches its own errors, so the handler's
    [catch] block is not entered. *)
Definition handleSendMessage (catalog : option (list Tool.t))
  (sentAt answeredAt : Z) (state : State.t) : State.t :=
  let messageText := JS.trim (State.inputValue state) in
  if String.eqb messageText "" || State.isLoading state then state
  else
    let userMessage :=
      Message.mk sentAt [AIAssistant.TextContent (AIAssistant.Literal messageText)]
        user sentAt (Some (Metadata.mk None)) None in
    let response := AIAssistant.processUserMessage catalog messageText in
    let aiMessage :=
      Message.mk answeredAt (AIAssistant.AIResponse.content response)
        assistant answeredAt None
        (Some (AIAssistant.AIResponse.context response)) in
    State.mk ((State.messages state ++ [userMessage]) ++ [aiMessage]) "" false.

(** [handleSuggestionClick] *)
Definition handleSuggestionClick (suggestion : string) (state : State.t)
  : State.t :=
  State.mk (State.messages state) suggestion (State.isLoading state).

End ChatWindow.

(** ** Vocabulary of the properties *)

(** The text contains a character of the class [\d]. *)
Definition hasDigit (s : string) : bool :=
  existsb JS.isDigit (list_ascii_of_string s).

(** The rating, when present, is on the scale from 0 to 5. *)
Definition ratingInRange (tool : Tool.t) : Prop :=
  match Tool.rating tool with
  | Some r => 0 <= r <= 5
  | None => True
  end.

Definition between (lo x hi : Q) : Prop := lo <= x /\ x <= hi.

(** The aggregate score that the engine gives a tool. *)
Definition aggregateScore (tool : Tool.t) (context : RecommendationContext.t)
  : Q :=
  AIRecommendationEngine.weightedSum
    (AIRecommendationEngine.calculateFactors tool context).

(** The catalog entry that a [toolId] names, and its aggregate score. *)
Definition toolById (tools : list Tool.t) (id : string) : option Tool.t :=
  JS.find (fun t => String.eqb (Tool.id t) id) tools.

Definition scoreById (tools : list Tool.t) (context : RecommendationContext.t)
  (id : string) : Q :=
  match toolById tools id with
  | Some t => aggregateScore t context
  | None => 0
  end.

(** A list in non-increasing order of [key]. *)
Definition Descending {A : Type} (key : A -> Q) (l : list A) : Prop :=
  StronglySorted (fun a b => key b <= key a) l.


(** What a builder makes of the tools it selected: a stack whose estimated
    cost is the sum of their extracted prices and at most the budget, or no
    stack when nothing was selected or the sum exceeds the budget. *)
Definition builderOutcome (budget : Q) (selected : list Tool.t)
  (outcome : option ToolStack.t) : Prop :=
  match outcome with
  | Some stack =>
      selected <> []
      /\ ToolStack.estimatedCost stack
         = ToolStackBuilder.calculateStackCost selected
      /\ ToolStack.estimatedCost stack <= budget
  | None =>
      selected = [] \/ budget < ToolStackBuilder.calculateStackCost selected
  end.

Definition withinBudget (budget : Q) (outcome : option ToolStack.t) : Prop :=
  match outcome with
  | Some stack => ToolStack.estimatedCost stack <= budget
  | None => True
  end.

(** ** Sample data *)

Module Samples.

Definition world : World := mkWorld (fun k => "id") 0.

Definition preferences (integrationNeeds : Q) : ToolPreferences.t :=
  ToolPreferences.mk 5 5 5 integrationNeeds.

Definition profile (industry : string) (experience : Experience)
  (teamSize : TeamSize) (monthly annual : Q) (goals : list string)
  (integrationNeeds : Q) : UserProfile.t :=
  UserProfile.mk "u1" industry "founder" experience teamSize
    (Budget.mk monthly annual "$") goals (preferences integrationNeeds).

Definition contextOf (p : UserProfile.t) : RecommendationContext.t :=
  RecommendationContext.mk p None [] [] (SessionData.mk 0 [] None).

(** The tool of the worked example: [$49/month], rated 4.6, Marketing. *)
Definition adTool : Tool.t :=
  Tool.mk "ad-1" "AdPilot" "Marketing" None "Plans and runs ad campaigns"
    "$49/month" (Some ["ads"; "campaign"]) (Some 4.6) "https://example.org/ad".

Definition soloProfile (monthly : Q) : UserProfile.t :=
  profile "Technology" intermediate solo monthly 6000 ["growth"] 5.

(** A free, top-rated coding tool that every factor favours. *)
Definition codeTool : Tool.t :=
  Tool.mk "code-1" "DevSuite" "Coding"  None
    "enterprise advanced complex software tech development coding programming"
    "Free" (Some ["coding"; "api"]) (Some 5) "https://example.org/dev".

Definition enterpriseProfile : UserProfile.t :=
  profile "Technology" intermediate enterprise 500 6000 ["coding"] 8.

Definition plainTool (id : string) : Tool.t :=
  Tool.mk id "Notes" "Writing" None "Takes notes" "Free" None None
    "https://example.org/notes".

Definition twoNotes : list Tool.t := [plainTool "a"; plainTool "b"].

(** An education tool that the pattern for [learning] finds. *)
Definition tutorTool : Tool.t :=
  Tool.mk "edu-1" "TutorBot" "Education" None "Adaptive lessons"
    "$15/month" (Some ["learning"]) (Some 4.2) "https://example.org/tutor".

End Samples.

(** ** Vocabulary of the further properties *)




(** Two contexts agree on what the scoring reads: the profile and the
    number of recent interactions. *)
Definition sameScoringInputs (c1 c2 : RecommendationContext.t) : Prop :=
  RecommendationContext.userProfile c1 = RecommendationContext.userProfile c2
  /\ List.length (RecommendationContext.recentInteractions c1)
     = List.length (RecommendationContext.recentInteractions c2).

Definition withExperience (p : UserProfile.t) (e : Experience) : UserProfile.t :=
  UserProfile.mk (UserProfile.userId p) (UserProfile.industry p)
    (UserProfile.role p) e (UserProfile.teamSize p) (UserProfile.budget p)
    (UserProfile.primaryGoals p) (UserProfile.toolPreferences p).

Definition withTeamSize (p : UserProfile.t) (s : TeamSize) : UserProfile.t :=
  UserProfile.mk (UserProfile.userId p) (UserProfile.industry p)
    (UserProfile.role p) (UserProfile.experience p) s (UserProfile.budget p)
    (UserProfile.primaryGoals p) (UserProfile.toolPreferences p).

Definition contextWithTeamSize (c : RecommendationContext.t) (s : TeamSize)
  : RecommendationContext.t :=
  RecommendationContext.mk
    (withTeamSize (RecommendationContext.userProfile c) s)
    (RecommendationContext.currentSearch c)
    (RecommendationContext.recentInteractions c)
    (RecommendationContext.searchHistory c)
    (RecommendationContext.sessionData c).

(** A goal occurs in a tag, in the description or in the category of a
    tool, letter case ignored. *)
Definition goalOccurs (tool : Tool.t) (goal : string) : bool :=
  let goalLower := JS.toLowerCase goal in
  existsb (fun tag => JS.includes (JS.toLowerCase tag) goalLower)
    (match Tool.tags tool with Some l => l | None => [] end)
  || JS.includes (JS.toLowerCase (Tool.description tool)) goalLower
  || JS.includes (JS.toLowerCase (Tool.category tool)) goalLower.

(** The tools that a reply shows in its cards. *)
Definition cardTools (content : list AIAssistant.MessageContent)
  : list Tool.t :=
  flat_map (fun c =>
              match c with
              | AIAssistant.ToolCardContent _ _ tools => tools
              | AIAssistant.TextContent _ => []
              end) content.

(** One of the fixed replies that need no catalog. *)
Definition cannedReply (r : AIAssistant.AIResponse.t) : Prop :=
  r = AIAssistant.greetingResponse
  \/ r = AIAssistant.canned AIAssistant.HelpText "help"
  \/ r = AIAssistant.canned AIAssistant.ThanksText "thanks"
  \/ r = AIAssistant.canned AIAssistant.GoodbyeText "goodbye".

(** The priorities of a stack, by position. *)
Definition priorityLadder : list Priority :=
  [essential; essential; essential; important; important;
   niceToHave; niceToHave].

(** The shape of a stack of one archetype: its complexity, between one
    and [most] tools, and the priorities read off the ladder by position. *)
Definition stackShape (most : nat) (c : Complexity) (s : ToolStack.t) : Prop :=
  ToolStack.complexity s = c
  /\ (1 <= List.length (ToolStack.tools s) <= most)%nat
  /\ map ToolStackItem.priority (ToolStack.tools s)
     = firstn (List.length (ToolStack.tools s)) priorityLadder.

(** What the answer says about a stack of each complexity. *)
Definition stackLabels (r : ToolStackBuilder.StackRecommendation.t) : Prop :=
  match ToolStack.complexity (ToolStackBuilder.StackRecommendation.stack r) with
  | simple =>
      stackShape 3 simple (ToolStackBuilder.StackRecommendation.stack r)
      /\ ToolStackBuilder.StackRecommendation.learningCurve r = easy
      /\ ToolStackBuilder.StackRecommendation.timeToImplement r = 14
  | moderate =>
      stackShape 5 moderate (ToolStackBuilder.StackRecommendation.stack r)
      /\ ToolStackBuilder.StackRecommendation.learningCurve r = mediumCurve
      /\ ToolStackBuilder.StackRecommendation.timeToImplement r = 21
  | complex =>
      stackShape 7 complex (ToolStackBuilder.StackRecommendation.stack r)
      /\ ToolStackBuilder.StackRecommendation.learningCurve r = hard
      /\ ToolStackBuilder.StackRecommendation.timeToImplement r = 35
  end.

(** * Properties *)

(** ** Comparisons and strings *)

Section Comparisons.

Lemma ltb_lt (x y : Q) : JS.ltb x y = true <-> x < y.
Proof.
  unfold JS.ltb. rewrite negb_true_iff.
  destruct (Qle_bool y x) eqn:E.
  - apply Qle_bool_iff in E. split; [discriminate | intro H; exfalso; lra].
  - split; [intros _ | reflexivity].
    apply Qnot_le_lt. intro H. apply Qle_bool_iff in H. congruence.
Qed.

Lemma ltb_ge (x y : Q) : JS.ltb x y = false <-> y <= x.
Proof.
  unfold JS.ltb. rewrite negb_false_iff. apply Qle_bool_iff.
Qed.

Lemma leb_le (x y : Q) : JS.leb x y = true <-> x <= y.
Proof. apply Qle_bool_iff. Qed.

Lemma leb_gt (x y : Q) : JS.leb x y = false <-> y < x.
Proof.
  rewrite <- ltb_lt. unfold JS.ltb, JS.leb.
  destruct (Qle_bool x y); simpl; split; congruence.
Qed.

Lemma gtb_gt (x y : Q) : JS.gtb x y = true <-> y < x.
Proof. apply ltb_lt. Qed.

Lemma gtb_le (x y : Q) : JS.gtb x y = false <-> x <= y.
Proof. apply ltb_ge. Qed.

Lemma geb_ge (x y : Q) : JS.geb x y = true <-> y <= x.
Proof. apply leb_le. Qed.

Lemma eqb_eq (x y : Q) : JS.eqb x y = true <-> x == y.
Proof. apply Qeq_bool_iff. Qed.

Lemma eqb_neq (x y : Q) : JS.eqb x y = false <-> ~ x == y.
Proof.
  unfold JS.eqb. split.
  - intros E H. apply Qeq_bool_iff in H. congruence.
  - intro H. destruct (Qeq_bool x y) eqn:E; [| reflexivity].
    exfalso. apply H. now apply Qeq_bool_iff.
Qed.

End Comparisons.

(** Turns the comparisons of a goal's hypotheses into order facts. *)
Ltac order_facts :=
  repeat match goal with
  | H : JS.ltb _ _ = true |- _ => apply ltb_lt in H
  | H : JS.ltb _ _ = false |- _ => apply ltb_ge in H
  | H : JS.leb _ _ = true |- _ => apply leb_le in H
  | H : JS.leb _ _ = false |- _ => apply leb_gt in H
  | H : JS.gtb _ _ = true |- _ => apply gtb_gt in H
  | H : JS.gtb _ _ = false |- _ => apply gtb_le in H
  | H : JS.geb _ _ = true |- _ => apply geb_ge in H
  | H : JS.eqb _ _ = true |- _ => apply eqb_eq in H
  | H : JS.eqb _ _ = false |- _ => apply eqb_neq in H
  end.

(** Decides an order fact between two numerals. *)
Ltac numeral :=
  vm_compute; first [reflexivity | discriminate | intro; discriminate].

Lemma min_le_r (x y : Q) : JS.min x y <= y.
Proof. unfold JS.min. destruct (JS.leb x y) eqn:E; order_facts; lra. Qed.

Lemma min_glb (x y z : Q) : z <= x -> z <= y -> z <= JS.min x y.
Proof. unfold JS.min. destruct (JS.leb x y); auto. Qed.

Lemma abs_nonneg (x : Q) : 0 <= JS.abs x.
Proof. unfold JS.abs. destruct (JS.ltb x 0) eqn:E; order_facts; lra. Qed.

Lemma abs_le (x b : Q) : - b <= x -> x <= b -> JS.abs x <= b.
Proof. unfold JS.abs. destruct (JS.ltb x 0) eqn:E; order_facts; lra. Qed.

Section Strings.

Lemma startsWith_append (p rest : string) :
  JS.startsWith (append p rest) p = true.
Proof.
  induction p as [| c p IH]; simpl.
  - reflexivity.
  - now rewrite Ascii.eqb_refl, IH.
Qed.

Lemma startsWith_split (s p : string) :
  JS.startsWith s p = true -> exists rest, s = append p rest.
Proof.
  revert s. induction p as [| c p IH]; intros s H.
  - exists s. reflexivity.
  - destruct s as [| d s]; simpl in H; [discriminate |].
    apply andb_true_iff in H. destruct H as [Hc Hp].
    apply Ascii.eqb_eq in Hc. subst d.
    destruct (IH _ Hp) as [rest ->]. now exists rest.
Qed.

Lemma startsWith_includes (s p : string) :
  JS.startsWith s p = true -> JS.includes s p = true.
Proof. intro H. destruct s; simpl; now rewrite H. Qed.

(** [includes] is the substring test. *)
Lemma includes_iff (s sub : string) :
  JS.includes s sub = true <->
  exists before after, s = append before (append sub after).
Proof.
  split.
  - induction s as [| c s IH]; simpl; intro H.
    + rewrite orb_false_r in H. apply startsWith_split in H.
      destruct H as [rest H]. now exists EmptyString, rest.
    + apply orb_true_iff in H. destruct H as [H | H].
      * apply startsWith_split in H. destruct H as [rest H].
        now exists EmptyString, rest.
      * destruct (IH H) as (before & after & ->).
        now exists (String c before), after.
  - intros (before & after & ->).
    induction before as [| c before IH]; simpl.
    + apply startsWith_includes, startsWith_append.
    + rewrite IH. apply orb_true_r.
Qed.

Lemma matchNumber_no_digit (s : string) :
  hasDigit s = false -> JS.matchNumber s = None.
Proof.
  destruct s as [| c s]; [reflexivity |].
  unfold hasDigit, JS.matchNumber. simpl. intro H.
  apply orb_false_iff in H. destruct H as [-> _]. reflexivity.
Qed.

Lemma matchAt_no_digit (s : string) :
  hasDigit s = false -> JS.matchAt s = None.
Proof.
  intro H. unfold JS.matchAt.
  destruct s as [| c s]; [reflexivity |].
  assert (Hs : hasDigit s = false).
  { unfold hasDigit in *. simpl in H. now apply orb_false_iff in H. }
  rewrite (matchNumber_no_digit _ H), (matchNumber_no_digit _ Hs).
  destruct c as [[] [] [] [] [] [] [] []]; reflexivity.
Qed.

(** Without a digit the pattern matches nowhere. *)
Lemma priceMatch_no_digit (s : string) :
  hasDigit s = false -> JS.priceMatch s = None.
Proof.
  induction s as [| c s IH]; intro H.
  - reflexivity.
  - change (JS.priceMatch (String c s))
      with (match JS.matchAt (String c s) with
            | Some g => Some g
            | None => JS.priceMatch s
            end).
    rewrite (matchAt_no_digit _ H). apply IH.
    unfold hasDigit in *. simpl in H. now apply orb_false_iff in H.
Qed.

End Strings.

(** ** Price extraction *)

(** C6.  A pricing text without any digit has the extracted price 0, in each
    of the three copies of [extractPrice] (recommendation engine, ROI
    calculator, stack builder); the function is total, so no error is
    raised. *)
Theorem extractPrice_no_digit (pricing : string) :
  hasDigit pricing = false ->
  AIRecommendationEngine.extractPrice pricing = 0
  /\ ROICalculator.extractPrice pricing = 0
  /\ ToolStackBuilder.extractPrice pricing = 0.
Proof.
  intro H.
  unfold AIRecommendationEngine.extractPrice, ROICalculator.extractPrice,
    ToolStackBuilder.extractPrice.
  rewrite (priceMatch_no_digit _ H). repeat split.
Qed.

Lemma extractPrice_no_digit_witness :
  hasDigit "Contact us" = false
  /\ AIRecommendationEngine.extractPrice "Contact us" = 0
  /\ ROICalculator.extractPrice "Contact us" = 0
  /\ ToolStackBuilder.extractPrice "Contact us" = 0.
Proof.
  split; [reflexivity | apply (extractPrice_no_digit "Contact us"); reflexivity].
Defined.

Example extractPrice_per_month :
  AIRecommendationEngine.extractPrice "$49/month" = 49.
Proof. reflexivity. Qed.

Example extractPrice_cents :
  AIRecommendationEngine.extractPrice "from $9.99 per seat" = 999 # 100.
Proof. reflexivity. Qed.

Example extractPrice_first_number :
  AIRecommendationEngine.extractPrice "Free for 14 days, then $20" = 14.
Proof. reflexivity. Qed.

(** ** The budget factor *)

Section BudgetMatch.

Variable tool : Tool.t.
Variable profile : UserProfile.t.

Let price : Q := AIRecommendationEngine.extractPrice (Tool.pricing tool).


End BudgetMatch.


(** ** Ranges of the eight factors and of the aggregate *)

Lemma lengthQ_nonneg {A : Type} (l : list A) : 0 <= lengthQ l.
Proof. unfold lengthQ, Qle. simpl. lia. Qed.


Lemma quotient_nonneg (x y : Q) : 0 <= x -> 0 <= y -> 0 <= x / y.
Proof.
  intros Hx Hy. unfold Qdiv.
  apply Qmult_le_0_compat; [assumption | now apply Qinv_le_0_compat].
Qed.

Section EngineRanges.

Import AIRecommendationEngine.

Lemma estimateToolComplexity_range (tool : Tool.t) :
  between 0 (estimateToolComplexity tool) 1.
Proof.
  unfold estimateToolComplexity, between.
  destruct (JS.includes (Tool.description tool) "enterprise"),
    (JS.includes (Tool.description tool) "advanced"),
    (JS.includes (Tool.description tool) "complex"),
    (tagsSome tool (fun tag => JS.includes tag "enterprise")),
    (tagsSome tool (fun tag => JS.includes tag "advanced"));
    split; numeral.
Qed.

Lemma calculateBudgetMatch_range (tool : Tool.t) (profile : UserProfile.t) :
  between 0 (calculateBudgetMatch tool profile) 1.
Proof.
  unfold calculateBudgetMatch, between.
  repeat match goal with
         | |- context [if ?b then _ else _] => destruct b
         end; split; numeral.
Qed.

Lemma calculateExperienceMatch_range (tool : Tool.t) (profile : UserProfile.t) :
  between 0 (calculateExperienceMatch tool profile) 1.
Proof.
  unfold calculateExperienceMatch, between.
  destruct (estimateToolComplexity_range tool) as [Hlo Hhi].
  pose proof (abs_nonneg
    (complexityMap (UserProfile.experience profile) - estimateToolComplexity tool))
    as Habs.
  assert (Hle : JS.abs (complexityMap (UserProfile.experience profile)
                        - estimateToolComplexity tool) <= 1).
  { apply abs_le; destruct (UserProfile.experience profile);
      unfold complexityMap; lra. }
  lra.
Qed.

Lemma goalStep_nonneg (tool : Tool.t) (acc : Q) (goal : string) :
  0 <= acc -> 0 <= goalStep tool acc goal.
Proof.
  intro H. unfold goalStep.
  repeat match goal with
         | |- context [if ?b then _ else _] => destruct b
         end; lra.
Qed.

Lemma goals_nonneg (tool : Tool.t) (goals : list string) (acc : Q) :
  0 <= acc -> 0 <= fold_left (goalStep tool) goals acc.
Proof.
  revert acc. induction goals as [| g goals IH]; intros acc H; simpl.
  - assumption.
  - apply IH. now apply goalStep_nonneg.
Qed.

Lemma calculateGoalAlignment_range (tool : Tool.t)
  (context : RecommendationContext.t) :
  between 0 (calculateGoalAlignment tool context) 1.
Proof.
  unfold calculateGoalAlignment, between. split.
  - apply min_glb; [apply goals_nonneg; lra | numeral].
  - eapply Qle_trans; [apply min_le_r | numeral].
Qed.

Lemma calculateIndustryRelevance_range (tool : Tool.t) (profile : UserProfile.t) :
  between 0 (calculateIndustryRelevance tool profile) 1.
Proof.
  unfold calculateIndustryRelevance, between. split.
  - apply min_glb; [| numeral].
    apply quotient_nonneg; apply lengthQ_nonneg.
  - eapply Qle_trans; [apply min_le_r | numeral].
Qed.

Lemma calculatePopularityScore_range (tool : Tool.t) :
  ratingInRange tool -> between 0 (calculatePopularityScore tool) 1.
Proof.
  unfold ratingInRange, calculatePopularityScore, JS.orElse, between.
  destruct (Tool.rating tool) as [r |].
  - intros [Hlo Hhi]. destruct (JS.eqb r 0).
    + split; numeral.
    + split.
      * apply quotient_nonneg; [assumption | numeral].
      * apply Qle_shift_div_r; [numeral | lra].
  - intros _. split; numeral.
Qed.

Lemma getIndustryROIMultiplier_range (industry : string) :
  between 0.9 (getIndustryROIMultiplier industry) 1.5.
Proof.
  unfold getIndustryROIMultiplier, industryMultipliers, between. simpl.
  repeat match goal with
         | |- context [if ?b then _ else _] => destruct b
         end; split; numeral.
Qed.

Lemma calculateROIPotential_range (tool : Tool.t) (profile : UserProfile.t) :
  between 0.36 (calculateROIPotential tool profile) 1.2.
Proof.
  unfold calculateROIPotential, between.
  destruct (getIndustryROIMultiplier_range (UserProfile.industry profile))
    as [Hlo Hhi].
  destruct (UserProfile.teamSize profile); unfold getTeamSizeMultiplier; lra.
Qed.

Lemma calculateLearningCurveScore_range (tool : Tool.t)
  (profile : UserProfile.t) :
  between 0 (calculateLearningCurveScore tool profile) 1.
Proof.
  unfold calculateLearningCurveScore, between.
  repeat match goal with
         | |- context [if ?b then _ else _] => destruct b
         end; split; numeral.
Qed.

Lemma calculateIntegrationScore_range (tool : Tool.t) (profile : UserProfile.t) :
  between 0 (calculateIntegrationScore tool profile) 1.
Proof.
  unfold calculateIntegrationScore, between.
  repeat match goal with
         | |- context [if ?b then _ else _] => destruct b
         end; split; numeral.
Qed.

Lemma weightedSum_eq (f : Factors.t) :
  weightedSum f ==
    Factors.budgetMatch f * 0.15 + Factors.experienceMatch f * 0.12
    + Factors.goalAlignment f * 0.20 + Factors.industryRelevance f * 0.10
    + Factors.popularityScore f * 0.08 + Factors.roiPotential f * 0.15
    + Factors.learningCurve f * 0.10 + Factors.integrationScore f * 0.10.
Proof.
  unfold weightedSum, Factors.values, Weights.values. simpl.
  unfold Weights.budgetMatch, Weights.experienceMatch, Weights.goalAlignment,
    Weights.industryRelevance, Weights.popularityScore, Weights.roiPotential,
    Weights.learningCurve, Weights.integrationScore.
  ring.
Qed.


End EngineRanges.




(** ** The worked example of the budget factor *)

Section MonthlyBudget.

Import AIRecommendationEngine.

(** Only the budget factor reads [budget.monthly]. *)
Lemma factors_withMonthly (tool : Tool.t) (context : RecommendationContext.t)
  (m1 m2 : Q) :
  let f1 := calculateFactors tool (RecommendationContext.withMonthly context m1) in
  let f2 := calculateFactors tool (RecommendationContext.withMonthly context m2) in
  Factors.experienceMatch f1 = Factors.experienceMatch f2
  /\ Factors.goalAlignment f1 = Factors.goalAlignment f2
  /\ Factors.industryRelevance f1 = Factors.industryRelevance f2
  /\ Factors.popularityScore f1 = Factors.popularityScore f2
  /\ Factors.roiPotential f1 = Factors.roiPotential f2
  /\ Factors.learningCurve f1 = Factors.learningCurve f2
  /\ Factors.integrationScore f1 = Factors.integrationScore f2.
Proof. repeat split. Qed.

Lemma score_difference (tool : Tool.t) (context : RecommendationContext.t)
  (m1 m2 : Q) :
  aggregateScore tool (RecommendationContext.withMonthly context m1)
  - aggregateScore tool (RecommendationContext.withMonthly context m2)
  == 0.15 * (calculateBudgetMatch tool
               (UserProfile.withMonthly
                  (RecommendationContext.userProfile context) m1)
             - calculateBudgetMatch tool
                 (UserProfile.withMonthly
                    (RecommendationContext.userProfile context) m2)).
Proof.
  unfold aggregateScore. rewrite !weightedSum_eq.
  destruct (factors_withMonthly tool context m1 m2)
    as (-> & -> & -> & -> & -> & -> & ->).
  simpl. ring.
Qed.

End MonthlyBudget.



(** ** Sorting and slicing *)

Lemma firstn_In {A : Type} (n : nat) (l : list A) (x : A) :
  In x (firstn n l) -> In x l.
Proof.
  revert n. induction l as [| y l IH]; intros [| n]; simpl; try tauto.
  intros [H | H]; [now left | right; eauto].
Qed.

Section Sorting.

Context {A : Type}.
Variable key : A -> Q.

(** The comparator [(a, b) => key b - key a]. *)
Let cmp (a b : A) : Q := key b - key a.

Lemma insertBy_perm (c : A -> A -> Q) (x : A) (l : list A) :
  Permutation (JS.insertBy c x l) (x :: l).
Proof.
  induction l as [| y l IH]; simpl.
  - reflexivity.
  - destruct (JS.ltb 0 (c x y)).
    + rewrite IH. apply perm_swap.
    + reflexivity.
Qed.

Lemma sort_perm (c : A -> A -> Q) (l : list A) :
  Permutation (JS.sort c l) l.
Proof.
  induction l as [| x l IH]; simpl.
  - reflexivity.
  - unfold JS.sort in *. simpl. rewrite insertBy_perm. now constructor.
Qed.

Lemma insertBy_descending (x : A) (l : list A) :
  Descending key l -> Descending key (JS.insertBy cmp x l).
Proof.
  unfold Descending. induction 1 as [| y l Hl IH Hy]; simpl.
  - repeat constructor.
  - destruct (JS.ltb 0 (cmp x y)) eqn:E; unfold cmp in E; order_facts.
    + constructor; [assumption |].
      rewrite (insertBy_perm cmp x l). constructor; [lra | assumption].
    + constructor; [now constructor |].
      constructor; [lra |].
      eapply Forall_impl; [| exact Hy]. simpl. intros z Hz. lra.
Qed.

Lemma sort_descending (l : list A) : Descending key (JS.sort cmp l).
Proof.
  induction l as [| x l IH].
  - constructor.
  - unfold JS.sort in *. simpl. now apply insertBy_descending.
Qed.

Lemma firstn_descending (n : nat) (l : list A) :
  Descending key l -> Descending key (firstn n l).
Proof.
  unfold Descending. intro H. revert n.
  induction H as [| y l Hl IH Hy]; intros [| n]; simpl; try constructor.
  - apply IH.
  - rewrite Forall_forall in *. intros z Hz. apply Hy.
    revert Hz. apply (firstn_In n _).
Qed.

End Sorting.

Section Slicing.

Context {A : Type}.

Lemma slice0_firstn (l : list A) (e : Q) :
  exists n, JS.slice0 l e = firstn n l.
Proof. unfold JS.slice0. eauto. Qed.

Lemma toInteger_le (e : Q) : 0 <= e -> inject_Z (JS.toInteger e) <= e.
Proof.
  intro H. unfold JS.toInteger.
  assert (Hn : (0 <= Qnum e)%Z).
  { unfold Qle in H. simpl in H. lia. }
  rewrite Z.quot_div_nonneg by lia.
  destruct e as [n d]. apply (Qfloor_le (n # d)).
Qed.

Lemma toInteger_nonneg (e : Q) : 0 <= e -> (0 <= JS.toInteger e)%Z.
Proof.
  intro H. unfold JS.toInteger.
  assert (Hn : (0 <= Qnum e)%Z).
  { unfold Qle in H. simpl in H. lia. }
  apply Z.quot_pos; lia.
Qed.

(** With a non-negative end, [slice(0, e)] keeps at most [e] elements. *)
Lemma slice0_length (l : list A) (e : Q) :
  0 <= e -> lengthQ (JS.slice0 l e) <= e.
Proof.
  intro H. apply Qle_trans with (inject_Z (JS.toInteger e));
    [| now apply toInteger_le].
  pose proof (toInteger_nonneg e H) as Hpos.
  unfold lengthQ, JS.slice0.
  rewrite <- Zle_Qle.
  destruct (JS.toInteger e <? 0)%Z eqn:E; [apply Z.ltb_lt in E; lia |].
  rewrite length_firstn. lia.
Qed.

Lemma firstn_NoDup (n : nat) (l : list A) : NoDup l -> NoDup (firstn n l).
Proof.
  intro H. revert n.
  induction H as [| x l Hx Hl IH]; intros [| n]; simpl; try constructor.
  - intro Hin. apply Hx. revert Hin. apply (firstn_In n _).
  - apply IH.
Qed.

Lemma firstn_Forall (P : A -> Prop) (n : nat) (l : list A) :
  Forall P l -> Forall P (firstn n l).
Proof.
  rewrite !Forall_forall. intros H x Hx. apply H.
  revert Hx. apply (firstn_In n _).
Qed.

Lemma slice0_Forall (P : A -> Prop) (l : list A) (e : Q) :
  Forall P l -> Forall P (JS.slice0 l e).
Proof.
  destruct (slice0_firstn l e) as [n ->]. apply firstn_Forall.
Qed.

End Slicing.

Section Indexed.

Context {A B C : Type}.

Lemma mapi_from_length (f : A -> nat -> B) (i : nat) (l : list A) :
  List.length (mapi_from f i l) = List.length l.
Proof.
  revert i. induction l as [| x l IH]; intro i; simpl; [| rewrite IH];
    reflexivity.
Qed.

Lemma map_mapi_from (g : B -> C) (h : A -> C) (f : A -> nat -> B) (i : nat)
  (l : list A) :
  (forall x k, g (f x k) = h x) ->
  map g (mapi_from f i l) = map h l.
Proof.
  intro H. revert i.
  induction l as [| x l IH]; intro i; simpl; [| rewrite H, IH]; reflexivity.
Qed.

Lemma in_mapi_from (f : A -> nat -> B) (i : nat) (l : list A) (r : B) :
  In r (mapi_from f i l) -> exists x k, In x l /\ r = f x k.
Proof.
  revert i. induction l as [| x l IH]; intro i; simpl; [contradiction |].
  intros [<- | H].
  - exists x, i. auto.
  - destruct (IH _ H) as (y & k & Hy & ->). exists y, k. auto.
Qed.

End Indexed.

(** ** The ranking of the recommendations *)

Section Ranking.

Import AIRecommendationEngine.

Variable w : World.
Variable tools : list Tool.t.
Variable context : RecommendationContext.t.

Let scoredTools : list RecommendationScore.t :=
  map (fun tool => calculateToolScore tools tool context) tools.

Let idOf (s : RecommendationScore.t) : string :=
  Tool.id (RecommendationScore.tool s).

Lemma scoredTools_origin (s : RecommendationScore.t) :
  In s scoredTools ->
  exists t, In t tools /\ s = calculateToolScore tools t context.
Proof.
  unfold scoredTools. rewrite in_map_iff. intros (t & <- & Ht). eauto.
Qed.

Lemma scoredTools_ids : map idOf scoredTools = map Tool.id tools.
Proof.
  unfold scoredTools. rewrite map_map. reflexivity.
Qed.

Lemma toolById_found (l : list Tool.t) (t : Tool.t) :
  NoDup (map Tool.id l) -> In t l -> toolById l (Tool.id t) = Some t.
Proof.
  unfold toolById, JS.find.
  induction l as [| u l IH]; simpl; intros Hnd Hin; [contradiction |].
  inversion Hnd as [| ? ? Hu Hl]; subst.
  destruct (String.eqb (Tool.id u) (Tool.id t)) eqn:E.
  - destruct Hin as [-> | Hin]; [reflexivity |].
    apply String.eqb_eq in E. exfalso. apply Hu. rewrite E.
    now apply in_map.
  - destruct Hin as [-> | Hin]; [| now apply IH].
    rewrite String.eqb_refl in E. discriminate.
Qed.

Lemma scoreById_scored (s : RecommendationScore.t) :
  NoDup (map Tool.id tools) -> In s scoredTools ->
  scoreById tools context (idOf s) = RecommendationScore.score s.
Proof.
  intros Hnd Hs. destruct (scoredTools_origin s Hs) as (t & Ht & ->).
  unfold scoreById, idOf. simpl. now rewrite (toolById_found tools t Hnd Ht).
Qed.

Lemma top_in_scored (limit : Q) (s : RecommendationScore.t) :
  In s (topRecommendations tools context limit) -> In s scoredTools.
Proof.
  unfold topRecommendations. fold scoredTools.
  destruct (slice0_firstn (JS.sort byScoreDesc scoredTools) limit) as [n ->].
  intro H. apply firstn_In in H.
  now apply (Permutation_in _ (sort_perm byScoreDesc scoredTools)).
Qed.

Lemma top_descending (limit : Q) :
  Descending RecommendationScore.score (topRecommendations tools context limit).
Proof.
  unfold topRecommendations. fold scoredTools.
  destruct (slice0_firstn (JS.sort byScoreDesc scoredTools) limit) as [n ->].
  apply firstn_descending. apply sort_descending.
Qed.

Lemma top_ids_NoDup (limit : Q) :
  NoDup (map Tool.id tools) ->
  NoDup (map idOf (topRecommendations tools context limit)).
Proof.
  intro Hnd. unfold topRecommendations. fold scoredTools.
  destruct (slice0_firstn (JS.sort byScoreDesc scoredTools) limit) as [n ->].
  rewrite <- firstn_map. apply firstn_NoDup.
  apply (Permutation_NoDup (l := map idOf scoredTools)).
  - apply Permutation_map. symmetry. apply sort_perm.
  - now rewrite scoredTools_ids.
Qed.

Lemma recommendations_toolIds (limit : Q) :
  map ToolRecommendation.toolId (generateRecommendations w tools context limit)
  = map idOf (topRecommendations tools context limit).
Proof.
  unfold generateRecommendations, mapi. now apply map_mapi_from.
Qed.

(** The ranking passes from the scored tools to the recommendations made
    of them. *)
Lemma mapi_from_descending (i : nat) (l : list RecommendationScore.t) :
  (forall s, In s l ->
     scoreById tools context (idOf s) = RecommendationScore.score s) ->
  Descending RecommendationScore.score l ->
  Descending (fun r => scoreById tools context (ToolRecommendation.toolId r))
    (mapi_from (toRecommendation w context) i l).
Proof.
  unfold Descending. intros Hkey Hl. revert i.
  induction Hl as [| s l Hl IH Hs]; intro i; simpl; constructor.
  - apply IH. intros. apply Hkey. now right.
  - rewrite Forall_forall in *. intros r Hr.
    destruct (in_mapi_from _ _ _ _ Hr) as (s' & k & Hs' & ->).
    change (scoreById tools context (idOf s')
            <= scoreById tools context (idOf s)).
    rewrite (Hkey s') by now right.
    rewrite (Hkey s) by now left.
    now apply Hs.
Qed.

End Ranking.

(** C2, as the code has it.  For a catalog with pairwise distinct ids and a
    limit that is not negative, the recommendations come in non-increasing
    order of the aggregate score of the tool each one names, there are at
    most [limit] of them, and no [toolId] occurs twice. *)
Theorem generateRecommendations_ranked (w : World) (tools : list Tool.t)
  (context : RecommendationContext.t) (limit : Q) :
  NoDup (map Tool.id tools) ->
  0 <= limit ->
  let recommendations :=
    AIRecommendationEngine.generateRecommendations w tools context limit in
  Descending (fun r => scoreById tools context (ToolRecommendation.toolId r))
    recommendations
  /\ lengthQ recommendations <= limit
  /\ NoDup (map ToolRecommendation.toolId recommendations).
Proof.
  intros Hnd Hlimit recommendations. subst recommendations. repeat split.
  - unfold AIRecommendationEngine.generateRecommendations, mapi.
    apply mapi_from_descending; [| apply top_descending].
    intros s Hs. apply scoreById_scored; [assumption |].
    now apply top_in_scored in Hs.
  - unfold AIRecommendationEngine.generateRecommendations, mapi, lengthQ.
    rewrite mapi_from_length. now apply slice0_length.
  - rewrite recommendations_toolIds. now apply top_ids_NoDup.
Qed.

Lemma generateRecommendations_ranked_witness :
  lengthQ
    (AIRecommendationEngine.generateRecommendations Samples.world
       Samples.twoNotes (Samples.contextOf Samples.enterpriseProfile) 1)
  <= 1.
Proof.
  apply (generateRecommendations_ranked Samples.world Samples.twoNotes
           (Samples.contextOf Samples.enterpriseProfile) 1).
  - repeat constructor; simpl; intuition discriminate.
  - numeral.
Defined.

(** The claim as the spec words it fails for a negative limit:
    [slice(0, -1)] drops the last element, so a catalog of two tools yields
    one recommendation, which is more than [-1]. *)
Lemma generateRecommendations_negative_limit :
  let recommendations :=
    AIRecommendationEngine.generateRecommendations Samples.world
      Samples.twoNotes (Samples.contextOf Samples.enterpriseProfile) (-1) in
  NoDup (map Tool.id Samples.twoNotes)
  /\ map ToolRecommendation.toolId recommendations = ["a"]
  /\ ~ lengthQ recommendations <= -1.
Proof.
  repeat split.
  - repeat constructor; simpl; intuition discriminate.
  - intro H. vm_compute in H. apply H. reflexivity.
Qed.

(** ** The stack builder and the budget *)

Section StackBudget.

Import ToolStackBuilder.

Variable w : World.
Variable userProfile : UserProfile.t.
Variable useCase : string.
Variable budget : Q.

Lemma buildEssentialStack_outcome (tools : list Tool.t) :
  builderOutcome budget
    (JS.slice0 (filter (fun tool => isEssentialForUseCase tool useCase) tools) 3)
    (buildEssentialStack w tools userProfile useCase budget).
Proof.
  unfold buildEssentialStack.
  destruct (JS.slice0 _ 3) as [| t ts]; [now left |].
  destruct (JS.gtb (calculateStackCost (t :: ts)) budget) eqn:E;
    order_facts; simpl.
  - now right.
  - repeat split; [discriminate | exact E].
Qed.

Lemma buildBalancedStack_outcome (tools : list Tool.t) :
  builderOutcome budget
    (JS.slice0 (filter (fun tool => isBalancedForUseCase tool useCase) tools) 5)
    (buildBalancedStack w tools userProfile useCase budget).
Proof.
  unfold buildBalancedStack.
  destruct (JS.slice0 _ 5) as [| t ts]; [now left |].
  destruct (JS.gtb (calculateStackCost (t :: ts)) budget) eqn:E;
    order_facts; simpl.
  - now right.
  - repeat split; [discriminate | exact E].
Qed.

Lemma buildFeatureRichStack_outcome (tools : list Tool.t) :
  builderOutcome budget
    (JS.slice0 (filter (fun tool => isFeatureRichForUseCase tool useCase) tools) 7)
    (buildFeatureRichStack w tools userProfile useCase budget).
Proof.
  unfold buildFeatureRichStack.
  destruct (JS.slice0 _ 7) as [| t ts]; [now left |].
  destruct (JS.gtb (calculateStackCost (t :: ts)) budget) eqn:E;
    order_facts; simpl.
  - now right.
  - repeat split; [discriminate | exact E].
Qed.

Lemma builderOutcome_withinBudget (selected : list Tool.t)
  (outcome : option ToolStack.t) :
  builderOutcome budget selected outcome -> withinBudget budget outcome.
Proof.
  destruct outcome as [stack |]; simpl; [| trivial]. now intros (_ & _ & H).
Qed.

Lemma pushIf_budget (stacks : list ToolStack.t) (outcome : option ToolStack.t) :
  Forall (fun s => ToolStack.estimatedCost s <= budget) stacks ->
  withinBudget budget outcome ->
  Forall (fun s => ToolStack.estimatedCost s <= budget) (pushIf stacks outcome).
Proof.
  intros Hs Ho. destruct outcome as [s |]; simpl; [| assumption].
  apply Forall_app. split; [assumption | now repeat constructor].
Qed.

Lemma buildStackConfigurations_budget (tools : list Tool.t) :
  Forall (fun s => ToolStack.estimatedCost s <= budget)
    (buildStackConfigurations w tools userProfile useCase budget).
Proof.
  unfold buildStackConfigurations.
  repeat apply pushIf_budget.
  - constructor.
  - eapply builderOutcome_withinBudget, buildEssentialStack_outcome.
  - eapply builderOutcome_withinBudget, buildBalancedStack_outcome.
  - eapply builderOutcome_withinBudget, buildFeatureRichStack_outcome.
Qed.

End StackBudget.

(** C3.  Every stack in the answer of [generateToolStack] has an estimated
    cost of at most the budget supplied.  Each of the three builders makes
    the estimated cost the sum of the extracted prices of the tools it
    selected, and yields no stack rather than one whose sum exceeds the
    budget. *)
Theorem generateToolStack_within_budget (w : World) (tools : list Tool.t)
  (userProfile : UserProfile.t) (useCase : string) (budget : Q) :
  Forall (fun r =>
            ToolStack.estimatedCost (ToolStackBuilder.StackRecommendation.stack r)
            <= budget)
    (ToolStackBuilder.generateToolStack w tools userProfile useCase budget)
  /\ (forall pool : list Tool.t,
        builderOutcome budget
          (JS.slice0
             (filter (fun tool =>
                        ToolStackBuilder.isEssentialForUseCase tool useCase)
                pool) 3)
          (ToolStackBuilder.buildEssentialStack w pool userProfile useCase budget)
        /\ builderOutcome budget
             (JS.slice0
                (filter (fun tool =>
                           ToolStackBuilder.isBalancedForUseCase tool useCase)
                   pool) 5)
             (ToolStackBuilder.buildBalancedStack w pool userProfile useCase
                budget)
        /\ builderOutcome budget
             (JS.slice0
                (filter (fun tool =>
                           ToolStackBuilder.isFeatureRichForUseCase tool useCase)
                   pool) 7)
             (ToolStackBuilder.buildFeatureRichStack w pool userProfile useCase
                budget)).
Proof.
  split.
  - unfold ToolStackBuilder.generateToolStack.
    apply slice0_Forall.
    eapply Permutation_Forall; [symmetry; apply sort_perm |].
    rewrite Forall_map. simpl.
    apply buildStackConfigurations_budget.
  - intro pool. repeat apply conj.
    + apply buildEssentialStack_outcome.
    + apply buildBalancedStack_outcome.
    + apply buildFeatureRichStack_outcome.
Qed.

(** The answer is not always empty: with a budget of 100 the sample catalog
    yields three stacks; with a budget of 10 only the free one is left. *)
Example generateToolStack_sample :
  map (fun r =>
         ToolStack.estimatedCost (ToolStackBuilder.StackRecommendation.stack r))
    (ToolStackBuilder.generateToolStack Samples.world
       [Samples.plainTool "a"; Samples.adTool; Samples.codeTool]
       Samples.enterpriseProfile "coding" 100)
  = [49; 49; 0]
  /\ map (fun r =>
            ToolStack.estimatedCost
              (ToolStackBuilder.StackRecommendation.stack r))
       (ToolStackBuilder.generateToolStack Samples.world
          [Samples.plainTool "a"; Samples.adTool; Samples.codeTool]
          Samples.enterpriseProfile "coding" 10)
     = [0].
Proof. split; vm_compute; reflexivity. Qed.

(** ** The payback period *)



Example paybackPeriod_rounded :
  ROICalculator.ROIMetrics.paybackPeriod
    (ROICalculator.calculateROIMetrics 1000 7000) = JS.Finite 1.71.
Proof. reflexivity. Qed.

(** ** The risk of a stack *)



Section StackRisk.

Import ROICalculator.

Variable w : World.
Variable tools : list Tool.t.
Variable userProfile : UserProfile.t.

Let toolROIs : list ROICalculation.t :=
  map (fun tool => calculateToolROI tool userProfile) tools.


End StackRisk.



(** With a negative annual budget the quotient is negative, hence below
    0.3, although the investment is not less than 30% of twelve times the
    budget: the two readings part only there. *)
Example negative_budget_low_risk :
  let profile :=
    Samples.profile "Technology" intermediate enterprise 500 (-1) ["coding"] 8 in
  let toolROIs :=
    map (fun tool => ROICalculator.calculateToolROI tool profile)
      [Samples.codeTool] in
  ROICalculator.StackROICalculation.riskAssessment
    (ROICalculator.calculateStackROI Samples.world [Samples.codeTool] profile)
  = lowRisk
  /\ ~ ROICalculator.sumOf ROICalculator.investmentTotal toolROIs
       < 0.3 * (Budget.annual (UserProfile.budget profile) * 12).
Proof.
  split; [reflexivity |].
  intro H. vm_compute in H. discriminate H.
Qed.

(** ** The greeting rule of the chat dispatcher *)

Section Greeting.

Import AIAssistant.

Lemma greeting_rule (catalog : option (list Tool.t)) (message : string) :
  existsb (fun greeting => JS.includes (JS.trim (JS.toLowerCase message)) greeting)
    greetings = true ->
  processUserMessage catalog message = greetingResponse.
Proof.
  intro H. unfold processUserMessage. now rewrite H.
Qed.

End Greeting.

(** C9.  Whatever the catalog is, also when it is empty or its import
    fails, the message [hello] is answered by the canned greeting, whose
    context has the type [greeting]: the greeting rule is decided before
    the catalog is looked at. *)
Theorem processUserMessage_hello (catalog : option (list Tool.t)) :
  AIAssistant.processUserMessage catalog "hello" = AIAssistant.greetingResponse
  /\ AIAssistant.AIResponse.content (AIAssistant.processUserMessage catalog "hello")
     = [AIAssistant.TextContent AIAssistant.GreetingText]
  /\ AIAssistant.Context.type
       (AIAssistant.AIResponse.context
          (AIAssistant.processUserMessage catalog "hello"))
     = Some "greeting".
Proof.
  rewrite (greeting_rule catalog "hello") by reflexivity.
  repeat split.
Qed.

(** C10.  A message whose trimmed lower-case text contains a greeting word
    anywhere is answered by the canned greeting whatever the catalog is, so
    neither the category patterns nor the catalog search are reached.  The
    word [hi] occurs inside [machine] and [which], and the query
    [machine learning tools] is answered by the greeting. *)
Theorem greeting_shadows_search (catalog : option (list Tool.t))
  (message greeting before after : string) :
  In greeting AIAssistant.greetings ->
  JS.trim (JS.toLowerCase message) = append before (append greeting after) ->
  AIAssistant.processUserMessage catalog message = AIAssistant.greetingResponse
  /\ JS.includes "machine" "hi" = true
  /\ JS.includes "which" "hi" = true
  /\ AIAssistant.processUserMessage catalog "machine learning tools"
     = AIAssistant.greetingResponse.
Proof.
  intros Hin Hsplit. split; [| repeat split].
  apply greeting_rule. apply existsb_exists. exists greeting.
  split; [assumption |]. apply includes_iff. eauto.
Qed.

Lemma greeting_shadows_search_witness :
  AIAssistant.processUserMessage (Some [Samples.tutorTool])
    "Machine learning tools"
  = AIAssistant.greetingResponse.
Proof.
  apply (greeting_shadows_search (Some [Samples.tutorTool])
           "Machine learning tools" "hi" "mac" "ne learning tools").
  - simpl. auto.
  - reflexivity.
Defined.

(** Past the greeting rule the same query would have found the tools of the
    education pattern. *)
Example search_without_greeting :
  AIAssistant.AIResponse.context
    (AIAssistant.searchCatalog [Samples.tutorTool] "machine learning tools"
       "machine learning tools")
  = AIAssistant.Context.mk (Some "education") (Some ["TutorBot"]) None.
Proof. reflexivity. Qed.

(** * Further properties *)

(** ** What the price pattern reads *)

Section PriceReading.

Lemma digitsValue_nonneg (s : string) (acc : Z) :
  (0 <= acc)%Z -> (0 <= JS.digitsValue acc s)%Z.
Proof.
  revert acc. induction s as [| c s IH]; intros acc H; cbn [JS.digitsValue].
  - assumption.
  - apply IH. unfold JS.digitValue. lia.
Qed.

Lemma parseFloat_nonneg (s : string) : 0 <= JS.parseFloat s.
Proof.
  unfold JS.parseFloat.
  destruct (JS.spanDigits s) as [ip rest].
  pose proof (digitsValue_nonneg ip 0 (Z.le_refl 0)) as Hip.
  assert (Hint : 0 <= inject_Z (JS.digitsValue 0 ip)).
  { unfold Qle. simpl. lia. }
  destruct rest as [| c r]; [exact Hint |].
  destruct (Ascii.eqb c ".") eqn:E.
  - apply Ascii.eqb_eq in E. subst c.
    destruct (JS.spanDigits r) as [fp rest'].
    destruct fp as [| d fp]; [exact Hint |].
    pose proof (digitsValue_nonneg (String d fp) 0 (Z.le_refl 0)) as Hfp.
    unfold Qle. cbn [Qnum Qden].
    set (scale := Pos.pow 10 (Pos.of_nat (String.length (String d fp)))).
    pose proof (Pos2Z.is_pos scale).
    set (a := JS.digitsValue 0 ip) in *.
    set (b := JS.digitsValue 0 (String d fp)) in *.
    nia.
  - destruct c as [[] [] [] [] [] [] [] []]; try exact Hint; discriminate E.
Qed.









End PriceReading.

Section PriceValues.





End PriceValues.

(** X1.  The extracted price is never negative, whatever the pricing text
    is: a sign before the digits is not read. *)
Theorem extractPrice_nonneg (pricing : string) :
  0 <= AIRecommendationEngine.extractPrice pricing
  /\ 0 <= ROICalculator.extractPrice pricing
  /\ 0 <= ToolStackBuilder.extractPrice pricing.
Proof.
  unfold AIRecommendationEngine.extractPrice, ROICalculator.extractPrice,
    ToolStackBuilder.extractPrice.
  destruct (JS.priceMatch pricing) as [g |].
  - repeat split; apply parseFloat_nonneg.
  - repeat split; apply Qle_refl.
Qed.





(** ** What a recommendation is made of *)

Section RecommendationOrigin.

Import AIRecommendationEngine.

Variable w : World.
Variable tools : list Tool.t.
Variable context : RecommendationContext.t.

(** Every recommendation is the image of the score of a catalog tool. *)
Lemma recommendation_origin (limit : Q) (r : ToolRecommendation.t) :
  In r (generateRecommendations w tools context limit) ->
  exists t k,
    In t tools
    /\ r = toRecommendation w context (calculateToolScore tools t context) k.
Proof.
  unfold generateRecommendations, mapi. intro H.
  destruct (in_mapi_from _ _ _ _ H) as (s & k & Hs & ->).
  apply top_in_scored in Hs.
  destruct (scoredTools_origin tools context s Hs) as (t & Ht & ->).
  eauto.
Qed.

Lemma calculateLearningCurveScore_values (tool : Tool.t)
  (profile : UserProfile.t) :
  calculateLearningCurveScore tool profile = 1.0
  \/ calculateLearningCurveScore tool profile = 0.5.
Proof.
  unfold calculateLearningCurveScore.
  repeat match goal with
         | |- context [if ?b then _ else _] => destruct b
         end; auto.
Qed.

Lemma findAlternatives_sound (tool a : Tool.t) :
  In a (findAlternatives tools tool context) ->
  In a tools
  /\ Tool.id a <> Tool.id tool
  /\ Tool.category a = Tool.category tool
  /\ exists x, Tool.rating a = Some x /\ 4 <= x.
Proof.
  unfold findAlternatives.
  destruct (slice0_firstn
              (filter (fun t =>
                 negb (String.eqb (Tool.id t) (Tool.id tool))
                 && String.eqb (Tool.category t) (Tool.category tool)
                 && ratedAtLeast t 4.0) tools) 3) as [n ->].
  intro H. apply firstn_In in H. apply filter_In in H.
  destruct H as [Hin Hp].
  apply andb_true_iff in Hp. destruct Hp as [Hp Hr].
  apply andb_true_iff in Hp. destruct Hp as [Hid Hcat].
  apply negb_true_iff, String.eqb_neq in Hid.
  apply String.eqb_eq in Hcat.
  unfold ratedAtLeast in Hr.
  destruct (Tool.rating a) as [x |]; [| discriminate Hr].
  order_facts. repeat split; try assumption.
  exists x. split; [reflexivity | lra].
Qed.

Lemma findAlternatives_length (tool : Tool.t) :
  (List.length (findAlternatives tools tool context) <= 3)%nat.
Proof.
  unfold findAlternatives.
  match goal with
  | |- (List.length (JS.slice0 ?l 3) <= 3)%nat =>
      assert (H : lengthQ (JS.slice0 l 3) <= 3)
        by (apply slice0_length; numeral);
      set (kept := JS.slice0 l 3) in *
  end.
  unfold lengthQ in H. change 3 with (inject_Z 3) in H.
  rewrite <- Zle_Qle in H. lia.
Qed.

End RecommendationOrigin.

(** X4.  The recommendations read the context only through the user
    profile and the number of recent interactions: the current search, the
    search history and the session data never change the answer. *)
Theorem recommendations_ignore_query (w : World) (tools : list Tool.t)
  (c1 c2 : RecommendationContext.t) (limit : Q) :
  sameScoringInputs c1 c2 ->
  AIRecommendationEngine.generateRecommendations w tools c1 limit
  = AIRecommendationEngine.generateRecommendations w tools c2 limit.
Proof.
  destruct c1 as [p1 s1 i1 h1 d1], c2 as [p2 s2 i2 h2 d2].
  unfold sameScoringInputs. simpl. intros [-> Hlen].
  assert (Hscore : forall t,
            AIRecommendationEngine.calculateToolScore tools t
              (RecommendationContext.mk p2 s1 i1 h1 d1)
            = AIRecommendationEngine.calculateToolScore tools t
                (RecommendationContext.mk p2 s2 i2 h2 d2)).
  { intro t.
    unfold AIRecommendationEngine.calculateToolScore,
      AIRecommendationEngine.calculateConfidence, lengthQ.
    simpl. now rewrite Hlen. }
  unfold AIRecommendationEngine.generateRecommendations,
    AIRecommendationEngine.topRecommendations.
  rewrite (map_ext _ _ Hscore).
  reflexivity.
Qed.

Lemma recommendations_ignore_query_witness :
  AIRecommendationEngine.generateRecommendations Samples.world
    [Samples.adTool; Samples.codeTool]
    (RecommendationContext.mk Samples.enterpriseProfile (Some "video editing")
       [] [] (SessionData.mk 0 [] None)) 3
  = AIRecommendationEngine.generateRecommendations Samples.world
      [Samples.adTool; Samples.codeTool]
      (RecommendationContext.mk Samples.enterpriseProfile (Some "payroll")
         [] [SearchQuery.mk "q1" "tax"] (SessionData.mk 90 ["/"] (Some "hire")))
      3.
Proof.
  apply recommendations_ignore_query. split; reflexivity.
Defined.

(** X5.  A recommendation is never labelled [hard]: the learning-curve
    factor is 1.0 or 0.5, which the labelling turns into [easy] or
    [medium]. *)
Theorem recommendations_never_hard (w : World) (tools : list Tool.t)
  (context : RecommendationContext.t) (limit : Q) :
  Forall (fun r =>
            ToolRecommendation.learningCurve r = easy
            \/ ToolRecommendation.learningCurve r = mediumCurve)
    (AIRecommendationEngine.generateRecommendations w tools context limit).
Proof.
  apply Forall_forall. intros r Hr.
  destruct (recommendation_origin w tools context limit r Hr)
    as (t & k & _ & ->).
  simpl.
  destruct (calculateLearningCurveScore_values t
              (RecommendationContext.userProfile context)) as [-> | ->];
    [left | right]; reflexivity.
Qed.

(** X6.  The alternatives of a recommendation: at most three, each one the
    id of a catalog tool of the same category as the recommended tool,
    rated 4.0 or more, and with an id other than the recommended tool's. *)
Theorem recommendation_alternatives (w : World) (tools : list Tool.t)
  (context : RecommendationContext.t) (limit : Q) :
  Forall (fun r =>
            exists (t : Tool.t) (alternatives : list Tool.t),
              In t tools
              /\ ToolRecommendation.toolId r = Tool.id t
              /\ ToolRecommendation.alternatives r = map Tool.id alternatives
              /\ (List.length alternatives <= 3)%nat
              /\ ~ In (ToolRecommendation.toolId r)
                     (ToolRecommendation.alternatives r)
              /\ Forall (fun a =>
                           In a tools
                           /\ Tool.category a = Tool.category t
                           /\ exists x, Tool.rating a = Some x /\ 4 <= x)
                   alternatives)
    (AIRecommendationEngine.generateRecommendations w tools context limit).
Proof.
  apply Forall_forall. intros r Hr.
  destruct (recommendation_origin w tools context limit r Hr)
    as (t & k & Ht & ->).
  exists t, (AIRecommendationEngine.findAlternatives tools t context).
  simpl. repeat split; try assumption.
  - apply findAlternatives_length.
  - rewrite in_map_iff. intros (a & Hid & Ha).
    apply findAlternatives_sound in Ha. tauto.
  - apply Forall_forall. intros a Ha.
    apply findAlternatives_sound in Ha. tauto.
Qed.

(** ** Confidence, return and time of a recommendation *)

Section RecommendationFigures.

Import AIRecommendationEngine.

Lemma factors_sum_range (tool : Tool.t) (context : RecommendationContext.t) :
  ratingInRange tool ->
  between 0
    (fold_left Qplus (Factors.values (calculateFactors tool context)) 0)
    8.2.
Proof.
  intro Hrating.
  set (profile := RecommendationContext.userProfile context).
  pose proof (calculateBudgetMatch_range tool profile) as H1.
  pose proof (calculateExperienceMatch_range tool profile) as H2.
  pose proof (calculateGoalAlignment_range tool context) as H3.
  pose proof (calculateIndustryRelevance_range tool profile) as H4.
  pose proof (calculatePopularityScore_range tool Hrating) as H5.
  pose proof (calculateROIPotential_range tool profile) as H6.
  pose proof (calculateLearningCurveScore_range tool profile) as H7.
  pose proof (calculateIntegrationScore_range tool profile) as H8.
  unfold between in *. simpl. fold profile. lra.
Qed.

Lemma dataQuality_range (context : RecommendationContext.t) :
  between 0
    (JS.min (lengthQ (RecommendationContext.recentInteractions context) / 10) 1)
    1.
Proof.
  unfold between. split.
  - apply min_glb; [| numeral].
    apply quotient_nonneg; [apply lengthQ_nonneg | numeral].
  - apply min_le_r.
Qed.

Lemma calculateConfidence_range (tool : Tool.t)
  (context : RecommendationContext.t) :
  ratingInRange tool ->
  between 0 (calculateConfidence (calculateFactors tool context) context) 1.
Proof.
  intro Hrating. unfold calculateConfidence, between.
  destruct (factors_sum_range tool context Hrating) as [Hlo Hhi].
  destruct (dataQuality_range context) as [Dlo Dhi].
  split.
  - apply min_glb; [| numeral].
    apply Qmult_le_0_compat; [| lra].
    apply quotient_nonneg; [assumption | apply lengthQ_nonneg].
  - eapply Qle_trans; [apply min_le_r | numeral].
Qed.

Lemma calculateConfidence_no_history (tool : Tool.t)
  (context : RecommendationContext.t) :
  ratingInRange tool ->
  RecommendationContext.recentInteractions context = [] ->
  calculateConfidence (calculateFactors tool context) context <= 0.7175.
Proof.
  intros Hrating Hnone. unfold calculateConfidence. rewrite Hnone.
  destruct (factors_sum_range tool context Hrating) as [Hlo Hhi].
  set (total := fold_left Qplus (Factors.values (calculateFactors tool context)) 0)
    in *.
  change (lengthQ (Factors.values (calculateFactors tool context))) with 8.
  change (JS.min (lengthQ (@nil ToolInteraction.t) / 10) 1) with (0 / 10).
  unfold JS.min.
  assert (Heq : total / 8 * (0.7 + 0.3 * (0 / 10)) == total * (7 # 80))
    by field.
  destruct (JS.leb (total / 8 * (0.7 + 0.3 * (0 / 10))) 1.0) eqn:E;
    order_facts.
  - rewrite Heq. unfold between in *. lra.
  - exfalso. rewrite Heq in E. unfold between in *. lra.
Qed.

Lemma estimateROI_range (tool : Tool.t) (profile : UserProfile.t) :
  between 108 (estimateROI tool profile) 360.
Proof.
  unfold estimateROI, getIndustryROIMultiplier, industryMultipliers, between.
  simpl.
  repeat match goal with
         | |- context [if ?b then _ else _] => destruct b
         end;
    destruct (UserProfile.teamSize profile); split; numeral.
Qed.

Lemma estimateTimeToValue_cases (tool : Tool.t) (profile : UserProfile.t) :
  let days e := estimateTimeToValue tool (withExperience profile e) in
  (days expert = 5 /\ days intermediate = 7 /\ days beginner = 11)
  \/ (days expert = 10 /\ days intermediate = 14 /\ days beginner = 21)
  \/ (days expert = 32 /\ days intermediate = 45 /\ days beginner = 68).
Proof.
  unfold estimateTimeToValue. simpl.
  destruct (JS.ltb (estimateToolComplexity tool) 0.3);
    [| destruct (JS.ltb (estimateToolComplexity tool) 0.6)].
  - left. repeat split; reflexivity.
  - right. left. repeat split; reflexivity.
  - right. right. repeat split; reflexivity.
Qed.

End RecommendationFigures.

(** X7.  When every rating of the catalog is on the scale from 0 to 5, the
    confidence of each recommendation lies between 0 and 1; without recent
    interactions, as the callers pass them, it is at most 0.7175. *)
Theorem recommendation_confidence (w : World) (tools : list Tool.t)
  (context : RecommendationContext.t) (limit : Q) :
  Forall ratingInRange tools ->
  Forall (fun r =>
            between 0 (ToolRecommendation.confidence r) 1
            /\ (RecommendationContext.recentInteractions context = [] ->
                ToolRecommendation.confidence r <= 0.7175))
    (AIRecommendationEngine.generateRecommendations w tools context limit).
Proof.
  intro Hratings. apply Forall_forall. intros r Hr.
  destruct (recommendation_origin w tools context limit r Hr)
    as (t & k & Ht & ->).
  rewrite Forall_forall in Hratings. specialize (Hratings t Ht).
  simpl. split.
  - now apply calculateConfidence_range.
  - now apply calculateConfidence_no_history.
Qed.

Lemma recommendation_confidence_witness :
  Forall (fun r => ToolRecommendation.confidence r <= 0.7175)
    (AIRecommendationEngine.generateRecommendations Samples.world
       [Samples.adTool; Samples.codeTool]
       (Samples.contextOf Samples.enterpriseProfile) 5).
Proof.
  assert (H : Forall ratingInRange [Samples.adTool; Samples.codeTool])
    by (repeat constructor; simpl; numeral).
  pose proof (recommendation_confidence Samples.world
                [Samples.adTool; Samples.codeTool]
                (Samples.contextOf Samples.enterpriseProfile) 5 H) as Hall.
  eapply Forall_impl; [| exact Hall].
  intros r [_ Hr]. apply Hr. reflexivity.
Defined.

(** X8.  The estimated ROI of a recommendation depends on the profile
    alone: all recommendations of one answer carry the same figure, a whole
    number of percent between 108 and 360. *)
Theorem recommendation_estimatedROI (w : World) (tools : list Tool.t)
  (context : RecommendationContext.t) (limit : Q) :
  exists figure : Q,
    between 108 figure 360
    /\ Forall (fun r => ToolRecommendation.estimatedROI r = figure)
         (AIRecommendationEngine.generateRecommendations w tools context limit).
Proof.
  exists (AIRecommendationEngine.estimateROI Samples.adTool
            (RecommendationContext.userProfile context)).
  split; [apply estimateROI_range |].
  apply Forall_forall. intros r Hr.
  destruct (recommendation_origin w tools context limit r Hr)
    as (t & k & _ & ->).
  reflexivity.
Qed.

(** X9.  The time to value of a tool is 5, 7 or 11 days, or 10, 14 or 21,
    or 32, 45 or 68, for an expert, an intermediate user and a beginner in
    that order: for one tool an expert is never quoted more days than an
    intermediate user, nor an intermediate user more than a beginner. *)
Theorem estimateTimeToValue_by_experience (tool : Tool.t)
  (profile : UserProfile.t) :
  let days e :=
    AIRecommendationEngine.estimateTimeToValue tool (withExperience profile e) in
  days expert <= days intermediate
  /\ days intermediate <= days beginner
  /\ between 5 (days expert) 32
  /\ between 11 (days beginner) 68.
Proof.
  intro days.
  destruct (estimateTimeToValue_cases tool profile)
    as [(He & Hi & Hb) | [(He & Hi & Hb) | (He & Hi & Hb)]];
    subst days; cbv beta in *; rewrite He, Hi, Hb;
    unfold between; repeat split; numeral.
Qed.

(** ** What moves the ranking and what does not *)

Section RelatedSorts.

Context {A B : Type}.
Variable R : A -> B -> Prop.
Variable cmpA : A -> A -> Q.
Variable cmpB : B -> B -> Q.

Hypothesis same_order :
  forall x y x' y', R x x' -> R y y' ->
    JS.ltb 0 (cmpA x y) = JS.ltb 0 (cmpB x' y').






End RelatedSorts.

Section TeamSize.

Import AIRecommendationEngine.

Variable tools : list Tool.t.
Variable context : RecommendationContext.t.
Variables s1 s2 : TeamSize.

Let c1 := contextWithTeamSize context s1.
Let c2 := contextWithTeamSize context s2.





End TeamSize.


(** ** Goals and budget *)

Section GoalsAndBudget.

Import AIRecommendationEngine.

Lemma goalStep_cases (tool : Tool.t) (acc : Q) (goal : string) :
  (goalOccurs tool goal = false /\ goalStep tool acc goal = acc)
  \/ (goalOccurs tool goal = true /\ acc + 0.3 <= goalStep tool acc goal).
Proof.
  unfold goalOccurs, goalStep.
  destruct (existsb _ _); destruct (JS.includes _ _);
    destruct (JS.includes _ _); simpl;
    first [left; split; reflexivity | right; split; [reflexivity | lra]].
Qed.

Lemma goals_increase (tool : Tool.t) (goals : list string) (acc : Q) :
  acc <= fold_left (goalStep tool) goals acc.
Proof.
  revert acc. induction goals as [| g goals IH]; intro acc; simpl.
  - apply Qle_refl.
  - eapply Qle_trans; [| apply IH].
    destruct (goalStep_cases tool acc g) as [[_ ->] | [_ H]]; lra.
Qed.

Lemma goals_zero_iff (tool : Tool.t) (goals : list string) (acc : Q) :
  fold_left (goalStep tool) goals acc == acc
  <-> forall goal, In goal goals -> goalOccurs tool goal = false.
Proof.
  revert acc. induction goals as [| g goals IH]; intro acc; simpl.
  - split; [intros _ goal [] | reflexivity].
  - pose proof (goals_increase tool goals (goalStep tool acc g)) as Hinc.
    destruct (goalStep_cases tool acc g) as [[Hno Hstep] | [Hyes Hstep]].
    + rewrite Hstep in *. rewrite IH. split.
      * intros H goal [<- | Hin]; auto.
      * intros H goal Hin. apply H. now right.
    + split.
      * intro H. exfalso. lra.
      * intro H. specialize (H g (or_introl eq_refl)). congruence.
Qed.

Lemma calculateBudgetMatch_monotone (tool : Tool.t) (profile : UserProfile.t)
  (m1 m2 : Q) :
  m1 <= m2 ->
  calculateBudgetMatch tool (UserProfile.withMonthly profile m1)
  <= calculateBudgetMatch tool (UserProfile.withMonthly profile m2).
Proof.
  intro H. unfold calculateBudgetMatch. simpl.
  set (price := extractPrice (Tool.pricing tool)).
  destruct (JS.eqb price 0); [apply Qle_refl |].
  destruct (JS.leb price (m1 * 0.3)) eqn:A1;
    destruct (JS.leb price (m2 * 0.3)) eqn:A2;
    destruct (JS.leb price (m1 * 0.6)) eqn:B1;
    destruct (JS.leb price (m2 * 0.6)) eqn:B2;
    destruct (JS.leb price m1) eqn:C1;
    destruct (JS.leb price m2) eqn:C2;
    order_facts; first [numeral | exfalso; lra].
Qed.

End GoalsAndBudget.

(** X11.  The goal factor is 0 exactly when none of the user's goals occurs
    in a tag, in the description or in the category of the tool; in
    particular it is 0 for a profile without goals. *)
Theorem calculateGoalAlignment_zero_iff (tool : Tool.t)
  (context : RecommendationContext.t) :
  AIRecommendationEngine.calculateGoalAlignment tool context == 0
  <-> forall goal,
        In goal (UserProfile.primaryGoals
                   (RecommendationContext.userProfile context)) ->
        goalOccurs tool goal = false.
Proof.
  unfold AIRecommendationEngine.calculateGoalAlignment.
  rewrite <- (goals_zero_iff tool _ 0).
  pose proof (goals_nonneg tool
                (UserProfile.primaryGoals
                   (RecommendationContext.userProfile context)) 0
                (Qle_refl 0)) as Hpos.
  unfold JS.min.
  destruct (JS.leb _ 1.0) eqn:E; order_facts.
  - reflexivity.
  - split; intro H; exfalso.
    + revert H. numeral.
    + rewrite H in E. revert E. numeral.
Qed.

(** X12.  Raising the monthly budget never lowers the budget factor of a
    tool, nor its aggregate score. *)
Theorem budget_never_hurts (tool : Tool.t) (context : RecommendationContext.t)
  (m1 m2 : Q) :
  m1 <= m2 ->
  AIRecommendationEngine.calculateBudgetMatch tool
    (UserProfile.withMonthly (RecommendationContext.userProfile context) m1)
  <= AIRecommendationEngine.calculateBudgetMatch tool
       (UserProfile.withMonthly (RecommendationContext.userProfile context) m2)
  /\ aggregateScore tool (RecommendationContext.withMonthly context m1)
     <= aggregateScore tool (RecommendationContext.withMonthly context m2).
Proof.
  intro H.
  pose proof (calculateBudgetMatch_monotone tool
                (RecommendationContext.userProfile context) m1 m2 H) as Hb.
  split; [exact Hb |].
  pose proof (score_difference tool context m2 m1) as Hd. lra.
Qed.

Lemma budget_never_hurts_witness :
  aggregateScore Samples.adTool
    (RecommendationContext.withMonthly
       (Samples.contextOf (Samples.soloProfile 500)) 40)
  <= aggregateScore Samples.adTool
       (RecommendationContext.withMonthly
          (Samples.contextOf (Samples.soloProfile 500)) 90).
Proof.
  assert (H : 40 <= 90) by numeral.
  exact (proj2 (budget_never_hurts Samples.adTool
                  (Samples.contextOf (Samples.soloProfile 500)) 40 90 H)).
Defined.

(** ** How many, in which order, and which are left out *)

Section StableSort.

Context {A : Type}.
Variable key : A -> Q.

Let cmp (a b : A) : Q := key b - key a.
Let valued (v : Q) (a : A) : bool := JS.eqb (key a) v.

Lemma insertBy_filter (v : Q) (x : A) (l : list A) :
  filter (valued v) (JS.insertBy cmp x l) = filter (valued v) (x :: l).
Proof.
  induction l as [| y l IH]; [reflexivity |].
  cbn [JS.insertBy].
  destruct (JS.ltb 0 (cmp x y)) eqn:E; [| reflexivity].
  cbn [filter] in *. rewrite IH.
  destruct (valued v x) eqn:Ex; destruct (valued v y) eqn:Ey;
    try reflexivity.
  exfalso. unfold valued, cmp in *. order_facts. lra.
Qed.

(** The sort is stable: elements of equal key keep their order. *)
Lemma sort_filter (v : Q) (l : list A) :
  filter (valued v) (JS.sort cmp l) = filter (valued v) l.
Proof.
  induction l as [| x l IH]; [reflexivity |].
  unfold JS.sort in *. cbn [fold_right].
  rewrite insertBy_filter. cbn [filter]. now rewrite IH.
Qed.

Lemma descending_app (l1 l2 : list A) (a b : A) :
  Descending key (l1 ++ l2) -> In a l1 -> In b l2 -> key b <= key a.
Proof.
  unfold Descending. induction l1 as [| x l1 IH]; simpl; intros H Ha Hb.
  - contradiction.
  - inversion H as [| ? ? Hrest Hx]; subst.
    destruct Ha as [-> | Ha]; [| now apply IH].
    rewrite Forall_forall in Hx. apply Hx. apply in_or_app. now right.
Qed.

End StableSort.

Section SliceFacts.

Context {A : Type}.

Lemma toInteger_floor (e : Q) : 0 <= e -> JS.toInteger e = Qfloor e.
Proof.
  intro H. unfold JS.toInteger.
  assert (Hn : (0 <= Qnum e)%Z) by (unfold Qle in H; simpl in H; lia).
  rewrite Z.quot_div_nonneg by lia. now destruct e.
Qed.

Lemma slice0_nonneg (l : list A) (e : Q) :
  0 <= e -> JS.slice0 l e = firstn (Z.to_nat (JS.toInteger e)) l.
Proof.
  intro H. pose proof (toInteger_nonneg e H) as Hpos. unfold JS.slice0.
  destruct (JS.toInteger e <? 0)%Z eqn:E; [apply Z.ltb_lt in E; lia |].
  destruct (Z.le_gt_cases (JS.toInteger e) (Z.of_nat (List.length l)))
    as [Hle | Hgt].
  - now rewrite Z.min_l.
  - rewrite Z.min_r by lia. rewrite Nat2Z.id.
    rewrite firstn_all. symmetry. apply firstn_all2. lia.
Qed.

Lemma slice0_all (l : list A) (e : Q) :
  lengthQ l <= e -> JS.slice0 l e = l.
Proof.
  intro H.
  assert (Hpos : 0 <= e)
    by (eapply Qle_trans; [apply (lengthQ_nonneg l) | exact H]).
  rewrite (slice0_nonneg l e Hpos). apply firstn_all2.
  rewrite (toInteger_floor e Hpos).
  apply Qfloor_resp_le in H. unfold lengthQ in H. rewrite Qfloor_Z in H. lia.
Qed.

Lemma filter_map_commute {B : Type} (f : A -> B) (p : B -> bool)
  (l : list A) :
  filter p (map f l) = map f (filter (fun x => p (f x)) l).
Proof.
  induction l as [| x l IH]; simpl; [reflexivity |].
  destruct (p (f x)); simpl; now rewrite IH.
Qed.

End SliceFacts.

(** X13.  For a limit that is not negative the number of recommendations
    is the smaller of the limit, truncated to a whole number, and the size
    of the catalog; every recommended id is a catalog id; and when the
    limit reaches the size of the catalog the recommended ids are the
    catalog ids, reordered. *)
Theorem recommendations_count (w : World) (tools : list Tool.t)
  (context : RecommendationContext.t) (limit : Q) :
  0 <= limit ->
  let recommendations :=
    AIRecommendationEngine.generateRecommendations w tools context limit in
  List.length recommendations
  = Nat.min (Z.to_nat (JS.toInteger limit)) (List.length tools)
  /\ incl (map ToolRecommendation.toolId recommendations) (map Tool.id tools)
  /\ (lengthQ tools <= limit ->
      Permutation (map ToolRecommendation.toolId recommendations)
        (map Tool.id tools)).
Proof.
  intros Hlimit recommendations. subst recommendations.
  repeat split.
  - unfold AIRecommendationEngine.generateRecommendations, mapi,
      AIRecommendationEngine.topRecommendations.
    rewrite mapi_from_length, (slice0_nonneg _ _ Hlimit), length_firstn.
    now rewrite (Permutation_length (sort_perm _ _)), length_map.
  - intros id Hid. apply in_map_iff in Hid. destruct Hid as (r & <- & Hr).
    destruct (recommendation_origin w tools context limit r Hr)
      as (t & k & Ht & ->).
    simpl. now apply in_map.
  - intro Hall. rewrite recommendations_toolIds.
    unfold AIRecommendationEngine.topRecommendations.
    rewrite slice0_all.
    + rewrite <- (scoredTools_ids tools context).
      apply Permutation_map, sort_perm.
    + unfold lengthQ in *.
      now rewrite (Permutation_length (sort_perm _ _)), length_map.
Qed.


(** X14.  Ties are broken by catalog order: with distinct ids and a limit
    that reaches the size of the catalog, the recommended tools of any one
    score come in the order the catalog lists them. *)
Theorem ties_keep_catalog_order (w : World) (tools : list Tool.t)
  (context : RecommendationContext.t) (limit v : Q) :
  NoDup (map Tool.id tools) ->
  lengthQ tools <= limit ->
  filter (fun id => JS.eqb (scoreById tools context id) v)
    (map ToolRecommendation.toolId
       (AIRecommendationEngine.generateRecommendations w tools context limit))
  = filter (fun id => JS.eqb (scoreById tools context id) v)
      (map Tool.id tools).
Proof.
  intros Hnd Hall.
  rewrite recommendations_toolIds.
  unfold AIRecommendationEngine.topRecommendations.
  set (scored := map (fun tool =>
                        AIRecommendationEngine.calculateToolScore tools tool
                          context) tools).
  rewrite slice0_all
    by (unfold lengthQ in *;
        now rewrite (Permutation_length (sort_perm _ _)); unfold scored;
        rewrite length_map).
  rewrite <- (scoredTools_ids tools context). fold scored.
  rewrite !filter_map_commute. f_equal.
  assert (Hkey : forall l,
            incl l scored ->
            filter (fun s =>
                      JS.eqb (scoreById tools context
                                (Tool.id
                                   (AIRecommendationEngine.RecommendationScore.tool
                                      s))) v) l
            = filter (fun s =>
                        JS.eqb
                          (AIRecommendationEngine.RecommendationScore.score s)
                          v) l).
  { intros l Hl. apply filter_ext_in. intros s Hs.
    now rewrite (scoreById_scored tools context s Hnd (Hl s Hs)). }
  rewrite (Hkey scored) by apply incl_refl.
  rewrite Hkey.
  - apply (sort_filter AIRecommendationEngine.RecommendationScore.score).
  - intros s Hs.
    exact (Permutation_in _
             (sort_perm AIRecommendationEngine.byScoreDesc scored) Hs).
Qed.


(** X15.  The recommendations are the best of the catalog: with distinct
    ids, a catalog tool that is not recommended never has a higher
    aggregate score than a recommended one, whatever the limit. *)
Theorem left_out_never_better (w : World) (tools : list Tool.t)
  (context : RecommendationContext.t) (limit : Q) (t : Tool.t)
  (r : ToolRecommendation.t) :
  NoDup (map Tool.id tools) ->
  In t tools ->
  ~ In (Tool.id t)
      (map ToolRecommendation.toolId
         (AIRecommendationEngine.generateRecommendations w tools context limit)) ->
  In r (AIRecommendationEngine.generateRecommendations w tools context limit) ->
  aggregateScore t context
  <= scoreById tools context (ToolRecommendation.toolId r).
Proof.
  intros Hnd Ht Hout Hr.
  rewrite recommendations_toolIds in Hout.
  unfold AIRecommendationEngine.generateRecommendations, mapi in Hr.
  destruct (in_mapi_from _ _ _ _ Hr) as (s & k & Hs & ->). clear Hr.
  pose proof (top_in_scored tools context limit s Hs) as Hscored.
  change (ToolRecommendation.toolId
            (AIRecommendationEngine.toRecommendation w context s k))
    with (Tool.id (AIRecommendationEngine.RecommendationScore.tool s)).
  rewrite (scoreById_scored tools context s Hnd Hscored).
  unfold AIRecommendationEngine.topRecommendations in *.
  set (scored := map (fun tool =>
                        AIRecommendationEngine.calculateToolScore tools tool
                          context) tools) in *.
  set (sorted := JS.sort AIRecommendationEngine.byScoreDesc scored) in *.
  destruct (slice0_firstn sorted limit) as [n Hn]. rewrite Hn in *.
  set (mine := AIRecommendationEngine.calculateToolScore tools t context).
  assert (Hmine : In mine sorted).
  { apply (Permutation_in _
             (Permutation_sym
                (sort_perm AIRecommendationEngine.byScoreDesc scored))).
    exact (in_map (fun tool =>
                     AIRecommendationEngine.calculateToolScore tools tool
                       context) tools t Ht). }
  rewrite <- (firstn_skipn n sorted) in Hmine.
  apply in_app_or in Hmine. destruct Hmine as [Hin | Hin].
  - exfalso. apply Hout.
    apply (in_map (fun s0 =>
                     Tool.id (AIRecommendationEngine.RecommendationScore.tool s0)))
      in Hin.
    exact Hin.
  - change (aggregateScore t context)
      with (AIRecommendationEngine.RecommendationScore.score mine).
    apply (descending_app AIRecommendationEngine.RecommendationScore.score
             (firstn n sorted) (skipn n sorted)); try assumption.
    rewrite firstn_skipn.
    apply (sort_descending AIRecommendationEngine.RecommendationScore.score).
Qed.


Lemma recommendations_count_witness :
  List.length
    (AIRecommendationEngine.generateRecommendations Samples.world
       [Samples.adTool; Samples.codeTool; Samples.tutorTool]
       (Samples.contextOf Samples.enterpriseProfile) 2.5)
  = 2%nat.
Proof.
  assert (H : 0 <= 2.5) by numeral.
  exact (proj1 (recommendations_count Samples.world
                  [Samples.adTool; Samples.codeTool; Samples.tutorTool]
                  (Samples.contextOf Samples.enterpriseProfile) 2.5 H)).
Defined.

Lemma ties_keep_catalog_order_witness :
  filter (fun id =>
            JS.eqb (scoreById Samples.twoNotes
                      (Samples.contextOf Samples.enterpriseProfile) id)
              (scoreById Samples.twoNotes
                 (Samples.contextOf Samples.enterpriseProfile) "a"))
    (map ToolRecommendation.toolId
       (AIRecommendationEngine.generateRecommendations Samples.world
          Samples.twoNotes (Samples.contextOf Samples.enterpriseProfile) 5))
  = ["a"; "b"].
Proof.
  rewrite (ties_keep_catalog_order Samples.world Samples.twoNotes
             (Samples.contextOf Samples.enterpriseProfile) 5).
  - reflexivity.
  - repeat constructor; simpl; intuition discriminate.
  - numeral.
Defined.

Lemma left_out_never_better_witness :
  aggregateScore Samples.adTool (Samples.contextOf Samples.enterpriseProfile)
  <= scoreById [Samples.adTool; Samples.codeTool]
       (Samples.contextOf Samples.enterpriseProfile) "code-1".
Proof.
  pose (catalog := [Samples.adTool; Samples.codeTool]).
  pose (context := Samples.contextOf Samples.enterpriseProfile).
  pose (r := AIRecommendationEngine.toRecommendation Samples.world context
               (AIRecommendationEngine.calculateToolScore catalog
                  Samples.codeTool context) 0).
  assert (Hnd : NoDup (map Tool.id catalog))
    by (repeat constructor; simpl; intuition discriminate).
  assert (Ht : In Samples.adTool catalog) by (simpl; auto).
  assert (Hrecs :
            AIRecommendationEngine.generateRecommendations Samples.world catalog
              context 1 = [r]) by (vm_compute; reflexivity).
  assert (Hout : ~ In (Tool.id Samples.adTool)
                     (map ToolRecommendation.toolId
                        (AIRecommendationEngine.generateRecommendations
                           Samples.world catalog context 1))).
  { rewrite Hrecs. simpl. intros [H | []]. discriminate H. }
  assert (Hin : In r (AIRecommendationEngine.generateRecommendations
                        Samples.world catalog context 1)).
  { rewrite Hrecs. now left. }
  exact (left_out_never_better Samples.world catalog context 1 Samples.adTool r
           Hnd Ht Hout Hin).
Defined.

(** ** Investment, returns and payback of one tool *)

Section ToolROI.

Import ROICalculator.


Lemma getComplexityMultiplier_range (tool : Tool.t) :
  between 0.5 (getComplexityMultiplier tool) 2.
Proof.
  unfold getComplexityMultiplier, between.
  destruct (JS.includes (Tool.description tool) "enterprise"),
    (JS.includes (Tool.description tool) "advanced"),
    (JS.includes (Tool.description tool) "complex"),
    (tagsSome tool (fun tag => JS.includes tag "enterprise")),
    (tagsSome tool (fun tag => JS.includes tag "advanced"));
    split; numeral.
Qed.











End ToolROI.





(** ** Confidence, risk and payback of a stack *)

Section StackFigures.

Import ROICalculator.









End StackFigures.



(** The stack of no tools: investment, returns and overall ROI are 0,
    the payback period is [Infinity] and the risk is high, the average
    confidence being the quotient of 0 by 0. *)
Theorem empty_stack_figures (w : World) (userProfile : UserProfile.t) :
  let stack := ROICalculator.calculateStackROI w [] userProfile in
  ROICalculator.StackROICalculation.tools stack = []
  /\ ROICalculator.StackROICalculation.totalInvestment stack = 0
  /\ ROICalculator.StackROICalculation.totalReturns stack = 0
  /\ ROICalculator.StackROICalculation.overallROI stack == 0
  /\ ROICalculator.StackROICalculation.paybackPeriod stack = JS.PosInfinity
  /\ ROICalculator.StackROICalculation.riskAssessment stack = highRisk.
Proof.
  cbv zeta. split; [| split; [| split; [| split; [| split]]]];
    reflexivity.
Qed.



(** ** The stacks of the builder *)

Section StackShapes.

Import ToolStackBuilder.

Variable w : World.
Variable userProfile : UserProfile.t.
Variable useCase : string.
Variable budget : Q.

Lemma slice0_short {A : Type} (l : list A) (k : nat) :
  (List.length (JS.slice0 l (inject_Z (Z.of_nat k))) <= k)%nat.
Proof.
  assert (Hpos : 0 <= inject_Z (Z.of_nat k))
    by (unfold Qle; simpl; lia).
  pose proof (slice0_length l _ Hpos) as H.
  unfold lengthQ in H. rewrite <- Zle_Qle in H. lia.
Qed.

Lemma buildEssentialStack_shape (tools : list Tool.t) (s : ToolStack.t) :
  buildEssentialStack w tools userProfile useCase budget = Some s ->
  stackShape 3 simple s.
Proof.
  unfold buildEssentialStack.
  pose proof (slice0_short
                (filter (fun tool => isEssentialForUseCase tool useCase) tools)
                3) as Hlen.
  change (inject_Z (Z.of_nat 3)) with 3 in Hlen.
  destruct (JS.slice0 _ 3) as [| a [| b [| c [| d rest]]]];
    try discriminate;
    try (exfalso; simpl in Hlen; lia);
    destruct (JS.gtb _ budget); try discriminate;
    intro H; injection H as <-; unfold stackShape; simpl;
    repeat split; lia.
Qed.

Lemma buildBalancedStack_shape (tools : list Tool.t) (s : ToolStack.t) :
  buildBalancedStack w tools userProfile useCase budget = Some s ->
  stackShape 5 moderate s.
Proof.
  unfold buildBalancedStack.
  pose proof (slice0_short
                (filter (fun tool => isBalancedForUseCase tool useCase) tools)
                5) as Hlen.
  change (inject_Z (Z.of_nat 5)) with 5 in Hlen.
  destruct (JS.slice0 _ 5) as [| a [| b [| c [| d [| e [| f rest]]]]]];
    try discriminate;
    try (exfalso; simpl in Hlen; lia);
    destruct (JS.gtb _ budget); try discriminate;
    intro H; injection H as <-; unfold stackShape; simpl;
    repeat split; lia.
Qed.

Lemma buildFeatureRichStack_shape (tools : list Tool.t) (s : ToolStack.t) :
  buildFeatureRichStack w tools userProfile useCase budget = Some s ->
  stackShape 7 complex s.
Proof.
  unfold buildFeatureRichStack.
  pose proof (slice0_short
                (filter (fun tool => isFeatureRichForUseCase tool useCase) tools)
                7) as Hlen.
  change (inject_Z (Z.of_nat 7)) with 7 in Hlen.
  destruct (JS.slice0 _ 7)
    as [| a [| b [| c [| d [| e [| f [| g [| h rest]]]]]]]];
    try discriminate;
    try (exfalso; simpl in Hlen; lia);
    destruct (JS.gtb _ budget); try discriminate;
    intro H; injection H as <-; unfold stackShape; simpl;
    repeat split; lia.
Qed.

Lemma pushIf_Forall {A : Type} (P : A -> Prop) (stacks : list A)
  (outcome : option A) :
  Forall P stacks ->
  (forall s, outcome = Some s -> P s) ->
  Forall P (pushIf stacks outcome).
Proof.
  intros Hs Ho. destruct outcome as [s |]; simpl; [| assumption].
  apply Forall_app. split; [assumption |]. repeat constructor. now apply Ho.
Qed.

Lemma buildStackConfigurations_shapes (tools : list Tool.t) :
  Forall (fun s =>
            stackShape 3 simple s \/ stackShape 5 moderate s
            \/ stackShape 7 complex s)
    (buildStackConfigurations w tools userProfile useCase budget).
Proof.
  unfold buildStackConfigurations.
  repeat apply pushIf_Forall.
  - constructor.
  - intros s H. left. now apply (buildEssentialStack_shape tools).
  - intros s H. right. left. now apply (buildBalancedStack_shape tools).
  - intros s H. right. right. now apply (buildFeatureRichStack_shape tools).
Qed.

Lemma buildStackConfigurations_length (tools : list Tool.t) :
  (List.length (buildStackConfigurations w tools userProfile useCase budget)
   <= 3)%nat.
Proof.
  unfold buildStackConfigurations.
  destruct (buildEssentialStack w tools userProfile useCase budget);
    destruct (buildBalancedStack w tools userProfile useCase budget);
    destruct (buildFeatureRichStack w tools userProfile useCase budget);
    simpl; lia.
Qed.

Lemma scoreStack_confidence (stack : ToolStack.t) :
  between 0.7 (StackRecommendation.confidence (scoreStack stack userProfile)) 1.
Proof.
  unfold scoreStack, between. cbn [StackRecommendation.confidence].
  destruct (JS.leb _ _); destruct (_ || _); destruct (JS.gtb _ 0.7);
    destruct (JS.gtb _ 200); split; numeral.
Qed.

Lemma scoreStack_labels (stack : ToolStack.t) :
  stackShape 3 simple stack \/ stackShape 5 moderate stack
  \/ stackShape 7 complex stack ->
  stackLabels (scoreStack stack userProfile).
Proof.
  unfold stackLabels, scoreStack.
  cbn [StackRecommendation.stack StackRecommendation.learningCurve
       StackRecommendation.timeToImplement].
  unfold calculateLearningCurve, estimateImplementationTime.
  intros [H | [H | H]]; pose proof H as (Hc & _); rewrite Hc;
    repeat split; try apply H; reflexivity.
Qed.

End StackShapes.

Section StackAnswer.

Import ToolStackBuilder.

Variable w : World.
Variable tools : list Tool.t.
Variable userProfile : UserProfile.t.
Variable useCase : string.
Variable budget : Q.

(** Every stack of the answer is a scored configuration. *)
Lemma generateToolStack_origin (r : StackRecommendation.t) :
  In r (generateToolStack w tools userProfile useCase budget) ->
  exists pool stack,
    incl pool tools
    /\ In stack (buildStackConfigurations w pool userProfile useCase budget)
    /\ r = scoreStack stack userProfile.
Proof.
  unfold generateToolStack.
  set (pool := JS.filterDefined _).
  destruct (slice0_firstn
              (JS.sort byConfidenceDesc
                 (map (fun stack => scoreStack stack userProfile)
                    (buildStackConfigurations w pool userProfile useCase
                       budget))) 3) as [n ->].
  intro H. apply firstn_In in H.
  apply (Permutation_in _ (sort_perm byConfidenceDesc _)) in H.
  apply in_map_iff in H. destruct H as (stack & <- & Hstack).
  exists pool, stack. repeat split; try assumption.
  subst pool. clear.
  generalize (AIRecommendationEngine.generateRecommendations w tools
                (RecommendationContext.mk userProfile (Some useCase) [] []
                   (SessionData.mk 0 [] None)) 10).
  intro recs. induction recs as [| rec recs IH]; simpl.
  - intros t [].
  - destruct (JS.find _ tools) as [t |] eqn:E; [| exact IH].
    intros t' [<- | Hin]; [| now apply IH].
    unfold JS.find in E. now apply find_some in E.
Qed.

End StackAnswer.

(** X21.  The builder answers with at most three stacks, in non-increasing
    order of confidence, and every confidence lies between 0.7 and 1. *)
Theorem generateToolStack_ranked (w : World) (tools : list Tool.t)
  (userProfile : UserProfile.t) (useCase : string) (budget : Q) :
  let answer :=
    ToolStackBuilder.generateToolStack w tools userProfile useCase budget in
  (List.length answer <= 3)%nat
  /\ Descending ToolStackBuilder.StackRecommendation.confidence answer
  /\ Forall (fun r =>
               between 0.7 (ToolStackBuilder.StackRecommendation.confidence r) 1)
       answer.
Proof.
  intro answer. subst answer. repeat split.
  - unfold ToolStackBuilder.generateToolStack.
    apply (slice0_short _ 3).
  - unfold ToolStackBuilder.generateToolStack.
    match goal with
    | |- Descending _ (JS.slice0 ?l 3) =>
        destruct (slice0_firstn l 3) as [n ->]
    end.
    apply firstn_descending.
    apply (sort_descending ToolStackBuilder.StackRecommendation.confidence).
  - apply Forall_forall. intros r Hr.
    destruct (generateToolStack_origin w tools userProfile useCase budget r Hr)
      as (pool & stack & _ & _ & ->).
    apply scoreStack_confidence.
Qed.

(** X22.  What each stack of the answer looks like: an essential stack has
    one to three tools, a balanced one up to five and a premium one up to
    seven; the priorities follow the position in the stack (three essential,
    two important, then nice-to-have); and the learning curve and the days
    to implement are easy and 14, medium and 21, hard and 35. *)
Theorem generateToolStack_shapes (w : World) (tools : list Tool.t)
  (userProfile : UserProfile.t) (useCase : string) (budget : Q) :
  Forall stackLabels
    (ToolStackBuilder.generateToolStack w tools userProfile useCase budget).
Proof.
  apply Forall_forall. intros r Hr.
  destruct (generateToolStack_origin w tools userProfile useCase budget r Hr)
    as (pool & stack & _ & Hstack & ->).
  apply scoreStack_labels.
  pose proof (buildStackConfigurations_shapes w userProfile useCase budget pool)
    as Hall.
  rewrite Forall_forall in Hall. now apply Hall.
Qed.

Section StackEdges.

Import ToolStackBuilder.

Lemma calculateStackCost_nonneg (tools : list Tool.t) :
  0 <= calculateStackCost tools.
Proof.
  unfold calculateStackCost.
  assert (H : forall acc, 0 <= acc ->
            0 <= fold_left (fun total tool =>
                              let price := extractPrice (Tool.pricing tool) in
                              total + price) tools acc).
  { induction tools as [| t l IH]; intros acc Hacc; simpl; [assumption |].
    apply IH.
    assert (Hp : 0 <= extractPrice (Tool.pricing t)).
    { unfold extractPrice.
      destruct (JS.priceMatch (Tool.pricing t));
        [apply parseFloat_nonneg | apply Qle_refl]. }
    lra. }
  apply H. apply Qle_refl.
Qed.

Lemma builderOutcome_negative (budget : Q) (selected : list Tool.t)
  (outcome : option ToolStack.t) :
  budget < 0 -> builderOutcome budget selected outcome -> outcome = None.
Proof.
  intros Hneg H. destruct outcome as [stack |]; [| reflexivity].
  exfalso. destruct H as (_ & Hcost & Hle).
  pose proof (calculateStackCost_nonneg selected). rewrite Hcost in Hle. lra.
Qed.

Lemma buildStackConfigurations_negative (w : World) (pool : list Tool.t)
  (userProfile : UserProfile.t) (useCase : string) (budget : Q) :
  budget < 0 -> buildStackConfigurations w pool userProfile useCase budget = [].
Proof.
  intro Hneg. unfold buildStackConfigurations.
  rewrite (builderOutcome_negative budget _ _ Hneg
             (buildEssentialStack_outcome w userProfile useCase budget pool)).
  rewrite (builderOutcome_negative budget _ _ Hneg
             (buildBalancedStack_outcome w userProfile useCase budget pool)).
  rewrite (builderOutcome_negative budget _ _ Hneg
             (buildFeatureRichStack_outcome w userProfile useCase budget pool)).
  reflexivity.
Qed.

Lemma ratingAtLeast_weaker (tool : Tool.t) :
  ratingAtLeast tool 4.0 = true -> ratingAtLeast tool 3.5 = true.
Proof.
  unfold ratingAtLeast. destruct (JS.truthy (Tool.rating tool)); [| auto].
  intro H. order_facts. apply geb_ge. lra.
Qed.

Lemma filter_length_le {A : Type} (p q : A -> bool) (l : list A) :
  (forall x, p x = true -> q x = true) ->
  (List.length (filter p l) <= List.length (filter q l))%nat.
Proof.
  intro H. induction l as [| x l IH]; simpl; [lia |].
  destruct (p x) eqn:E.
  - rewrite (H x E). simpl. lia.
  - destruct (q x); simpl; lia.
Qed.

Lemma slice0_natural {A : Type} (l : list A) (k : nat) :
  List.length (JS.slice0 l (inject_Z (Z.of_nat k)))
  = Nat.min k (List.length l).
Proof.
  assert (Hpos : 0 <= inject_Z (Z.of_nat k)) by (unfold Qle; simpl; lia).
  rewrite (slice0_nonneg l _ Hpos), length_firstn.
  rewrite (toInteger_floor _ Hpos), Qfloor_Z. now rewrite Nat2Z.id.
Qed.

End StackEdges.

(** X23.  With a negative budget the builder answers with no stack, and so
    it does for an empty catalog: no price is negative, so every selection
    costs more than a negative budget. *)
Theorem generateToolStack_nothing (w : World) (tools : list Tool.t)
  (userProfile : UserProfile.t) (useCase : string) (budget : Q) :
  (budget < 0 ->
   ToolStackBuilder.generateToolStack w tools userProfile useCase budget = [])
  /\ ToolStackBuilder.generateToolStack w [] userProfile useCase budget = [].
Proof.
  split; [| reflexivity].
  intro Hneg. unfold ToolStackBuilder.generateToolStack.
  now rewrite buildStackConfigurations_negative.
Qed.

Lemma generateToolStack_nothing_witness :
  ToolStackBuilder.generateToolStack Samples.world
    [Samples.adTool; Samples.codeTool] Samples.enterpriseProfile "coding" (-1)
  = [].
Proof.
  assert (H : -1 < 0) by numeral.
  exact (proj1 (generateToolStack_nothing Samples.world
                  [Samples.adTool; Samples.codeTool] Samples.enterpriseProfile
                  "coding" (-1)) H).
Defined.

(** X24.  The three inclusion tests widen: a tool that is essential for a
    use case is balanced for it, a balanced one is feature-rich, and the
    feature-rich test is the essential test or a rating of 3.5 or more.  So
    of one pool the essential selection is never larger than the balanced
    one, nor the balanced one larger than the feature-rich one. *)
Theorem stack_selections_widen (pool : list Tool.t) (useCase : string) :
  (forall tool,
     (ToolStackBuilder.isEssentialForUseCase tool useCase = true ->
      ToolStackBuilder.isBalancedForUseCase tool useCase = true)
     /\ (ToolStackBuilder.isBalancedForUseCase tool useCase = true ->
         ToolStackBuilder.isFeatureRichForUseCase tool useCase = true)
     /\ ToolStackBuilder.isFeatureRichForUseCase tool useCase
        = ToolStackBuilder.isEssentialForUseCase tool useCase
          || ToolStackBuilder.ratingAtLeast tool 3.5)
  /\ (List.length
        (JS.slice0
           (filter (fun tool =>
                      ToolStackBuilder.isEssentialForUseCase tool useCase) pool)
           3)
      <= List.length
           (JS.slice0
              (filter (fun tool =>
                         ToolStackBuilder.isBalancedForUseCase tool useCase)
                 pool) 5)
      <= List.length
           (JS.slice0
              (filter (fun tool =>
                         ToolStackBuilder.isFeatureRichForUseCase tool useCase)
                 pool) 7))%nat.
Proof.
  assert (Hwiden : forall tool,
    (ToolStackBuilder.isEssentialForUseCase tool useCase = true ->
     ToolStackBuilder.isBalancedForUseCase tool useCase = true)
    /\ (ToolStackBuilder.isBalancedForUseCase tool useCase = true ->
        ToolStackBuilder.isFeatureRichForUseCase tool useCase = true)
    /\ ToolStackBuilder.isFeatureRichForUseCase tool useCase
       = ToolStackBuilder.isEssentialForUseCase tool useCase
         || ToolStackBuilder.ratingAtLeast tool 3.5).
  { intro tool.
    unfold ToolStackBuilder.isFeatureRichForUseCase,
      ToolStackBuilder.isBalancedForUseCase.
    pose proof (ratingAtLeast_weaker tool) as Hw.
    destruct (ToolStackBuilder.isEssentialForUseCase tool useCase);
      destruct (ToolStackBuilder.ratingAtLeast tool 4.0);
      destruct (ToolStackBuilder.ratingAtLeast tool 3.5);
      simpl; repeat split; auto; discriminate (Hw eq_refl). }
  split; [exact Hwiden |].
  change 3 with (inject_Z (Z.of_nat 3)).
  change 5 with (inject_Z (Z.of_nat 5)).
  change 7 with (inject_Z (Z.of_nat 7)).
  rewrite !slice0_natural.
  pose proof (filter_length_le
                (fun tool => ToolStackBuilder.isEssentialForUseCase tool useCase)
                (fun tool => ToolStackBuilder.isBalancedForUseCase tool useCase)
                pool (fun t => proj1 (Hwiden t))) as H1.
  pose proof (filter_length_le
                (fun tool => ToolStackBuilder.isBalancedForUseCase tool useCase)
                (fun tool => ToolStackBuilder.isFeatureRichForUseCase tool useCase)
                pool (fun t => proj1 (proj2 (Hwiden t)))) as H2.
  lia.
Qed.

(** X25.  The estimated ROI of a stack grows with the number of its tools
    only up to five: any two stacks of five or more tools get the same
    figure for one profile, and a stack of three tools gets the figure that
    the recommendation engine estimates for a single tool. *)
Theorem calculateStackROI_saturates (tools more : list Tool.t)
  (userProfile : UserProfile.t) :
  (5 <= List.length tools)%nat ->
  (5 <= List.length more)%nat ->
  ToolStackBuilder.calculateStackROI tools userProfile
  = ToolStackBuilder.calculateStackROI more userProfile
  /\ (forall a b c tool,
        ToolStackBuilder.calculateStackROI [a; b; c] userProfile
        == AIRecommendationEngine.estimateROI tool userProfile).
Proof.
  intros Ht Hm.
  assert (Hcap : forall l : list Tool.t,
            (5 <= List.length l)%nat -> JS.min (lengthQ l / 3) 1.5 = 1.5).
  { intros l Hl. unfold JS.min.
    destruct (JS.leb (lengthQ l / 3) 1.5) eqn:E; [| reflexivity].
    exfalso. order_facts.
    assert (H5 : 5 <= lengthQ l).
    { unfold lengthQ. change 5 with (inject_Z 5). rewrite <- Zle_Qle. lia. }
    assert (Hdiv : lengthQ l / 3 == lengthQ l * (1 # 3)) by field.
    rewrite Hdiv in E. lra. }
  split.
  - unfold ToolStackBuilder.calculateStackROI. now rewrite !Hcap.
  - intros a b c tool.
    unfold ToolStackBuilder.calculateStackROI,
      AIRecommendationEngine.estimateROI, JS.round.
    apply inject_Z_injective. apply Qfloor_comp.
    change (JS.min (lengthQ [a; b; c] / 3) 1.5) with (3 / 3).
    change (ToolStackBuilder.getIndustryROIMultiplier
              (UserProfile.industry userProfile))
      with (AIRecommendationEngine.getIndustryROIMultiplier
              (UserProfile.industry userProfile)).
    change (ToolStackBuilder.getTeamSizeMultiplier
              (UserProfile.teamSize userProfile))
      with (AIRecommendationEngine.getTeamSizeMultiplier
              (UserProfile.teamSize userProfile)).
    field.
Qed.

Lemma calculateStackROI_saturates_witness :
  ToolStackBuilder.calculateStackROI
    [Samples.adTool; Samples.adTool; Samples.adTool; Samples.adTool;
     Samples.adTool] Samples.enterpriseProfile
  = ToolStackBuilder.calculateStackROI
      [Samples.codeTool; Samples.codeTool; Samples.codeTool; Samples.codeTool;
       Samples.codeTool; Samples.codeTool; Samples.codeTool]
      Samples.enterpriseProfile.
Proof.
  apply (calculateStackROI_saturates
           [Samples.adTool; Samples.adTool; Samples.adTool; Samples.adTool;
            Samples.adTool]
           [Samples.codeTool; Samples.codeTool; Samples.codeTool;
            Samples.codeTool; Samples.codeTool; Samples.codeTool;
            Samples.codeTool] Samples.enterpriseProfile); simpl; lia.
Defined.

Section StackTools.

Import ToolStackBuilder.

Variable w : World.
Variable userProfile : UserProfile.t.
Variable useCase : string.
Variable budget : Q.

Lemma buildEssentialStack_ids (pool : list Tool.t) (s : ToolStack.t) :
  buildEssentialStack w pool userProfile useCase budget = Some s ->
  map ToolStackItem.toolId (ToolStack.tools s)
  = map Tool.id
      (JS.slice0 (filter (fun tool => isEssentialForUseCase tool useCase) pool)
         3).
Proof.
  unfold buildEssentialStack.
  destruct (JS.slice0 _ 3) as [| t ts]; [discriminate |].
  destruct (JS.gtb _ budget); [discriminate |].
  intro H. injection H as <-.
  cbn [ToolStack.tools map ToolStackItem.toolId]. f_equal.
  now rewrite map_map.
Qed.

Lemma buildBalancedStack_ids (pool : list Tool.t) (s : ToolStack.t) :
  buildBalancedStack w pool userProfile useCase budget = Some s ->
  map ToolStackItem.toolId (ToolStack.tools s)
  = map Tool.id
      (JS.slice0 (filter (fun tool => isBalancedForUseCase tool useCase) pool)
         5).
Proof.
  unfold buildBalancedStack.
  destruct (JS.slice0 _ 5) as [| t ts]; [discriminate |].
  destruct (JS.gtb _ budget); [discriminate |].
  intro H. injection H as <-.
  unfold mapi. cbn [ToolStack.tools mapi_from map ToolStackItem.toolId].
  f_equal. now apply map_mapi_from.
Qed.

Lemma buildFeatureRichStack_ids (pool : list Tool.t) (s : ToolStack.t) :
  buildFeatureRichStack w pool userProfile useCase budget = Some s ->
  map ToolStackItem.toolId (ToolStack.tools s)
  = map Tool.id
      (JS.slice0
         (filter (fun tool => isFeatureRichForUseCase tool useCase) pool) 7).
Proof.
  unfold buildFeatureRichStack.
  destruct (JS.slice0 _ 7) as [| t ts]; [discriminate |].
  destruct (JS.gtb _ budget); [discriminate |].
  intro H. injection H as <-.
  unfold mapi. cbn [ToolStack.tools mapi_from map ToolStackItem.toolId].
  f_equal. now apply map_mapi_from.
Qed.

Lemma selection_ids (p : Tool.t -> bool) (pool : list Tool.t) (e : Q) :
  NoDup (map Tool.id pool) ->
  NoDup (map Tool.id (JS.slice0 (filter p pool) e))
  /\ incl (map Tool.id (JS.slice0 (filter p pool) e)) (map Tool.id pool).
Proof.
  intro Hnd. destruct (slice0_firstn (filter p pool) e) as [n ->]. split.
  - rewrite <- firstn_map. apply firstn_NoDup.
    induction pool as [| t pool IH]; simpl; [constructor |].
    inversion Hnd as [| ? ? Ht Hpool]; subst.
    destruct (p t); simpl; [| now apply IH].
    constructor; [| now apply IH].
    intro Hin. apply Ht. apply in_map_iff in Hin.
    destruct Hin as (u & Hid & Hu). apply filter_In in Hu.
    rewrite <- Hid. apply in_map. tauto.
  - intros i Hi. apply in_map_iff in Hi. destruct Hi as (t & <- & Ht).
    apply firstn_In in Ht. apply filter_In in Ht. apply in_map. tauto.
Qed.

Lemma configuration_ids (pool : list Tool.t) :
  NoDup (map Tool.id pool) ->
  Forall (fun s =>
            NoDup (map ToolStackItem.toolId (ToolStack.tools s))
            /\ incl (map ToolStackItem.toolId (ToolStack.tools s))
                 (map Tool.id pool))
    (buildStackConfigurations w pool userProfile useCase budget).
Proof.
  intro Hnd. unfold buildStackConfigurations.
  repeat apply pushIf_Forall.
  - constructor.
  - intros s H. rewrite (buildEssentialStack_ids pool s H).
    now apply selection_ids.
  - intros s H. rewrite (buildBalancedStack_ids pool s H).
    now apply selection_ids.
  - intros s H. rewrite (buildFeatureRichStack_ids pool s H).
    now apply selection_ids.
Qed.

(** The tools found for a list of distinct ids have distinct ids. *)
Lemma found_ids (tools : list Tool.t) (ids : list string) :
  NoDup ids ->
  let pool :=
    JS.filterDefined
      (map (fun id => JS.find (fun t => String.eqb (Tool.id t) id) tools) ids)
  in
  NoDup (map Tool.id pool) /\ incl (map Tool.id pool) ids
  /\ incl pool tools.
Proof.
  intro Hnd. cbv zeta.
  induction Hnd as [| i ids Hi Hids IH]; simpl.
  - repeat split; [constructor | intros x [] | intros x []].
  - destruct IH as (IH1 & IH2 & IH3).
    destruct (JS.find _ tools) as [t |] eqn:E; simpl.
    + unfold JS.find in E. apply find_some in E. destruct E as [Hin Hid].
      apply String.eqb_eq in Hid. repeat split.
      * constructor; [| assumption]. rewrite Hid. intro H. apply Hi.
        now apply IH2.
      * intros x [<- | Hx]; [left; now symmetry | right; now apply IH2].
      * intros x [<- | Hx]; [assumption | now apply IH3].
    + repeat split; try assumption.
      intros x Hx. right. now apply IH2.
Qed.

End StackTools.

(** X26.  For a catalog with pairwise distinct ids, no stack of the answer
    names a tool twice, and every tool it names is a tool of the catalog. *)
Theorem generateToolStack_tools (w : World) (tools : list Tool.t)
  (userProfile : UserProfile.t) (useCase : string) (budget : Q) :
  NoDup (map Tool.id tools) ->
  Forall (fun r =>
            let items :=
              ToolStack.tools (ToolStackBuilder.StackRecommendation.stack r) in
            NoDup (map ToolStackItem.toolId items)
            /\ incl (map ToolStackItem.toolId items) (map Tool.id tools))
    (ToolStackBuilder.generateToolStack w tools userProfile useCase budget).
Proof.
  intro Hnd. unfold ToolStackBuilder.generateToolStack.
  set (context := RecommendationContext.mk userProfile (Some useCase) [] []
                    (SessionData.mk 0 [] None)).
  set (recs := AIRecommendationEngine.generateRecommendations w tools context 10).
  assert (Hrecs : NoDup (map ToolRecommendation.toolId recs)).
  { unfold recs. rewrite recommendations_toolIds. now apply top_ids_NoDup. }
  pose proof (found_ids tools _ Hrecs) as Hpool. cbv zeta in Hpool.
  rewrite map_map in Hpool.
  set (pool := JS.filterDefined _) in *.
  destruct Hpool as (Hpn & _ & Hpt).
  apply slice0_Forall.
  eapply Permutation_Forall;
    [symmetry; apply (sort_perm ToolStackBuilder.byConfidenceDesc) |].
  rewrite Forall_map. cbn [ToolStackBuilder.StackRecommendation.stack
                             ToolStackBuilder.scoreStack].
  eapply Forall_impl;
    [| apply (configuration_ids w userProfile useCase budget pool Hpn)].
  cbv beta. intros s [Hs1 Hs2]. split; [assumption |].
  intros i Hi. apply Hs2 in Hi. apply in_map_iff in Hi.
  destruct Hi as (t & <- & Ht). apply in_map. now apply Hpt.
Qed.

Lemma generateToolStack_tools_witness :
  Forall (fun r =>
            NoDup (map ToolStackItem.toolId
                     (ToolStack.tools
                        (ToolStackBuilder.StackRecommendation.stack r))))
    (ToolStackBuilder.generateToolStack Samples.world
       [Samples.adTool; Samples.codeTool] Samples.enterpriseProfile "coding"
       100).
Proof.
  assert (H : NoDup (map Tool.id [Samples.adTool; Samples.codeTool]))
    by (repeat constructor; simpl; intuition discriminate).
  eapply Forall_impl;
    [| exact (generateToolStack_tools Samples.world
                [Samples.adTool; Samples.codeTool] Samples.enterpriseProfile
                "coding" 100 H)].
  cbv beta. intros r Hr. exact (proj1 Hr).
Defined.

(** ** The replies of the chat dispatcher *)

Section ChatReplies.

Import AIAssistant.

Lemma top5_sound (p : Tool.t -> bool) (tools : list Tool.t) :
  incl (top5 p tools) tools /\ (List.length (top5 p tools) <= 5)%nat.
Proof.
  unfold top5. split.
  - destruct (slice0_firstn (filter p tools) 5) as [n ->].
    intros t Ht. apply firstn_In in Ht. apply filter_In in Ht. tauto.
  - apply (slice0_short _ 5).
Qed.

Lemma searchPatterns_sound (tools : list Tool.t) :
  Forall (fun pattern =>
            incl (SearchPattern.tools pattern) tools
            /\ (List.length (SearchPattern.tools pattern) <= 5)%nat)
    (searchPatterns tools).
Proof.
  unfold searchPatterns.
  repeat (constructor; [cbn [SearchPattern.tools]; apply top5_sound |]).
  constructor.
Qed.

(** The reply after the import: its cards show catalog tools, five at
    most, its context lists their names, and it carries no type. *)
Lemma searchCatalog_sound (tools : list Tool.t) (message messageLower : string) :
  let reply := searchCatalog tools message messageLower in
  let shown := cardTools (AIResponse.content reply) in
  incl shown tools
  /\ (List.length shown <= 5)%nat
  /\ Context.tools (AIResponse.context reply)
     = match shown with
       | [] => None
       | _ => Some (map Tool.name shown)
       end
  /\ Context.type (AIResponse.context reply) = None.
Proof.
  cbv zeta. unfold searchCatalog.
  set (general := if (_ && _)%bool then _ else _).
  assert (Hgeneral :
            incl (cardTools (AIResponse.content general)) tools
            /\ (List.length (cardTools (AIResponse.content general)) <= 5)%nat
            /\ Context.tools (AIResponse.context general)
               = match cardTools (AIResponse.content general) with
                 | [] => None
                 | _ => Some (map Tool.name
                                (cardTools (AIResponse.content general)))
                 end
            /\ Context.type (AIResponse.context general) = None).
  { subst general.
    destruct (_ && _)%bool;
      [| simpl; repeat split; [intros t [] | lia]].
    match goal with
    | |- context [JS.slice0 ?l 3] =>
        pose proof (slice0_short l 3) as Hlen;
        destruct (slice0_firstn l 3) as [n Hn];
        change (inject_Z (Z.of_nat 3)) with 3 in Hlen;
        assert (Hincl : incl (JS.slice0 l 3) tools)
          by (rewrite Hn; intros t Ht; apply firstn_In in Ht;
              apply filter_In in Ht; tauto);
        destruct (JS.slice0 l 3) as [| t found] eqn:E
    end.
    - simpl. repeat split; [intros t [] | lia].
    - cbn [AIResponse.content AIResponse.context Context.tools Context.type
           cardTools flat_map app].
      rewrite app_nil_r. repeat split; try assumption. simpl in *. lia. }
  destruct (JS.find _ (searchPatterns tools)) as [p |] eqn:E;
    [| exact Hgeneral].
  unfold JS.find in E. apply find_some in E. destruct E as [Hin _].
  pose proof (searchPatterns_sound tools) as Hall.
  rewrite Forall_forall in Hall. destruct (Hall p Hin) as [Hincl Hlen].
  destruct (SearchPattern.tools p) as [| t found]; [exact Hgeneral |].
  cbn [AIResponse.content AIResponse.context Context.tools Context.type
       cardTools flat_map app].
  rewrite app_nil_r. repeat split; assumption.
Qed.

Lemma canned_cases (catalog : option (list Tool.t)) (message : string) :
  cannedReply (processUserMessage catalog message)
  \/ processUserMessage catalog message
     = match catalog with
       | None => errorResponse
       | Some tools =>
           searchCatalog tools message (JS.trim (JS.toLowerCase message))
       end.
Proof.
  unfold processUserMessage, cannedReply.
  destruct (existsb _ greetings); [tauto |].
  destruct (_ || _ || _); [tauto |].
  destruct (_ || _); [tauto |].
  destruct (_ || _ || _); tauto.
Qed.

Lemma canned_any_catalog (c1 c2 : option (list Tool.t)) (message : string) :
  cannedReply (processUserMessage c1 message) ->
  processUserMessage c2 message = processUserMessage c1 message.
Proof.
  assert (Hsearch : forall tools ml,
            ~ cannedReply (searchCatalog tools message ml)).
  { intros tools ml H.
    pose proof (searchCatalog_sound tools message ml) as (_ & _ & _ & Htype).
    destruct H as [H | [H | [H | H]]]; rewrite H in Htype; discriminate Htype. }
  assert (Herror : ~ cannedReply errorResponse).
  { intros [H | [H | [H | H]]]; discriminate H. }
  unfold processUserMessage.
  destruct (existsb _ greetings); [reflexivity |].
  destruct (_ || _ || _); [reflexivity |].
  destruct (_ || _); [reflexivity |].
  destruct (_ || _ || _); [reflexivity |].
  intro H. exfalso. destruct c1 as [tools |];
    [exact (Hsearch tools _ H) | exact (Herror H)].
Qed.

End ChatReplies.

(** X27.  Whatever the message and the catalog, the cards of a reply show
    tools of the catalog, five at most, and the context of the reply lists
    exactly the names of the tools shown; after a failed import no card is
    shown. *)
Theorem reply_cards (catalog : option (list Tool.t)) (message : string) :
  let reply := AIAssistant.processUserMessage catalog message in
  let shown := cardTools (AIAssistant.AIResponse.content reply) in
  incl shown (match catalog with Some tools => tools | None => [] end)
  /\ (List.length shown <= 5)%nat
  /\ AIAssistant.Context.tools (AIAssistant.AIResponse.context reply)
     = match shown with
       | [] => None
       | _ => Some (map Tool.name shown)
       end.
Proof.
  cbv zeta.
  destruct (canned_cases catalog message) as [Hc | ->].
  - destruct Hc as [-> | [-> | [-> | ->]]]; simpl;
      repeat split; try lia; intros t [].
  - destruct catalog as [tools |].
    + pose proof (searchCatalog_sound tools message
                    (JS.trim (JS.toLowerCase message))) as H.
      cbv zeta in H. tauto.
    + simpl. repeat split; try lia. intros t [].
Qed.

(** X28.  A reply either ignores the catalog, being one of the four fixed
    replies and the same for every outcome of the import, or it is made
    after the import: then a failed import is answered by the apology, and
    no catalog makes the reply a fixed one. *)
Theorem reply_fixed_or_searched (message : string) :
  (exists fixed,
     cannedReply fixed
     /\ forall catalog,
          AIAssistant.processUserMessage catalog message = fixed)
  \/ (AIAssistant.processUserMessage None message = AIAssistant.errorResponse
      /\ forall catalog,
           ~ cannedReply (AIAssistant.processUserMessage catalog message)).
Proof.
  destruct (canned_cases None message) as [Hc | Hnone].
  - left. exists (AIAssistant.processUserMessage None message).
    split; [assumption |]. intro catalog. now apply canned_any_catalog.
  - right. split; [assumption |].
    intros catalog Hc.
    pose proof (canned_any_catalog catalog None message Hc) as Heq.
    rewrite Hnone in Heq. rewrite <- Heq in Hc.
    destruct Hc as [H | [H | [H | H]]]; discriminate H.
Qed.

Section LetterCase.

Import AIAssistant.

Lemma find_same {A : Type} (p q : A -> bool) (l : list A) :
  (forall x, p x = q x) -> List.find p l = List.find q l.
Proof.
  intro H. induction l as [| x l IH]; simpl; [reflexivity |].
  now rewrite H, IH.
Qed.

Lemma searchCatalog_case (tools : list Tool.t) (m1 m2 messageLower : string) :
  JS.toLowerCase m1 = JS.toLowerCase m2 ->
  AIResponse.context (searchCatalog tools m1 messageLower)
  = AIResponse.context (searchCatalog tools m2 messageLower)
  /\ cardTools (AIResponse.content (searchCatalog tools m1 messageLower))
     = cardTools (AIResponse.content (searchCatalog tools m2 messageLower)).
Proof.
  intro H. unfold searchCatalog, JS.find.
  rewrite (find_same
             (fun pattern => test (SearchPattern.pattern pattern) m1)
             (fun pattern => test (SearchPattern.pattern pattern) m2))
    by (intro p; unfold test; now rewrite H).
  destruct (List.find _ (searchPatterns tools)) as [p |];
    [destruct (SearchPattern.tools p) as [| t found] |];
    try (split; reflexivity);
    (destruct (_ && _)%bool; [| split; reflexivity]);
    destruct (JS.slice0 _ 3); split; reflexivity.
Qed.

End LetterCase.

(** X29.  The letter case of a message never changes which rule answers it
    nor which tools are shown: two messages with the same lower-case form
    get replies with the same context and the same tools in their cards. *)
Theorem reply_ignores_case (catalog : option (list Tool.t)) (m1 m2 : string) :
  JS.toLowerCase m1 = JS.toLowerCase m2 ->
  AIAssistant.AIResponse.context (AIAssistant.processUserMessage catalog m1)
  = AIAssistant.AIResponse.context (AIAssistant.processUserMessage catalog m2)
  /\ cardTools
       (AIAssistant.AIResponse.content
          (AIAssistant.processUserMessage catalog m1))
     = cardTools
         (AIAssistant.AIResponse.content
            (AIAssistant.processUserMessage catalog m2)).
Proof.
  intro H. unfold AIAssistant.processUserMessage. rewrite H.
  destruct (existsb _ AIAssistant.greetings); [split; reflexivity |].
  destruct (_ || _ || _); [split; reflexivity |].
  destruct (_ || _); [split; reflexivity |].
  destruct (_ || _ || _); [split; reflexivity |].
  destruct catalog as [tools |]; [| split; reflexivity].
  now apply searchCatalog_case.
Qed.

Lemma reply_ignores_case_witness :
  AIAssistant.AIResponse.context
    (AIAssistant.processUserMessage (Some [Samples.tutorTool])
       "Student COURSE planner")
  = AIAssistant.AIResponse.context
      (AIAssistant.processUserMessage (Some [Samples.tutorTool])
         "student course planner").
Proof.
  exact (proj1 (reply_ignores_case (Some [Samples.tutorTool])
                  "Student COURSE planner" "student course planner" eq_refl)).
Defined.

(** ** The send handler *)

Section Trimming.

Lemma trimEnd_idempotent (s : string) : JS.trimEnd (JS.trimEnd s) = JS.trimEnd s.
Proof.
  induction s as [| c s IH]; [reflexivity |].
  cbn [JS.trimEnd].
  destruct (JS.trimEnd s) as [| d r] eqn:E.
  - destruct (JS.isSpace c) eqn:Ec; [reflexivity |].
    cbn [JS.trimEnd]. now rewrite Ec.
  - change (JS.trimEnd (String c (String d r)))
      with (match JS.trimEnd (String d r) with
            | EmptyString =>
                if JS.isSpace c then EmptyString else String c EmptyString
            | String e x => String c (String e x)
            end).
    rewrite IH. reflexivity.
Qed.

Lemma trimStart_head (s : string) :
  match JS.trimStart s with
  | String c _ => JS.isSpace c = false
  | EmptyString => True
  end.
Proof.
  induction s as [| c s IH]; simpl; [exact I |].
  destruct (JS.isSpace c) eqn:E; [exact IH | exact E].
Qed.

Lemma trimEnd_head (s : string) :
  match s with
  | String c _ => JS.isSpace c = false
  | EmptyString => True
  end ->
  JS.trimStart (JS.trimEnd s) = JS.trimEnd s.
Proof.
  destruct s as [| c s]; [reflexivity |]. intro Hc.
  cbn [JS.trimEnd]. destruct (JS.trimEnd s); rewrite ?Hc; simpl;
    now rewrite Hc.
Qed.

Lemma trim_idempotent (s : string) : JS.trim (JS.trim s) = JS.trim s.
Proof.
  unfold JS.trim.
  rewrite (trimEnd_head (JS.trimStart s) (trimStart_head s)).
  apply trimEnd_idempotent.
Qed.

End Trimming.

(** X30.  Sending never loses history.  With a blank input, or while a
    reply is awaited, the state is left as it is; otherwise exactly two
    messages are appended, the user's trimmed text and then the assistant's
    reply to it, the input is cleared and the handler is idle again.  White
    space around the input changes no message. *)
Theorem handleSendMessage_effect (catalog : option (list Tool.t))
  (sentAt answeredAt : Z) (state : ChatWindow.State.t) :
  let next := ChatWindow.handleSendMessage catalog sentAt answeredAt state in
  let text := JS.trim (ChatWindow.State.inputValue state) in
  let reply := AIAssistant.processUserMessage catalog text in
  (text = EmptyString \/ ChatWindow.State.isLoading state = true ->
   next = state)
  /\ (text <> EmptyString -> ChatWindow.State.isLoading state = false ->
      exists sent answer,
        ChatWindow.State.messages next
        = ChatWindow.State.messages state ++ [sent; answer]
        /\ ChatWindow.Message.sender sent = ChatWindow.user
        /\ ChatWindow.Message.content sent
           = [AIAssistant.TextContent (AIAssistant.Literal text)]
        /\ ChatWindow.Message.sender answer = ChatWindow.assistant
        /\ ChatWindow.Message.content answer
           = AIAssistant.AIResponse.content reply
        /\ ChatWindow.Message.context answer
           = Some (AIAssistant.AIResponse.context reply)
        /\ ChatWindow.State.inputValue next = EmptyString
        /\ ChatWindow.State.isLoading next = false)
  /\ ChatWindow.State.messages
       (ChatWindow.handleSendMessage catalog sentAt answeredAt
          (ChatWindow.State.mk (ChatWindow.State.messages state) text
             (ChatWindow.State.isLoading state)))
     = ChatWindow.State.messages next.
Proof.
  cbv zeta. unfold ChatWindow.handleSendMessage.
  cbn [ChatWindow.State.inputValue ChatWindow.State.isLoading
       ChatWindow.State.messages].
  rewrite trim_idempotent.
  set (text := JS.trim (ChatWindow.State.inputValue state)).
  destruct (String.eqb text "") eqn:Et.
  - apply String.eqb_eq in Et. simpl. repeat split; try reflexivity.
    intros Hne. contradiction.
  - apply String.eqb_neq in Et.
    destruct (ChatWindow.State.isLoading state) eqn:El; simpl.
    + repeat split; try reflexivity. intros _ H. discriminate H.
    + repeat split.
      * intros [H | H]; [contradiction | discriminate H].
      * intros _ _. eexists. eexists.
        rewrite <- app_assoc. cbn [app].
        repeat split; reflexivity.
Qed.

Lemma handleSendMessage_effect_witness :
  ChatWindow.State.messages
    (ChatWindow.handleSendMessage None 10 11
       (ChatWindow.State.mk [] "   " false)) = [].
Proof.
  assert (H : JS.trim "   " = EmptyString \/ false = true)
    by (left; reflexivity).
  rewrite (proj1 (handleSendMessage_effect None 10 11
                    (ChatWindow.State.mk [] "   " false)) H).
  reflexivity.
Defined.
